(** * Disaster early-warning platform

    A shallow embedding of the ingestion pipeline of the platform
    (services/alertService.js, services/dataCollector.js,
    services/websocketService.js, routes/alerts.js, models/Alert.js,
    the cron jobs of server.js and the fallback of routes/predictions.js)
    and the properties of classification, deduplication, status updates,
    source fallback and fan-out that are checked against it.

    Modelling conventions.
    - A JavaScript number is a rational ([Q]); a measurement key that is
      absent from an object ([undefined]) is [None].  NaN and the
      infinities do not occur in stored documents and are not modelled.
    - [Date.now()] is a parameter [now : Z] (milliseconds) of every
      operation that reads the clock; one operation reads one instant.
    - The MongoDB collections are lists in insertion order; [findOne]
      returns the first match.  The store itself is assumed reachable: the
      only failure of [save] that is modelled is schema validation.
    - [Math.random()] is an explicit source [nat -> Q] read at a cursor.
    - Logging has no effect on the state and is left out. *)

From Stdlib Require Import QArith Qround Lqa ZArith Lia Ascii String.
From stdpp Require Import gmap strings list pretty sorting.

(** ** JavaScript values and the few built-ins the services use *)

Module Js.

(** Comparisons of numbers.  ToBoolean of a number [q] that is present
    is [negb (Qeq_bool q 0)]; an absent one is falsy. *)
Definition ge (a b : Q) : bool := Qle_bool b a.
Definition lt (a b : Q) : bool := negb (Qle_bool b a).
Definition le (a b : Q) : bool := Qle_bool a b.
Definition gt (a b : Q) : bool := negb (Qle_bool a b).

Definition zeros (n : nat) : string := String.concat "" (replicate n "0").

(** [Number.prototype.toFixed(fd)] for numbers below 10^21: the sign is
    taken off, the magnitude is rounded to [fd] decimals (ties upwards),
    and the digits are padded to at least one integer digit. *)
Definition toFixed (x : Q) (fd : nat) : string :=
  let neg := negb (Qle_bool 0 x) in
  let ax := if neg then Qopp x else x in
  let n := Qfloor (ax * inject_Z (10 ^ Z.of_nat fd) + (1 # 2)) in
  let digits := pretty n in
  let m := zeros (S fd - String.length digits) +:+ digits in
  let k := (String.length m - fd)%nat in
  let body := if Nat.eqb fd 0 then m
              else String.substring 0 k m +:+ "." +:+ String.substring k fd m in
  if neg then "-" +:+ body else body.

Definition is_space (c : ascii) : bool :=
  let n := nat_of_ascii c in
  Nat.eqb n 32 || (Nat.leb 9 n && Nat.leb n 13).

Fixpoint trimStart (s : string) : string :=
  match s with
  | EmptyString => EmptyString
  | String c s' => if is_space c then trimStart s' else s
  end.

Fixpoint trimEnd (s : string) : string :=
  match s with
  | EmptyString => EmptyString
  | String c s' =>
      match trimEnd s' with
      | EmptyString => if is_space c then EmptyString else String c EmptyString
      | t => String c t
      end
  end.

(** [String.prototype.trim], on the ASCII white space characters. *)
Definition trim (s : string) : string := trimEnd (trimStart s).

(** Values that travel over the socket: the JSON image of a document. *)
#[local] Unset Elimination Schemes.
Inductive value :=
| Undefined
| Null
| Bool (b : bool)
| Num (q : Q)
| Str (s : string)
| Date (ms : Z)
| ObjectId (n : nat)
| Arr (items : list value)
| Obj (fields : list (string * value)).
#[local] Set Elimination Schemes.

Definition ofNum (x : option Q) : value :=
  match x with None => Undefined | Some q => Num q end.

Definition ofDate (x : option Z) : value :=
  match x with None => Undefined | Some ms => Date ms end.

(** Own enumerable keys of an object literal, in the order written. *)
Definition keys (v : value) : list string :=
  match v with
  | Obj fields => fst <$> fields
  | _ => []
  end.

(** Property read: [undefined] when the key is absent. *)
Definition get (k : string) (v : value) : value :=
  match v with
  | Obj fields =>
      match List.find (fun kv => String.eqb (fst kv) k) fields with
      | Some kv => snd kv
      | None => Undefined
      end
  | _ => Undefined
  end.

End Js.

(** ** models/Alert.js *)

Module AlertType.
Inductive t :=
| earthquake | flood | cyclone | tsunami | wildfire
| extreme_weather | heatwave | storm.

#[global] Instance eq_dec : EqDecision t.
Proof. solve_decision. Defined.

Definition to_string (x : t) : string :=
  match x with
  | earthquake => "earthquake" | flood => "flood" | cyclone => "cyclone"
  | tsunami => "tsunami" | wildfire => "wildfire"
  | extreme_weather => "extreme_weather" | heatwave => "heatwave"
  | storm => "storm"
  end.
End AlertType.

Module Severity.
Inductive t := low | medium | high | critical.

#[global] Instance eq_dec : EqDecision t.
Proof. solve_decision. Defined.

Definition to_string (x : t) : string :=
  match x with
  | low => "low" | medium => "medium" | high => "high"
  | critical => "critical"
  end.

(** The schema's [enum] validator on a value received as a string. *)
Definition of_string (s : string) : option t :=
  if String.eqb s "low" then Some low
  else if String.eqb s "medium" then Some medium
  else if String.eqb s "high" then Some high
  else if String.eqb s "critical" then Some critical
  else None.

(** Position in low < medium < high < critical. *)
Definition rank (x : t) : nat :=
  match x with low => 1 | medium => 2 | high => 3 | critical => 4 end.
End Severity.

Module Status.
Inductive t := active | monitoring | resolved | expired.

#[global] Instance eq_dec : EqDecision t.
Proof. solve_decision. Defined.

Definition to_string (x : t) : string :=
  match x with
  | active => "active" | monitoring => "monitoring"
  | resolved => "resolved" | expired => "expired"
  end.

Definition of_string (s : string) : option t :=
  if String.eqb s "active" then Some active
  else if String.eqb s "monitoring" then Some monitoring
  else if String.eqb s "resolved" then Some resolved
  else if String.eqb s "expired" then Some expired
  else None.
End Status.

Module Source.
Inductive t := usgs | openweather | ml_prediction | manual | noaa | sensor.

#[global] Instance eq_dec : EqDecision t.
Proof. solve_decision. Defined.

Definition to_string (x : t) : string :=
  match x with
  | usgs => "usgs" | openweather => "openweather"
  | ml_prediction => "ml_prediction" | manual => "manual"
  | noaa => "noaa" | sensor => "sensor"
  end.
End Source.

Module AlertLocation.
Record t := mk {
  name : string;
  latitude : Q;
  longitude : Q;
  radius : Q;
}.

Definition toJSON (l : t) : Js.value :=
  Js.Obj [("name", Js.Str (name l));
          ("latitude", Js.Num (latitude l));
          ("longitude", Js.Num (longitude l));
          ("radius", Js.Num (radius l))].
End AlertLocation.

Module AlertData.
Record t := mk {
  magnitude : option Q;
  depth : option Q;
  waterLevel : option Q;
  windSpeed : option Q;
  temperature : option Q;
  rainfall : option Q;
  pressure : option Q;
  humidity : option Q;
}.

Definition empty : t := mk None None None None None None None None.

Definition toJSON (d : t) : Js.value :=
  Js.Obj [("magnitude", Js.ofNum (magnitude d));
          ("depth", Js.ofNum (depth d));
          ("waterLevel", Js.ofNum (waterLevel d));
          ("windSpeed", Js.ofNum (windSpeed d));
          ("temperature", Js.ofNum (temperature d));
          ("rainfall", Js.ofNum (rainfall d));
          ("pressure", Js.ofNum (pressure d));
          ("humidity", Js.ofNum (humidity d))].
End AlertData.

(** The paths of the schema that the services write or read.
    [sourceEventId] and [predictions] are set by no operation modelled
    here and are left out. *)
Module Alert.
Record t := mk {
  _id : nat;
  title : string;
  type : AlertType.t;
  severity : Severity.t;
  status : Status.t;
  description : string;
  location : AlertLocation.t;
  data : AlertData.t;
  source : Source.t;
  affectedPopulation : Q;
  recommendations : list string;
  notificationsSent : bool;
  resolvedAt : option Z;
  expiresAt : option Z;
  createdAt : Z;
  updatedAt : Z;
}.

(** The [required] validators that a document built by the services can
    fail: a required string must not be empty. *)
Definition valid (a : t) : bool :=
  negb (String.eqb (title a) "")
  && negb (String.eqb (description a) "")
  && negb (String.eqb (AlertLocation.name (location a)) "").

Definition toJSON (a : t) : Js.value :=
  Js.Obj [("_id", Js.ObjectId (_id a));
          ("title", Js.Str (title a));
          ("type", Js.Str (AlertType.to_string (type a)));
          ("severity", Js.Str (Severity.to_string (severity a)));
          ("status", Js.Str (Status.to_string (status a)));
          ("description", Js.Str (description a));
          ("location", AlertLocation.toJSON (location a));
          ("data", AlertData.toJSON (data a));
          ("source", Js.Str (Source.to_string (source a)));
          ("affectedPopulation", Js.Num (affectedPopulation a));
          ("recommendations", Js.Arr (Js.Str <$> recommendations a));
          ("notificationsSent", Js.Bool (notificationsSent a));
          ("resolvedAt", Js.ofDate (resolvedAt a));
          ("expiresAt", Js.ofDate (expiresAt a));
          ("createdAt", Js.Date (createdAt a));
          ("updatedAt", Js.Date (updatedAt a))].
End Alert.

(** ** Sensor documents *)

Module SensorLocation.
Record t := mk {
  name : string;
  latitude : Q;
  longitude : Q;
}.
End SensorLocation.

Module Readings.
Record t := mk {
  magnitude : option Q;
  depth : option Q;
  temperature : option Q;
  humidity : option Q;
  pressure : option Q;
  windSpeed : option Q;
  windDirection : option Q;
  rainfall : option Q;
  visibility : option Q;
  waterLevel : option Q;
}.

Definition empty : t :=
  mk None None None None None None None None None None.
End Readings.

(** Modelled from the spec: the SensorData schema (models/SensorData.js is
    not among the sources).  A Reading has a category ([type]), a location
    (name, latitude, longitude), a measurements mapping in which only the
    relevant keys are populated, a quality and a source; the fields are
    those the services read and write ([rawData], the upstream response
    kept for reference, is left out).  [createdAt] is the timestamp the
    store adds on [save]; an object that was never saved has none. *)
Module SensorData.
Record t := mk {
  source : Source.t;
  type : string;
  location : SensorLocation.t;
  readings : Readings.t;
  quality : string;
  processedAt : option Z;
  createdAt : option Z;
}.
End SensorData.

(** ** The server: collections, connected sockets, calls of Math.random *)

Module Socket.
(** A connected socket.io socket: its id, the rooms it has joined and
    the events the server has pushed to it, oldest first. *)
Record t := mk {
  id : string;
  rooms : gset string;
  received : list (string * Js.value);
}.

Definition push (ev : string) (payload : Js.value) (s : t) : t :=
  mk (id s) (rooms s) (received s ++ [(ev, payload)]).

Definition join (rs : list string) (s : t) : t :=
  mk (id s) (rooms s ∪ list_to_set rs) (received s).
End Socket.

Module Client.
Record t := mk {
  connectedAt : Z;
  subscriptions : list string;
}.
End Client.

Module World.
Record t := mk {
  alerts : list Alert.t;
  sensorData : list SensorData.t;
  nextId : nat;
  sockets : list Socket.t;
  connectedClients : gmap string Client.t;
  randomCalls : nat;
}.

Definition empty : t := mk [] [] 0 [] ∅ 0.

Definition with_alerts (f : list Alert.t → list Alert.t) (w : t) : t :=
  mk (f (alerts w)) (sensorData w) (nextId w) (sockets w)
    (connectedClients w) (randomCalls w).

Definition with_sensorData (f : list SensorData.t → list SensorData.t) (w : t) : t :=
  mk (alerts w) (f (sensorData w)) (nextId w) (sockets w)
    (connectedClients w) (randomCalls w).

Definition with_nextId (f : nat → nat) (w : t) : t :=
  mk (alerts w) (sensorData w) (f (nextId w)) (sockets w)
    (connectedClients w) (randomCalls w).

Definition with_sockets (f : list Socket.t → list Socket.t) (w : t) : t :=
  mk (alerts w) (sensorData w) (nextId w) (f (sockets w))
    (connectedClients w) (randomCalls w).

Definition with_clients (f : gmap string Client.t → gmap string Client.t) (w : t) : t :=
  mk (alerts w) (sensorData w) (nextId w) (sockets w)
    (f (connectedClients w)) (randomCalls w).

Definition with_randomCalls (f : nat → nat) (w : t) : t :=
  mk (alerts w) (sensorData w) (nextId w) (sockets w)
    (connectedClients w) (f (randomCalls w)).
End World.

(** ** Asynchronous computations: state passing with exceptions *)

Inductive outcome (A : Type) :=
| Returned (a : A)
| Thrown (msg : string).
Arguments Returned {A} a.
Arguments Thrown {A} msg.

Definition Async (A : Type) : Type := World.t → outcome A * World.t.

#[global] Instance Async_ret : MRet Async :=
  λ A a w, (Returned a, w).

#[global] Instance Async_bind : MBind Async :=
  λ A B k c w,
    match c w with
    | (Returned a, w') => k a w'
    | (Thrown msg, w') => (Thrown msg, w')
    end.

Definition throw {A} (msg : string) : Async A := λ w, (Thrown msg, w).

(** [try { c } catch (error) { h }] *)
Definition try_catch {A} (c : Async A) (h : string → Async A) : Async A :=
  λ w,
    match c w with
    | (Returned a, w') => (Returned a, w')
    | (Thrown msg, w') => h msg w'
    end.

Definition get_world : Async World.t := λ w, (Returned w, w).
Definition modify (f : World.t → World.t) : Async unit := λ w, (Returned tt, f w).

(** ** socket.io server operations *)

Module Io.
(** [io.emit(ev, payload)]: every connected socket gets the event. *)
Definition emit (ev : string) (payload : Js.value) : Async unit :=
  modify (World.with_sockets (fmap (Socket.push ev payload))).

(** [io.to(room).emit(ev, payload)]: the sockets in [room] get it. *)
Definition to_emit (room : string) (ev : string) (payload : Js.value) : Async unit :=
  modify (World.with_sockets
            (fmap (λ s, if decide (room ∈ Socket.rooms s)
                        then Socket.push ev payload s else s))).

(** A new connection: the socket starts in the room named by its id. *)
Definition connect (sid : string) : Async unit :=
  modify (World.with_sockets (λ ss, ss ++ [Socket.mk sid {[sid]} []])).

Definition disconnect (sid : string) : Async unit :=
  modify (World.with_sockets
            (List.filter (λ s, negb (String.eqb (Socket.id s) sid)))).

(** [socket.join(rooms)] on the socket [sid]. *)
Definition join (sid : string) (rs : list string) : Async unit :=
  modify (World.with_sockets
            (fmap (λ s, if String.eqb (Socket.id s) sid
                        then Socket.join rs s else s))).
End Io.

(** ** The Alert collection *)

Module Alerts.
(** The document of [new Alert({...})] with the given [_id]: the schema
    defaults ([status], [affectedPopulation], [notificationsSent]) and the
    [trim] setter on [title]; the timestamps are written by [save]. *)
Definition document (id : nat) (title : string) (type : AlertType.t)
    (severity : Severity.t) (description : string) (location : AlertLocation.t)
    (data : AlertData.t) (source : Source.t) (recommendations : list string)
    (expiresAt : Z) : Alert.t :=
  Alert.mk id (Js.trim title) type severity Status.active description
    location data source 0 recommendations false None (Some expiresAt) 0 0.

(** [new Alert({...})]: the document gets a fresh [_id]. *)
Definition new (title : string) (type : AlertType.t) (severity : Severity.t)
    (description : string) (location : AlertLocation.t) (data : AlertData.t)
    (source : Source.t) (recommendations : list string) (expiresAt : Z)
  : Async Alert.t :=
  λ w,
    (Returned (document (World.nextId w) title type severity description
                 location data source recommendations expiresAt),
     World.with_nextId S w).

Definition stamp (now : Z) (a : Alert.t) : Alert.t :=
  Alert.mk (Alert._id a) (Alert.title a) (Alert.type a) (Alert.severity a)
    (Alert.status a) (Alert.description a) (Alert.location a)
    (Alert.data a) (Alert.source a) (Alert.affectedPopulation a)
    (Alert.recommendations a) (Alert.notificationsSent a)
    (Alert.resolvedAt a) (Alert.expiresAt a) now now.

(** [await alert.save()] of a new document: validation, then the
    timestamps, then the insert.  The saved document is the value the
    caller's variable holds afterwards. *)
Definition save (now : Z) (a : Alert.t) : Async Alert.t :=
  if Alert.valid a then
    let a' := stamp now a in
    _ ← modify (World.with_alerts (λ l, l ++ [a']));
    mret a'
  else throw "Alert validation failed".

(** [Alert.findOne(query)] *)
Definition findOne (query : Alert.t → bool) : Async (option Alert.t) :=
  λ w, (Returned (List.find query (World.alerts w)), w).
End Alerts.

(** [SensorData.find({ createdAt: { $gte: since } }).sort({ createdAt: -1 })]:
    newest first; documents with equal timestamps keep their insertion
    order. *)
Module SensorDatas.
Definition created (d : SensorData.t) : Z :=
  default 0%Z (SensorData.createdAt d).

Fixpoint insert_desc (d : SensorData.t) (l : list SensorData.t) : list SensorData.t :=
  match l with
  | [] => [d]
  | e :: l' =>
      if (created e <=? created d)%Z then d :: e :: l'
      else e :: insert_desc d l'
  end.

Definition sort_desc (l : list SensorData.t) : list SensorData.t :=
  foldr insert_desc [] l.

Definition find_since (since : Z) : Async (list SensorData.t) :=
  λ w,
    (Returned
       (sort_desc
          (List.filter
             (λ d, match SensorData.createdAt d with
                   | Some c => (since <=? c)%Z
                   | None => false
                   end)
             (World.sensorData w))),
     w).

(** [await sensorData.save()] of a new document. *)
Definition save (now : Z) (d : SensorData.t) : Async SensorData.t :=
  let d' := SensorData.mk (SensorData.source d) (SensorData.type d)
              (SensorData.location d) (SensorData.readings d)
              (SensorData.quality d) (SensorData.processedAt d) (Some now) in
  _ ← modify (World.with_sensorData (λ l, l ++ [d']));
  mret d'.
End SensorDatas.

(** ** services/alertService.js *)

Module Tiers.
Record t := mk { low : Q; medium : Q; high : Q; critical : Q }.
End Tiers.

Module TemperatureTiers.
Record t := mk { heatwave : Q; extreme : Q }.
End TemperatureTiers.

Module Thresholds.
Record t := mk {
  earthquake : Tiers.t;
  windSpeed : Tiers.t;
  rainfall : Tiers.t;
  temperature : TemperatureTiers.t;
  waterLevel : Tiers.t;
}.
End Thresholds.

Module AlertService.

(** [this.io] is either the socket.io server or absent. *)
Record t := mk { io : bool; thresholds : Thresholds.t }.

Definition constructor (io : bool) : t :=
  mk io
    (Thresholds.mk
       (Tiers.mk 3.0 4.5 6.0 7.0)
       (Tiers.mk 40 70 100 150)
       (Tiers.mk 30 60 100 150)
       (TemperatureTiers.mk 42 45)
       (Tiers.mk 3 5 8 12)).

(** The spans the source writes out as [n * 60 * 1000] and
    [n * 60 * 60 * 1000] milliseconds. *)
Definition minutes (n : Z) : Z := (n * 60 * 1000)%Z.
Definition hours (n : Z) : Z := (n * 60 * 60 * 1000)%Z.

Definition _getEarthquakeRecommendations (severity : Severity.t) (magnitude : Q) : list string :=
  let base := [
    "Drop, Cover, and Hold On if shaking occurs";
    "Move away from windows and heavy objects";
    "Check for gas leaks after shaking stops" ] in
  if bool_decide (severity = Severity.high) || bool_decide (severity = Severity.critical)
  then base ++ [
    "Be prepared for aftershocks";
    "Evacuate damaged buildings immediately";
    "Move to open areas away from structures";
    "Have emergency kit ready";
    "Follow official evacuation orders" ]
  else base.

Definition _getStormRecommendations (severity : Severity.t) : list string :=
  let base := [
    "Secure loose outdoor objects";
    "Stay indoors until storm passes";
    "Keep emergency supplies ready" ] in
  if bool_decide (severity = Severity.high) || bool_decide (severity = Severity.critical)
  then base ++ [
    "Move to reinforced shelter immediately";
    "Stay away from windows and exterior walls";
    "Follow evacuation orders if issued";
    "Charge all communication devices";
    "Fill bathtubs and containers with water" ]
  else base.

Definition _getFloodRecommendations (severity : Severity.t) : list string :=
  let base := [
    "Move to higher ground if water is rising";
    "Avoid walking or driving through floodwater";
    "Keep important documents in waterproof bags" ] in
  if bool_decide (severity = Severity.high) || bool_decide (severity = Severity.critical)
  then base ++ [
    "Evacuate immediately if ordered";
    "Disconnect electrical appliances";
    "Do not attempt to cross flooded roads";
    "Signal for help if stranded";
    "Boil drinking water after flooding" ]
  else base.

(** The query of [_evaluateEarthquake]: an active earthquake alert inside
    the box of half a degree around the reading, created in the last hour. *)
Definition earthquakeQuery (now : Z) (loc : SensorLocation.t) (a : Alert.t) : bool :=
  bool_decide (Alert.type a = AlertType.earthquake)
  && bool_decide (Alert.status a = Status.active)
  && Js.ge (AlertLocation.latitude (Alert.location a)) (SensorLocation.latitude loc - 0.5)
  && Js.le (AlertLocation.latitude (Alert.location a)) (SensorLocation.latitude loc + 0.5)
  && Js.ge (AlertLocation.longitude (Alert.location a)) (SensorLocation.longitude loc - 0.5)
  && Js.le (AlertLocation.longitude (Alert.location a)) (SensorLocation.longitude loc + 0.5)
  && (now - hours 1 <=? Alert.createdAt a)%Z.

(** The query shared by the weather and flood paths: an active alert of
    the type with the same location name, created in the last [window]. *)
Definition nameQuery (type : AlertType.t) (now window : Z) (loc : SensorLocation.t)
    (a : Alert.t) : bool :=
  bool_decide (Alert.type a = type)
  && bool_decide (Alert.status a = Status.active)
  && String.eqb (AlertLocation.name (Alert.location a)) (SensorLocation.name loc)
  && (now - window <=? Alert.createdAt a)%Z.

Definition _evaluateEarthquake (this : t) (now : Z) (data : SensorData.t)
  : Async (option Alert.t) :=
  let magnitude := Readings.magnitude (SensorData.readings data) in
  let loc := SensorData.location data in
  let th := Thresholds.earthquake (thresholds this) in
  match magnitude with
  | None => mret None (* !magnitude *)
  | Some magnitude =>
    (* !magnitude || magnitude < low *)
    if Qeq_bool magnitude 0 || Js.lt magnitude (Tiers.low th) then mret None
    else
      let severity :=
        if Js.ge magnitude (Tiers.critical th) then Severity.critical
        else if Js.ge magnitude (Tiers.high th) then Severity.high
        else if Js.ge magnitude (Tiers.medium th) then Severity.medium
        else Severity.low in
      existing ← Alerts.findOne (earthquakeQuery now loc);
      match existing with
      | Some _ => mret None
      | None =>
        let recommendations := _getEarthquakeRecommendations severity magnitude in
        alert ← Alerts.new
          ("Earthquake M" +:+ Js.toFixed magnitude 1 +:+ " - " +:+ SensorLocation.name loc)
          AlertType.earthquake
          severity
          ("A magnitude " +:+ Js.toFixed magnitude 1
             +:+ " earthquake detected at depth "
             +:+ match Readings.depth (SensorData.readings data) with
                 | Some d => Js.toFixed d 1
                 | None => "unknown"
                 end
             +:+ " km near " +:+ SensorLocation.name loc +:+ ".")
          (AlertLocation.mk (SensorLocation.name loc)
             (SensorLocation.latitude loc) (SensorLocation.longitude loc)
             (magnitude * 20))
          (AlertData.mk (Some magnitude) (Readings.depth (SensorData.readings data))
             None None None None None None)
          (SensorData.source data)
          recommendations
          (now + hours 24)%Z;
        alert ← Alerts.save now alert;
        mret (Some alert)
      end
  end.

Definition _evaluateWeather (this : t) (now : Z) (data : SensorData.t)
  : Async (option Alert.t) :=
  let windSpeed := Readings.windSpeed (SensorData.readings data) in
  let rainfall := Readings.rainfall (SensorData.readings data) in
  let temperature := Readings.temperature (SensorData.readings data) in
  let loc := SensorData.location data in
  let wth := Thresholds.windSpeed (thresholds this) in
  let tth := Thresholds.temperature (thresholds this) in
  let alert : option Alert.t := None in
  (* Check for extreme wind / storm *)
  alert ←
    match windSpeed with
    | Some windSpeed =>
      (* windSpeed && windSpeed >= low *)
      if negb (Qeq_bool windSpeed 0) && Js.ge windSpeed (Tiers.low wth) then
        let severity :=
          if Js.ge windSpeed (Tiers.critical wth) then Severity.critical
          else if Js.ge windSpeed (Tiers.high wth) then Severity.high
          else if Js.ge windSpeed (Tiers.medium wth) then Severity.medium
          else Severity.low in
        let type :=
          if Js.ge windSpeed (Tiers.high wth) then AlertType.cyclone
          else AlertType.storm in
        existing ← Alerts.findOne (nameQuery type now (hours 2) loc);
        match existing with
        | Some _ => mret alert
        | None =>
          a ← Alerts.new
            ((if bool_decide (type = AlertType.cyclone) then "Cyclone" else "Storm")
               +:+ " Warning - " +:+ SensorLocation.name loc)
            type
            severity
            ("Wind speeds of " +:+ Js.toFixed windSpeed 0 +:+ " km/h detected at "
               +:+ SensorLocation.name loc +:+ ". "
               +:+ match rainfall with
                   | Some r =>
                       if negb (Qeq_bool r 0)
                       then "Rainfall: " +:+ Js.toFixed r 0 +:+ " mm."
                       else ""
                   | None => ""
                   end)
            (AlertLocation.mk (SensorLocation.name loc)
               (SensorLocation.latitude loc) (SensorLocation.longitude loc) 100)
            (AlertData.mk None None None (Some windSpeed) None rainfall
               (Readings.pressure (SensorData.readings data)) None)
            (SensorData.source data)
            (_getStormRecommendations severity)
            (now + hours 12)%Z;
          a ← Alerts.save now a;
          mret (Some a)
        end
      else mret alert
    | None => mret alert
    end;
  (* Check for heatwave *)
  alert ←
    match temperature with
    | Some temperature =>
      (* temperature && temperature >= heatwave *)
      if negb (Qeq_bool temperature 0)
         && Js.ge temperature (TemperatureTiers.heatwave tth) then
        let severity :=
          if Js.ge temperature (TemperatureTiers.extreme tth)
          then Severity.critical else Severity.high in
        existing ← Alerts.findOne (nameQuery AlertType.heatwave now (hours 6) loc);
        match existing with
        | Some _ => mret alert
        | None =>
          a ← Alerts.new
            ("Heatwave Alert - " +:+ SensorLocation.name loc)
            AlertType.heatwave
            severity
            ("Temperature of " +:+ Js.toFixed temperature 1 +:+ "°C recorded at "
               +:+ SensorLocation.name loc
               +:+ ". Stay hydrated and avoid prolonged sun exposure.")
            (AlertLocation.mk (SensorLocation.name loc)
               (SensorLocation.latitude loc) (SensorLocation.longitude loc) 50)
            (AlertData.mk None None None None (Some temperature) None None
               (Readings.humidity (SensorData.readings data)))
            (SensorData.source data)
            [ "Stay indoors during peak hours (11 AM - 4 PM)";
              "Drink plenty of water and fluids";
              "Avoid strenuous outdoor activities";
              "Check on elderly and vulnerable people";
              "Keep pets indoors with water" ]
            (now + hours 24)%Z;
          a ← Alerts.save now a;
          mret (Some a)
        end
      else mret alert
    | None => mret alert
    end;
  mret alert.

Definition _evaluateFlood (this : t) (now : Z) (data : SensorData.t)
  : Async (option Alert.t) :=
  let waterLevel := Readings.waterLevel (SensorData.readings data) in
  let rainfall := Readings.rainfall (SensorData.readings data) in
  let loc := SensorData.location data in
  let th := Thresholds.waterLevel (thresholds this) in
  match waterLevel with
  | None => mret None (* !waterLevel *)
  | Some waterLevel =>
    (* !waterLevel || waterLevel < low *)
    if Qeq_bool waterLevel 0 || Js.lt waterLevel (Tiers.low th) then mret None
    else
      let severity :=
        if Js.ge waterLevel (Tiers.critical th) then Severity.critical
        else if Js.ge waterLevel (Tiers.high th) then Severity.high
        else if Js.ge waterLevel (Tiers.medium th) then Severity.medium
        else Severity.low in
      existing ← Alerts.findOne (nameQuery AlertType.flood now (hours 3) loc);
      match existing with
      | Some _ => mret None
      | None =>
        alert ← Alerts.new
          ("Flood Warning - " +:+ SensorLocation.name loc)
          AlertType.flood
          severity
          ("Water level at " +:+ Js.toFixed waterLevel 1 +:+ "m with "
             +:+ match rainfall with
                 | Some r => Js.toFixed r 0
                 | None => "0"
                 end
             +:+ "mm rainfall near " +:+ SensorLocation.name loc +:+ ".")
          (AlertLocation.mk (SensorLocation.name loc)
             (SensorLocation.latitude loc) (SensorLocation.longitude loc) 75)
          (AlertData.mk None None (Some waterLevel) None None rainfall None None)
          (SensorData.source data)
          (_getFloodRecommendations severity)
          (now + hours 48)%Z;
        alert ← Alerts.save now alert;
        mret (Some alert)
      end
  end.

Definition _evaluateDataPoint (this : t) (now : Z) (data : SensorData.t)
  : Async (option Alert.t) :=
  try_catch
    (if String.eqb (SensorData.type data) "earthquake" then _evaluateEarthquake this now data
     else if String.eqb (SensorData.type data) "weather" then _evaluateWeather this now data
     else if String.eqb (SensorData.type data) "flood" then _evaluateFlood this now data
     else mret None)
    (λ _, mret None).

(** The object literal handed to [io.emit('new-alert', ...)]. *)
Definition newAlertPayload (alert : Alert.t) : Js.value :=
  Js.Obj [("id", Js.ObjectId (Alert._id alert));
          ("title", Js.Str (Alert.title alert));
          ("type", Js.Str (AlertType.to_string (Alert.type alert)));
          ("severity", Js.Str (Severity.to_string (Alert.severity alert)));
          ("description", Js.Str (Alert.description alert));
          ("location", AlertLocation.toJSON (Alert.location alert));
          ("createdAt", Js.Date (Alert.createdAt alert))].

Definition _broadcastAlert (this : t) (alert : Alert.t) : Async unit :=
  if io this then Io.emit "new-alert" (newAlertPayload alert)
  else mret tt.

Fixpoint evaluateEach (this : t) (now : Z) (recentData : list SensorData.t)
    (newAlerts : list Alert.t) : Async (list Alert.t) :=
  match recentData with
  | [] => mret newAlerts
  | data :: rest =>
      alert ← _evaluateDataPoint this now data;
      evaluateEach this now rest
        (match alert with
         | Some a => newAlerts ++ [a]
         | None => newAlerts
         end)
  end.

Fixpoint broadcastEach (this : t) (newAlerts : list Alert.t) : Async unit :=
  match newAlerts with
  | [] => mret tt
  | alert :: rest => _ ← _broadcastAlert this alert; broadcastEach this rest
  end.

Definition evaluateAlerts (this : t) (now : Z) : Async (list Alert.t) :=
  try_catch
    (recentData ← SensorDatas.find_since (now - minutes 30)%Z;
     if Nat.eqb (length recentData) 0 then mret []
     else
       newAlerts ← evaluateEach this now recentData [];
       _ ← broadcastEach this newAlerts;
       mret newAlerts)
    (λ _, mret []).

End AlertService.

(** ** services/websocketService.js *)

Module WebSocketService.

(** [io.on('connection', socket => ...)]: the socket is registered with
    no subscriptions. *)
Definition on_connection (now : Z) (sid : string) : Async unit :=
  _ ← Io.connect sid;
  modify (World.with_clients (λ m, <[sid := Client.mk now []]> m)).

(** [socket.on('subscribe', types => ...)] *)
Definition on_subscribe (sid : string) (types : list string) : Async unit :=
  w ← get_world;
  match World.connectedClients w !! sid with
  | Some client =>
      _ ← modify (World.with_clients
                    (λ m, <[sid := Client.mk (Client.connectedAt client) types]> m));
      Io.join sid types
  | None => mret tt
  end.

(** [socket.on('subscribe-location', location => ...)] *)
Definition on_subscribe_location (sid : string) (lat lon : Q) : Async unit :=
  let roomName := "loc_" +:+ Js.toFixed lat 2 +:+ "_" +:+ Js.toFixed lon 2 in
  Io.join sid [roomName].

(** [socket.on('disconnect', ...)] *)
Definition on_disconnect (sid : string) : Async unit :=
  _ ← Io.disconnect sid;
  modify (World.with_clients (λ m, delete sid m)).

(** Broadcast alert to all connected clients. *)
Definition broadcastAlert (alert : Js.value) : Async unit :=
  Io.emit "new-alert" alert.

(** Send alert to clients subscribed to a specific disaster type. *)
Definition sendTypeAlert (type : string) (alert : Js.value) : Async unit :=
  Io.to_emit type "new-alert" alert.

Definition sendDataUpdate (data : Js.value) : Async unit :=
  Io.emit "data-update" data.

Definition getClientCount : Async nat :=
  w ← get_world; mret (size (World.connectedClients w)).

End WebSocketService.

(** ** routes/alerts.js: PATCH /api/alerts/:id *)

Module AlertRoutes.

(** The keys of the request body the handler reads; a key that is absent
    is [None]. *)
Record body := mkBody {
  status : option string;
  severity : option string;
  description : option string;
  recommendations : option (list string);
}.

Inductive response :=
| Json (code : nat) (payload : Js.value).

(** The update validators of [{ runValidators: true }] on the paths in
    [$set]: the enums of [status] and [severity], [required] on
    [description]. *)
Definition validUpdates (b : body) : bool :=
  match status b with
  | Some s => bool_decide (is_Some (Status.of_string s))
  | None => true
  end
  && match severity b with
     | Some s => bool_decide (is_Some (Severity.of_string s))
     | None => true
     end
  && match description b with
     | Some d => negb (String.eqb d "")
     | None => true
     end.

(** [{ $set: updates }] applied to one document; [resolvedAt] is in
    [updates] exactly when the requested status is 'resolved'. *)
Definition applyUpdates (now : Z) (b : body) (a : Alert.t) : Alert.t :=
  Alert.mk (Alert._id a) (Alert.title a) (Alert.type a)
    (default (Alert.severity a) (severity b ≫= Severity.of_string))
    (default (Alert.status a) (status b ≫= Status.of_string))
    (default (Alert.description a) (description b))
    (Alert.location a) (Alert.data a) (Alert.source a)
    (Alert.affectedPopulation a)
    (default (Alert.recommendations a) (recommendations b))
    (Alert.notificationsSent a)
    (if bool_decide (status b = Some "resolved") then Some now else Alert.resolvedAt a)
    (Alert.expiresAt a) (Alert.createdAt a) now.

Fixpoint updateOne (id : nat) (a' : Alert.t) (l : list Alert.t) : list Alert.t :=
  match l with
  | [] => []
  | x :: l' =>
      if Nat.eqb (Alert._id x) id then a' :: l' else x :: updateOne id a' l'
  end.

(** [Alert.findByIdAndUpdate(id, { $set: updates }, { new: true,
    runValidators: true })] *)
Definition findByIdAndUpdate (now : Z) (id : nat) (b : body) : Async (option Alert.t) :=
  if validUpdates b then
    w ← get_world;
    match List.find (λ a, Nat.eqb (Alert._id a) id) (World.alerts w) with
    | None => mret None
    | Some a =>
        let a' := applyUpdates now b a in
        _ ← modify (World.with_alerts (updateOne id a'));
        mret (Some a')
    end
  else throw "Validation failed".

(** The handler; [req.app.get('io')] is the server's socket.io instance. *)
Definition patch (now : Z) (id : nat) (b : body) : Async response :=
  try_catch
    (alert ← findByIdAndUpdate now id b;
     match alert with
     | None => mret (Json 404 (Js.Obj [("error", Js.Str "Alert not found")]))
     | Some alert =>
         _ ← Io.emit "alert-updated" (Alert.toJSON alert);
         mret (Json 200 (Alert.toJSON alert))
     end)
    (λ msg, mret (Json 400 (Js.Obj [("error", Js.Str msg)]))).

End AlertRoutes.

(** ** services/dataCollector.js *)

Module MonitoredLocation.
Record t := mk { name : string; lat : Q; lon : Q }.
End MonitoredLocation.

(** The fields of an OpenWeatherMap response the collector reads.
    [rain] is absent in dry weather, and may lack its ['1h'] key. *)
Module WeatherResponse.
Record t := mk {
  main_temp : Q;
  main_humidity : Q;
  main_pressure : Q;
  wind_speed : Q;
  wind_deg : Q;
  rain : option (option Q);
  visibility : Q;
}.
End WeatherResponse.

(** The fields of a USGS GeoJSON feature the collector reads. *)
Module Feature.
Record t := mk {
  place : option string;
  mag : option Q;
  status : string;
  coordinates : Q * Q * Q;
}.
End Feature.

Module DataCollectorService.

Record t := mk {
  openWeatherKey : string;
  usgsApiUrl : string;
  monitoredLocations : list MonitoredLocation.t;
}.

(** [env_key] and [env_url] are [process.env.OPENWEATHER_API_KEY] and
    [process.env.USGS_API_URL]. *)
Definition constructor (env_key env_url : option string) : t :=
  mk (default "" env_key)
     (match env_url with
      | Some u => if String.eqb u "" then "https://earthquake.usgs.gov/fdsnws/event/1/query" else u
      | None => "https://earthquake.usgs.gov/fdsnws/event/1/query"
      end)
     [ MonitoredLocation.mk "Mumbai, India" 19.076 72.8777;
       MonitoredLocation.mk "Delhi, India" 28.6139 77.2090;
       MonitoredLocation.mk "Chennai, India" 13.0827 80.2707;
       MonitoredLocation.mk "Kolkata, India" 22.5726 88.3639;
       MonitoredLocation.mk "Tokyo, Japan" 35.6762 139.6503;
       MonitoredLocation.mk "San Francisco, USA" 37.7749 (-122.4194);
       MonitoredLocation.mk "Jakarta, Indonesia" (-6.2088) 106.8456;
       MonitoredLocation.mk "Manila, Philippines" 14.5995 120.9842;
       MonitoredLocation.mk "Dhaka, Bangladesh" 23.8103 90.4125;
       MonitoredLocation.mk "Kathmandu, Nepal" 27.7172 85.3240 ].

Section Upstream.
#[local] Open Scope Q_scope.

(** The outside world: the [n]-th call of [Math.random()], the answer of
    OpenWeatherMap for a location and the answer of USGS.  [None] is a
    request that fails (network error, HTTP error, timeout, unusable
    body). *)
Variable random : nat → Q.
Variable openweather : MonitoredLocation.t → option WeatherResponse.t.
Variable usgs : option (list Feature.t).

Definition Math_random : Async Q :=
  λ w, (Returned (random (World.randomCalls w)), World.with_randomCalls S w).

Definition Math_floor (x : Q) : Q := inject_Z (Qfloor x).

(** One iteration of the loop of [_generateSimulatedWeatherData]. *)
Definition simulatedWeather (now : Z) (location : MonitoredLocation.t)
  : Async SensorData.t :=
  r ← Math_random;
  let baseTemp := 25 + (r - 0.5) * 20 in
  r ← Math_random;
  let isExtreme := Js.gt r 0.85 in
  let temperature := if isExtreme then baseTemp + 15 else baseTemp in
  r ← Math_random;
  let humidity := Math_floor (40 + r * 55) in
  r ← Math_random;
  let pressure := Math_floor (990 + r * 40) in
  r ← Math_random;
  let windSpeed := if isExtreme then 80 + r * 100 else 5 + r * 30 in
  r ← Math_random;
  let windDirection := Math_floor (r * 360) in
  r ← Math_random;
  let rainfall := if isExtreme then 50 + r * 150 else r * 20 in
  r ← Math_random;
  let visibility := if isExtreme then 0.5 + r * 2 else 5 + r * 10 in
  mret (SensorData.mk Source.openweather "weather"
          (SensorLocation.mk (MonitoredLocation.name location)
             (MonitoredLocation.lat location) (MonitoredLocation.lon location))
          (Readings.mk None None (Some temperature) (Some humidity) (Some pressure)
             (Some windSpeed) (Some windDirection) (Some rainfall)
             (Some visibility) None)
          "moderate" (Some now) None).

Fixpoint forEach {A B} (f : A → Async B) (l : list A) (results : list B)
  : Async (list B) :=
  match l with
  | [] => mret results
  | x :: rest => y ← f x; forEach f rest (results ++ [y])
  end.

(** Generate simulated weather data for demo/testing. *)
Definition _generateSimulatedWeatherData (this : t) (now : Z)
  : Async (list SensorData.t) :=
  forEach (simulatedWeather now) (monitoredLocations this) [].

Definition zones : list MonitoredLocation.t :=
  [ MonitoredLocation.mk "Pacific Ring of Fire" 35.6762 139.6503;
    MonitoredLocation.mk "Himalayan Belt" 27.7172 85.3240;
    MonitoredLocation.mk "San Andreas Fault" 37.7749 (-122.4194);
    MonitoredLocation.mk "Indonesian Arc" (-6.2088) 106.8456;
    MonitoredLocation.mk "Philippine Fault" 14.5995 120.9842 ].

(** One iteration of the loop of [_generateSimulatedEarthquakeData];
    reading a property of an element outside [zones] is a TypeError. *)
Definition simulatedEarthquake (now : Z) : Async SensorData.t :=
  r ← Math_random;
  let index := Qfloor (r * inject_Z (Z.of_nat (length zones))) in
  match (if (index <? 0)%Z then None else zones !! Z.to_nat index) with
  | None => throw "Cannot read properties of undefined (reading 'name')"
  | Some zone =>
      r ← Math_random;
      let latitude := MonitoredLocation.lat zone + (r - 0.5) * 5 in
      r ← Math_random;
      let longitude := MonitoredLocation.lon zone + (r - 0.5) * 5 in
      r ← Math_random;
      let magnitude := 2.5 + r * 5 in
      r ← Math_random;
      let depth := 5 + r * 300 in
      mret (SensorData.mk Source.usgs "earthquake"
              (SensorLocation.mk ("Near " +:+ MonitoredLocation.name zone)
                 latitude longitude)
              (Readings.mk (Some magnitude) (Some depth) None None None None
                 None None None None)
              "moderate" (Some now) None)
  end.

Fixpoint times {B} (n : nat) (c : Async B) (results : list B) : Async (list B) :=
  match n with
  | O => mret results
  | S n' => y ← c; times n' c (results ++ [y])
  end.

(** Generate simulated earthquake data. *)
Definition _generateSimulatedEarthquakeData (now : Z) : Async (list SensorData.t) :=
  r ← Math_random;
  let numEvents := Qfloor (2 + r * 5) in
  times (Z.to_nat numEvents) (simulatedEarthquake now) [].

Definition floodProne : list MonitoredLocation.t :=
  [ MonitoredLocation.mk "Ganges Basin, India" 25.3176 82.9739;
    MonitoredLocation.mk "Brahmaputra Valley, India" 26.1445 91.7362;
    MonitoredLocation.mk "Mekong Delta, Vietnam" 10.0452 105.7469;
    MonitoredLocation.mk "Mississippi River, USA" 29.9511 (-90.0715);
    MonitoredLocation.mk "Rhine River, Germany" 50.9375 6.9603 ].

Definition simulatedFlood (now : Z) (area : MonitoredLocation.t) : Async SensorData.t :=
  r ← Math_random;
  let isFlooding := Js.gt r 0.7 in
  r ← Math_random;
  let waterLevel := if isFlooding then 5 + r * 10 else 1 + r * 3 in
  r ← Math_random;
  let rainfall := if isFlooding then 80 + r * 120 else 5 + r * 30 in
  mret (SensorData.mk Source.sensor "flood"
          (SensorLocation.mk (MonitoredLocation.name area)
             (MonitoredLocation.lat area) (MonitoredLocation.lon area))
          (Readings.mk None None None None None None None (Some rainfall)
             None (Some waterLevel))
          "moderate" (Some now) None).

(** Generate simulated flood data. *)
Definition _generateSimulatedFloodData (now : Z) : Async (list SensorData.t) :=
  forEach (simulatedFlood now) floodProne [].

(** The body of the loop of [collectWeatherData] for one location:
    request, build the document, save it, push it; any failure is caught
    and logged, and the loop goes on with [results] as they were. *)
Definition collectWeatherAt (now : Z) (location : MonitoredLocation.t)
    (results : list SensorData.t) : Async (list SensorData.t) :=
  try_catch
    (match openweather location with
     | None => throw "Request failed"
     | Some data =>
         sensorData ← SensorDatas.save now
           (SensorData.mk Source.openweather "weather"
              (SensorLocation.mk (MonitoredLocation.name location)
                 (MonitoredLocation.lat location) (MonitoredLocation.lon location))
              (Readings.mk None None
                 (Some (WeatherResponse.main_temp data))
                 (Some (WeatherResponse.main_humidity data))
                 (Some (WeatherResponse.main_pressure data))
                 (Some (WeatherResponse.wind_speed data * 3.6))
                 (Some (WeatherResponse.wind_deg data))
                 (Some match WeatherResponse.rain data with
                       | Some (Some r) => if Qeq_bool r 0 then 0 else r
                       | Some None => 0
                       | None => 0
                       end)
                 (Some (WeatherResponse.visibility data / 1000))
                 None)
              "good" (Some now) None);
         mret (results ++ [sensorData])
     end)
    (λ _, mret results).

Fixpoint collectWeatherEach (now : Z) (locations : list MonitoredLocation.t)
    (results : list SensorData.t) : Async (list SensorData.t) :=
  match locations with
  | [] => mret results
  | location :: rest =>
      results ← collectWeatherAt now location results;
      collectWeatherEach now rest results
  end.

(** Collect weather data from OpenWeatherMap API. *)
Definition collectWeatherData (this : t) (now : Z) : Async (list SensorData.t) :=
  if String.eqb (openWeatherKey this) ""
     || String.eqb (openWeatherKey this) "your_openweather_api_key_here"
  then _generateSimulatedWeatherData this now
  else collectWeatherEach now (monitoredLocations this) [].

Definition saveFeature (now : Z) (feature : Feature.t) : Async SensorData.t :=
  let '(lon, lat, depth) := Feature.coordinates feature in
  SensorDatas.save now
    (SensorData.mk Source.usgs "earthquake"
       (SensorLocation.mk
          (match Feature.place feature with
           | Some p => if String.eqb p "" then "Unknown" else p
           | None => "Unknown"
           end)
          lat lon)
       (Readings.mk (Feature.mag feature) (Some depth) None None None None
          None None None None)
       (if String.eqb (Feature.status feature) "reviewed" then "good" else "moderate")
       (Some now) None).

(** Collect earthquake data from USGS API. *)
Definition collectEarthquakeData (this : t) (now : Z) : Async (list SensorData.t) :=
  try_catch
    (match usgs with
     | None => throw "Request failed"
     | Some features => forEach (saveFeature now) features []
     end)
    (λ _, _generateSimulatedEarthquakeData now).

(** Collect flood monitoring data. *)
Definition collectFloodData (this : t) (now : Z) : Async (list SensorData.t) :=
  _generateSimulatedFloodData now.

(** *** The cron jobs of the server: collect, then evaluate *)

Definition weatherJob (dataCollector : t) (alertService : AlertService.t) (now : Z)
  : Async unit :=
  try_catch
    (_ ← collectWeatherData dataCollector now;
     _ ← AlertService.evaluateAlerts alertService now;
     mret tt)
    (λ _, mret tt).

Definition earthquakeJob (dataCollector : t) (alertService : AlertService.t) (now : Z)
  : Async unit :=
  try_catch
    (_ ← collectEarthquakeData dataCollector now;
     _ ← AlertService.evaluateAlerts alertService now;
     mret tt)
    (λ _, mret tt).

Definition floodJob (dataCollector : t) (alertService : AlertService.t) (now : Z)
  : Async unit :=
  try_catch
    (_ ← collectFloodData dataCollector now;
     _ ← AlertService.evaluateAlerts alertService now;
     mret tt)
    (λ _, mret tt).

End Upstream.
End DataCollectorService.

(** ** routes/alerts.js: GET /api/alerts/active and GET /api/alerts/:id *)

Module AlertReads.

(** The filter of GET /active: an active alert whose [expiresAt] is not
    before [now], or is null or absent. *)
Definition activeQuery (now : Z) (a : Alert.t) : bool :=
  bool_decide (Alert.status a = Status.active)
  && match Alert.expiresAt a with
     | Some e => (now <=? e)%Z
     | None => true
     end.

(** [sort({ severity: -1, createdAt: -1 })]: [a] may stand before [b]
    when its severity, compared as the string it is stored as, is the
    greater one, or the severities are equal and [a] is not older. *)
Definition before (a b : Alert.t) : Prop :=
  match String.compare (Severity.to_string (Alert.severity a))
          (Severity.to_string (Alert.severity b)) with
  | Gt => True
  | Eq => (Alert.createdAt b ≤ Alert.createdAt a)%Z
  | Lt => False
  end.

#[global] Instance before_dec a b : Decision (before a b).
Proof. unfold before. destruct (String.compare _ _); apply _. Defined.

(** [Alert.find(filter).sort(...).limit(50)] *)
Definition findActive (now : Z) : Async (list Alert.t) :=
  λ w,
    (Returned
       (take 50 (merge_sort before (List.filter (activeQuery now) (World.alerts w)))),
     w).

(** GET /api/alerts/active *)
Definition getActive (now : Z) : Async AlertRoutes.response :=
  try_catch
    (alerts ← findActive now;
     mret (AlertRoutes.Json 200
             (Js.Obj [("alerts", Js.Arr (Alert.toJSON <$> alerts));
                      ("count", Js.Num (inject_Z (Z.of_nat (length alerts))))])))
    (λ _, mret (AlertRoutes.Json 500
                  (Js.Obj [("error", Js.Str "Failed to fetch active alerts")]))).

(** [Alert.findById(id)] *)
Definition findById (id : nat) : Async (option Alert.t) :=
  λ w, (Returned (List.find (λ a, Nat.eqb (Alert._id a) id) (World.alerts w)), w).

(** GET /api/alerts/:id *)
Definition getById (id : nat) : Async AlertRoutes.response :=
  try_catch
    (alert ← findById id;
     match alert with
     | None => mret (AlertRoutes.Json 404 (Js.Obj [("error", Js.Str "Alert not found")]))
     | Some alert => mret (AlertRoutes.Json 200 (Alert.toJSON alert))
     end)
    (λ _, mret (AlertRoutes.Json 500 (Js.Obj [("error", Js.Str "Failed to fetch alert")]))).

End AlertReads.

(** ** routes/predictions.js: the rule-based fallback *)

Module FallbackPrediction.
Record t := mk {
  disasterType : Js.value;
  location : Js.value;
  probability : Q;
  confidence : Q;
  severity : string;
  predictedTime : Z;
  modelUsed : string;
  modelVersion : string;
}.
End FallbackPrediction.

Module PredictionRoutes.
Section Random.
#[local] Open Scope Q_scope.
Variable random : nat → Q.


Fixpoint insert_sorted (x : Q * string) (l : list (Q * string)) : list (Q * string) :=
  match l with
  | [] => [x]
  | y :: l' =>
      if Js.gt (fst x) (fst y) then x :: y :: l'
      else y :: insert_sorted x l'
  end.

(** [.sort((a, b) => b[0] - a[0])]: descending by key, stable. *)
Definition sort_desc (l : list (Q * string)) : list (Q * string) :=
  foldr insert_sorted [] l.




End Random.
End PredictionRoutes.

(** ** Vocabulary of the properties *)

(** The alerts a step has added to the collection. *)
Definition created (w w' : World.t) : list Alert.t :=
  drop (length (World.alerts w)) (World.alerts w').

(** The events the socket [sid] has received, oldest first. *)
Definition inbox (sid : string) (w : World.t) : list (string * Js.value) :=
  match List.find (λ s, String.eqb (Socket.id s) sid) (World.sockets w) with
  | Some s => Socket.received s
  | None => []
  end.

(** The specification's reading of a tier table: the tier of a value is
    the last boundary at or below it, and there is none below [low]. *)
Definition tierOf (th : Tiers.t) (x : Q) : option Severity.t :=
  if Qle_bool (Tiers.critical th) x then Some Severity.critical
  else if Qle_bool (Tiers.high th) x then Some Severity.high
  else if Qle_bool (Tiers.medium th) x then Some Severity.medium
  else if Qle_bool (Tiers.low th) x then Some Severity.low
  else None.

(** The specification's "highest tier reached": the higher of two tiers,
    an absent tier counting below every tier. *)
Definition higherTier (a b : option Severity.t) : option Severity.t :=
  match a, b with
  | None, _ => b
  | _, None => a
  | Some x, Some y => if Nat.leb (Severity.rank x) (Severity.rank y) then b else a
  end.

(** The specification's box of half a degree around a reading. *)
Definition inBox (loc : SensorLocation.t) (a : Alert.t) : Prop :=
  (SensorLocation.latitude loc - 0.5 <= AlertLocation.latitude (Alert.location a)
   ∧ AlertLocation.latitude (Alert.location a) <= SensorLocation.latitude loc + 0.5
   ∧ SensorLocation.longitude loc - 0.5 <= AlertLocation.longitude (Alert.location a)
   ∧ AlertLocation.longitude (Alert.location a) <= SensorLocation.longitude loc + 0.5)%Q.

(** The specification's order of statuses: active, then monitoring, then
    resolved or expired; a status may stay where it is. *)
Definition forward (s s' : Status.t) : bool :=
  match s, s' with
  | Status.active, _ => true
  | Status.monitoring, Status.active => false
  | Status.monitoring, _ => true
  | Status.resolved, Status.resolved => true
  | Status.expired, Status.expired => true
  | _, _ => false
  end.


(** What every alert written by the ingestion path carries: it is active,
    stamped with the instant of the evaluation and named after the
    reading's location. *)
Definition fresh (now : Z) (data : SensorData.t) (a : Alert.t) : Prop :=
  Alert.status a = Status.active
  ∧ Alert.createdAt a = now
  ∧ AlertLocation.name (Alert.location a) = SensorLocation.name (SensorData.location data)
  ∧ AlertLocation.latitude (Alert.location a) = SensorLocation.latitude (SensorData.location data)
  ∧ AlertLocation.longitude (Alert.location a) = SensorLocation.longitude (SensorData.location data).

(** An earthquake alert justified by the reading's magnitude. *)
Definition quake_ok (this : AlertService.t) (now : Z) (data : SensorData.t)
    (a : Alert.t) : Prop :=
  ∃ m, Readings.magnitude (SensorData.readings data) = Some m
    ∧ (Tiers.low (Thresholds.earthquake (AlertService.thresholds this)) <= m)%Q
    ∧ Alert.type a = AlertType.earthquake
    ∧ tierOf (Thresholds.earthquake (AlertService.thresholds this)) m
      = Some (Alert.severity a)
    ∧ fresh now data a.

(** A flood alert justified by the reading's water level. *)
Definition flood_ok (this : AlertService.t) (now : Z) (data : SensorData.t)
    (a : Alert.t) : Prop :=
  ∃ l, Readings.waterLevel (SensorData.readings data) = Some l
    ∧ (Tiers.low (Thresholds.waterLevel (AlertService.thresholds this)) <= l)%Q
    ∧ Alert.type a = AlertType.flood
    ∧ tierOf (Thresholds.waterLevel (AlertService.thresholds this)) l
      = Some (Alert.severity a)
    ∧ fresh now data a.

(** A storm or cyclone alert justified by the reading's wind speed. *)
Definition wind_ok (this : AlertService.t) (now : Z) (data : SensorData.t)
    (a : Alert.t) : Prop :=
  ∃ ws, Readings.windSpeed (SensorData.readings data) = Some ws
    ∧ (Tiers.low (Thresholds.windSpeed (AlertService.thresholds this)) <= ws)%Q
    ∧ Alert.type a
      = (if Qle_bool (Tiers.high (Thresholds.windSpeed (AlertService.thresholds this))) ws
         then AlertType.cyclone else AlertType.storm)
    ∧ tierOf (Thresholds.windSpeed (AlertService.thresholds this)) ws
      = Some (Alert.severity a)
    ∧ fresh now data a.

(** A heatwave alert justified by the reading's temperature. *)
Definition heat_ok (this : AlertService.t) (now : Z) (data : SensorData.t)
    (a : Alert.t) : Prop :=
  ∃ t, Readings.temperature (SensorData.readings data) = Some t
    ∧ (TemperatureTiers.heatwave (Thresholds.temperature (AlertService.thresholds this)) <= t)%Q
    ∧ Alert.type a = AlertType.heatwave
    ∧ Alert.severity a
      = (if Qle_bool (TemperatureTiers.extreme (Thresholds.temperature (AlertService.thresholds this))) t
         then Severity.critical else Severity.high)
    ∧ fresh now data a.

(** The wind check is due: the wind speed has reached the lowest
    boundary, no active alert of the selected type for the location name
    is younger than two hours, and the location has a name. *)
Definition wind_due (this : AlertService.t) (now : Z) (data : SensorData.t)
    (w : World.t) : Prop :=
  ∃ ws, Readings.windSpeed (SensorData.readings data) = Some ws
    ∧ ¬ (ws == 0)%Q
    ∧ (Tiers.low (Thresholds.windSpeed (AlertService.thresholds this)) <= ws)%Q
    ∧ List.find
        (AlertService.nameQuery
           (if Qle_bool (Tiers.high (Thresholds.windSpeed (AlertService.thresholds this))) ws
            then AlertType.cyclone else AlertType.storm)
           now (AlertService.hours 2) (SensorData.location data))
        (World.alerts w) = None
    ∧ SensorLocation.name (SensorData.location data) ≠ "".

(** The heatwave check is due, likewise, with a window of six hours. *)
Definition heat_due (this : AlertService.t) (now : Z) (data : SensorData.t)
    (w : World.t) : Prop :=
  ∃ t, Readings.temperature (SensorData.readings data) = Some t
    ∧ ¬ (t == 0)%Q
    ∧ (TemperatureTiers.heatwave (Thresholds.temperature (AlertService.thresholds this)) <= t)%Q
    ∧ List.find
        (AlertService.nameQuery AlertType.heatwave now (AlertService.hours 6)
           (SensorData.location data))
        (World.alerts w) = None
    ∧ SensorLocation.name (SensorData.location data) ≠ "".

(** A computation that leaves the connected sockets as they are. *)
Definition keeps_sockets {A} (c : Async A) : Prop :=
  ∀ w, World.sockets (snd (c w)) = World.sockets w.

(** A computation that returns, whatever the state. *)
Definition returns {A} (c : Async A) : Prop :=
  ∀ w, ∃ a, fst (c w) = Returned a.

(** The socket after it has received the events [evs], in order. *)
Definition deliver (evs : list (string * Js.value)) (s : Socket.t) : Socket.t :=
  Socket.mk (Socket.id s) (Socket.rooms s) (Socket.received s ++ evs).

(** A step that touches nothing but the count of calls of
    [Math.random()]. *)
Definition only_random (w w' : World.t) : Prop :=
  World.alerts w' = World.alerts w
  ∧ World.sensorData w' = World.sensorData w
  ∧ World.nextId w' = World.nextId w
  ∧ World.sockets w' = World.sockets w
  ∧ World.connectedClients w' = World.connectedClients w.

(** A source of random numbers in the range of [Math.random()]. *)
Definition unit_interval (random : nat → Q) : Prop :=
  ∀ n, (0 <= random n ∧ random n < 1)%Q.

(** A synthetic reading is a plain object at a location of the list: it
    was never saved. *)
Definition at_location (area : MonitoredLocation.t) (d : SensorData.t) : Prop :=
  SensorLocation.name (SensorData.location d) = MonitoredLocation.name area
  ∧ SensorLocation.latitude (SensorData.location d) = MonitoredLocation.lat area
  ∧ SensorLocation.longitude (SensorData.location d) = MonitoredLocation.lon area
  ∧ SensorData.createdAt d = None.

(** ** Sample inputs *)

Module Samples.
#[local] Open Scope Q_scope.

(** The sensor at the Ganges basin reporting a water level. *)
Definition ganges (level : Q) : SensorData.t :=
  SensorData.mk Source.sensor "flood"
    (SensorLocation.mk "Ganges Basin, India" 25.3176 82.9739)
    (Readings.mk None None None None None None None (Some 110) None (Some level))
    "moderate" None (Some 0%Z).

(** The spec's cyclone scenario: 140 km/h over the Bay of Bengal. *)
Definition bay_of_bengal : SensorData.t :=
  SensorData.mk Source.openweather "weather"
    (SensorLocation.mk "Bay of Bengal" 15.5 85.0)
    (Readings.mk None None None None (Some 960) (Some 140) None (Some 120) None None)
    "good" None (Some 0%Z).

(** A windy and hot reading: 80 km/h and 43 degrees. *)
Definition hot_storm : SensorData.t :=
  SensorData.mk Source.openweather "weather"
    (SensorLocation.mk "Delhi, India" 28.6139 77.2090)
    (Readings.mk None None (Some 43) (Some 25) (Some 1008) (Some 80) None None None None)
    "good" None (Some 0%Z).

(** Light wind under a cloudburst: 45 km/h and 160 mm of rain. *)
Definition cloudburst : SensorData.t :=
  SensorData.mk Source.openweather "weather"
    (SensorLocation.mk "Mumbai, India" 19.076 72.8777)
    (Readings.mk None None (Some 30) (Some 90) (Some 1002) (Some 45) None (Some 160) None None)
    "good" None (Some 0%Z).

(** The spec's seismic scenario. *)
Definition nepal (magnitude : Q) : SensorData.t :=
  SensorData.mk Source.usgs "earthquake"
    (SensorLocation.mk "Nepal-India Border" 27.7 85.3)
    (Readings.mk (Some magnitude) (Some 15) None None None None None None None None)
    "good" None (Some 0%Z).

(** The collection after the first flood alert for the Ganges basin. *)
Definition flooded : World.t :=
  snd (AlertService._evaluateFlood (AlertService.constructor true) 0
         (ganges 8.5) World.empty).


(** The same collection after the alert has been resolved by a status
    update. *)
Definition resolved : World.t :=
  snd (AlertRoutes.patch 1 0 (AlertRoutes.mkBody (Some "resolved") None None None)
         flooded).

(** One client, connected and subscribed to floods only. *)
Definition flood_subscriber : World.t :=
  snd ((_ ← WebSocketService.on_connection 0 "c1";
        WebSocketService.on_subscribe "c1" ["flood"]) World.empty).

(** An earthquake alert as the ingestion path stores it. *)
Definition quake_alert : Alert.t :=
  Alerts.stamp 0
    (Alerts.document 0 "Earthquake M6.2 - Nepal-India Border"
       AlertType.earthquake Severity.high
       "A magnitude 6.2 earthquake detected at depth 15.0 km near Nepal-India Border."
       (AlertLocation.mk "Nepal-India Border" 27.7 85.3 124)
       (AlertData.mk (Some 6.2) (Some 15) None None None None None None)
       Source.usgs
       (AlertService._getEarthquakeRecommendations Severity.high 6.2)
       86400000).

End Samples.

(** ** routes/alerts.js: POST /api/alerts *)

Module AlertCreate.

(** The request body, read through the Alert schema: the keys of the
    schema that the [Alert] record holds, with the types the schema
    gives them; a key that is absent is [None].  [new Alert] drops the
    keys outside the schema; [_id] and the timestamps are taken to be
    absent from the body. *)
Record location := mkLocation {
  name : option string;
  latitude : option Q;
  longitude : option Q;
  radius : option Q;
}.

Record body := mkBody {
  title : option string;
  type : option string;
  severity : option string;
  status : option string;
  description : option string;
  bodyLocation : option location;
  data : AlertData.t;
  source : option string;
  affectedPopulation : option Q;
  recommendations : option (list string);
  notificationsSent : option bool;
  resolvedAt : option Z;
  expiresAt : option Z;
}.

(** The schema's [enum] validator of [type]. *)
Definition typeOf (s : string) : option AlertType.t :=
  if String.eqb s "earthquake" then Some AlertType.earthquake
  else if String.eqb s "flood" then Some AlertType.flood
  else if String.eqb s "cyclone" then Some AlertType.cyclone
  else if String.eqb s "tsunami" then Some AlertType.tsunami
  else if String.eqb s "wildfire" then Some AlertType.wildfire
  else if String.eqb s "extreme_weather" then Some AlertType.extreme_weather
  else if String.eqb s "heatwave" then Some AlertType.heatwave
  else if String.eqb s "storm" then Some AlertType.storm
  else None.

(** [new Alert({ ...req.body, source: 'manual' })] as [save] accepts it:
    the document with the given [_id], the schema defaults and the
    [trim] setter of [title], or [None] when a validator fails (a
    required path that is absent or empty, a value outside its enum).
    The source of the body, if any, is overwritten. *)
Definition document (id : nat) (b : body) : option Alert.t :=
  t ← title b;
  ty ← type b ≫= typeOf;
  sev ← severity b ≫= Severity.of_string;
  st ← match status b with
       | Some s => Status.of_string s
       | None => Some Status.active
       end;
  desc ← description b;
  loc ← bodyLocation b;
  n ← name loc;
  lat ← latitude loc;
  lon ← longitude loc;
  let a :=
    Alert.mk id (Js.trim t) ty sev st desc
      (AlertLocation.mk n lat lon (default 50%Q (radius loc)))
      (data b) Source.manual (default 0%Q (affectedPopulation b))
      (default [] (recommendations b)) (default false (notificationsSent b))
      (resolvedAt b) (expiresAt b) 0 0 in
  if Alert.valid a then Some a else None.

(** The handler: build, save, broadcast, answer 201; a failure of [save]
    is answered with 400. *)
Definition post (now : Z) (b : body) : Async AlertRoutes.response :=
  try_catch
    (w ← get_world;
     _ ← modify (World.with_nextId S);
     match document (World.nextId w) b with
     | None => throw "Alert validation failed"
     | Some a =>
         let alert := Alerts.stamp now a in
         _ ← modify (World.with_alerts (λ l, l ++ [alert]));
         _ ← Io.emit "new-alert" (Alert.toJSON alert);
         mret (AlertRoutes.Json 201 (Alert.toJSON alert))
     end)
    (λ msg, mret (AlertRoutes.Json 400 (Js.Obj [("error", Js.Str msg)]))).

End AlertCreate.

(** ** Vocabulary of the ingestion path *)

(** A computation run on a collection [base]: what it appends and how it
    ends satisfy [Φ]. *)
Definition runs_from {A} (base : list Alert.t) (c : Async A)
    (Φ : outcome A → list Alert.t → Prop) : Prop :=
  ∀ w, World.alerts w = base →
       ∃ l, World.alerts (snd (c w)) = base ++ l ∧ Φ (fst (c w)) l.

(** What the ingestion path writes on an alert besides its type and its
    severity: the schema defaults, the instant, the source and location
    of the reading, and per hazard the time to live, the radius, the
    recommendations and the snapshot of the measurements. *)
Definition ingested (now : Z) (data : SensorData.t) (a : Alert.t) : Prop :=
  fresh now data a
  ∧ Alert.updatedAt a = now
  ∧ Alert.resolvedAt a = None
  ∧ Alert.source a = SensorData.source data
  ∧ Alert.affectedPopulation a = 0%Q
  ∧ Alert.notificationsSent a = false
  ∧ Alert.valid a = true
  ∧ match Alert.type a with
    | AlertType.earthquake =>
        ∃ m, Readings.magnitude (SensorData.readings data) = Some m
           ∧ Alert.expiresAt a = Some (now + AlertService.hours 24)%Z
           ∧ AlertLocation.radius (Alert.location a) = (m * 20)%Q
           ∧ Alert.recommendations a
             = AlertService._getEarthquakeRecommendations (Alert.severity a) m
           ∧ Alert.data a
             = AlertData.mk (Some m) (Readings.depth (SensorData.readings data))
                 None None None None None None
    | AlertType.flood =>
        ∃ l, Readings.waterLevel (SensorData.readings data) = Some l
           ∧ Alert.expiresAt a = Some (now + AlertService.hours 48)%Z
           ∧ AlertLocation.radius (Alert.location a) = 75%Q
           ∧ Alert.recommendations a
             = AlertService._getFloodRecommendations (Alert.severity a)
           ∧ Alert.data a
             = AlertData.mk None None (Some l) None None
                 (Readings.rainfall (SensorData.readings data)) None None
    | AlertType.storm | AlertType.cyclone =>
        ∃ ws, Readings.windSpeed (SensorData.readings data) = Some ws
            ∧ Alert.expiresAt a = Some (now + AlertService.hours 12)%Z
            ∧ AlertLocation.radius (Alert.location a) = 100%Q
            ∧ Alert.recommendations a
              = AlertService._getStormRecommendations (Alert.severity a)
            ∧ Alert.data a
              = AlertData.mk None None None (Some ws) None
                  (Readings.rainfall (SensorData.readings data))
                  (Readings.pressure (SensorData.readings data)) None
    | AlertType.heatwave =>
        ∃ t, Readings.temperature (SensorData.readings data) = Some t
           ∧ Alert.expiresAt a = Some (now + AlertService.hours 24)%Z
           ∧ AlertLocation.radius (Alert.location a) = 50%Q
           ∧ Alert.recommendations a
             = ["Stay indoors during peak hours (11 AM - 4 PM)";
                "Drink plenty of water and fluids";
                "Avoid strenuous outdoor activities";
                "Check on elderly and vulnerable people";
                "Keep pets indoors with water"]
           ∧ Alert.data a
             = AlertData.mk None None None None (Some t) None None
                 (Readings.humidity (SensorData.readings data))
    | _ => False
    end.

(** The deduplication test of the evaluators, read between two alerts:
    [x], already stored, would have suppressed at the instant [now] the
    candidate that became [a]. *)
Definition suppresses (now : Z) (x a : Alert.t) : Prop :=
  Alert.status x = Status.active
  ∧ Alert.type x = Alert.type a
  ∧ match Alert.type a with
    | AlertType.earthquake =>
        (AlertLocation.latitude (Alert.location a) - 0.5
           <= AlertLocation.latitude (Alert.location x)
         ∧ AlertLocation.latitude (Alert.location x)
           <= AlertLocation.latitude (Alert.location a) + 0.5
         ∧ AlertLocation.longitude (Alert.location a) - 0.5
           <= AlertLocation.longitude (Alert.location x)
         ∧ AlertLocation.longitude (Alert.location x)
           <= AlertLocation.longitude (Alert.location a) + 0.5)%Q
        ∧ (now - AlertService.hours 1 ≤ Alert.createdAt x)%Z
    | AlertType.flood =>
        AlertLocation.name (Alert.location x) = AlertLocation.name (Alert.location a)
        ∧ (now - AlertService.hours 3 ≤ Alert.createdAt x)%Z
    | AlertType.storm | AlertType.cyclone =>
        AlertLocation.name (Alert.location x) = AlertLocation.name (Alert.location a)
        ∧ (now - AlertService.hours 2 ≤ Alert.createdAt x)%Z
    | AlertType.heatwave =>
        AlertLocation.name (Alert.location x) = AlertLocation.name (Alert.location a)
        ∧ (now - AlertService.hours 6 ≤ Alert.createdAt x)%Z
    | _ => False
    end.

(** The alerts of [l], appended one after the other to [base], each
    passed the deduplication test against everything stored before it. *)
Fixpoint admitted_after (base l : list Alert.t) : Prop :=
  match l with
  | [] => True
  | a :: l' =>
      (∀ x, x ∈ base → ¬ suppresses (Alert.createdAt a) x a)
      ∧ admitted_after (base ++ [a]) l'
  end.


(** What one evaluation of a reading leaves behind: it returns the last
    alert it stored, or null; what it stored was written by the ingestion
    path and passed the deduplication test. *)
Definition evaluated (now : Z) (data : SensorData.t) (base : list Alert.t)
    (r : outcome (option Alert.t)) (l : list Alert.t) : Prop :=
  r = Returned (last l)
  ∧ Forall (ingested now data) l
  ∧ admitted_after base l.

(** A reading that [evaluateAlerts] looks at: stored, and created within
    the last thirty minutes. *)
Definition recent (now : Z) (w : World.t) (data : SensorData.t) : Prop :=
  data ∈ World.sensorData w
  ∧ ∃ c, SensorData.createdAt data = Some c
       ∧ (now - AlertService.minutes 30 ≤ c)%Z.

(** ** Vocabulary of the status updates *)

(** The fields of an alert that a PATCH leaves alone. *)
Definition same_record (a a' : Alert.t) : Prop :=
  Alert._id a' = Alert._id a
  ∧ Alert.title a' = Alert.title a
  ∧ Alert.type a' = Alert.type a
  ∧ Alert.location a' = Alert.location a
  ∧ Alert.data a' = Alert.data a
  ∧ Alert.source a' = Alert.source a
  ∧ Alert.affectedPopulation a' = Alert.affectedPopulation a
  ∧ Alert.notificationsSent a' = Alert.notificationsSent a
  ∧ Alert.createdAt a' = Alert.createdAt a
  ∧ Alert.expiresAt a' = Alert.expiresAt a.

(** The alert that [findById] answers with. *)
Definition stored (id : nat) (w : World.t) : option Alert.t :=
  List.find (λ a, Nat.eqb (Alert._id a) id) (World.alerts w).

(** ** Vocabulary of the socket layer *)

(** The connected socket with the id [sid]. *)
Definition socketOf (sid : string) (w : World.t) : option Socket.t :=
  List.find (λ s, String.eqb (Socket.id s) sid) (World.sockets w).

(** ** Vocabulary of the source adapters *)

(** The document the weather adapter stores for a location and the
    answer of OpenWeatherMap: the wind speed converted from m/s to km/h,
    the visibility from metres to kilometres, the rainfall of the last
    hour or zero. *)
Definition weather_of (now : Z) (location : MonitoredLocation.t)
    (data : WeatherResponse.t) (d : SensorData.t) : Prop :=
  SensorData.source d = Source.openweather
  ∧ SensorData.type d = "weather"
  ∧ SensorData.location d
    = SensorLocation.mk (MonitoredLocation.name location)
        (MonitoredLocation.lat location) (MonitoredLocation.lon location)
  ∧ Readings.temperature (SensorData.readings d) = Some (WeatherResponse.main_temp data)
  ∧ Readings.windSpeed (SensorData.readings d)
    = Some (WeatherResponse.wind_speed data * 3.6)%Q
  ∧ Readings.visibility (SensorData.readings d)
    = Some (WeatherResponse.visibility data / 1000)%Q
  ∧ (∃ r, Readings.rainfall (SensorData.readings d) = Some r
        ∧ (WeatherResponse.rain data = None → r = 0%Q))
  ∧ SensorData.quality d = "good"
  ∧ SensorData.createdAt d = Some now.


(** A synthetic earthquake: near one of the five zones, of a magnitude
    from 2.5 to 7.5 and a depth from 5 to 305 km, never saved. *)
Definition synthetic_quake (d : SensorData.t) : Prop :=
  SensorData.type d = "earthquake"
  ∧ SensorData.createdAt d = None
  ∧ (∃ zone, zone ∈ DataCollectorService.zones
           ∧ SensorLocation.name (SensorData.location d)
             = "Near " +:+ MonitoredLocation.name zone
           ∧ (MonitoredLocation.lat zone - 2.5
                <= SensorLocation.latitude (SensorData.location d)
              ∧ SensorLocation.latitude (SensorData.location d)
                < MonitoredLocation.lat zone + 2.5)%Q
           ∧ (MonitoredLocation.lon zone - 2.5
                <= SensorLocation.longitude (SensorData.location d)
              ∧ SensorLocation.longitude (SensorData.location d)
                < MonitoredLocation.lon zone + 2.5)%Q)
  ∧ (∃ m, Readings.magnitude (SensorData.readings d) = Some m
        ∧ (2.5 <= m ∧ m < 7.5)%Q)
  ∧ (∃ h, Readings.depth (SensorData.readings d) = Some h
        ∧ (5 <= h ∧ h < 305)%Q).

(** A synthetic flood reading for an area: either quiet, with a water
    level from 1 to 4 m and 5 to 35 mm of rain, or flooding, with a
    level from 5 to 15 m and 80 to 200 mm of rain. *)
Definition synthetic_flood (area : MonitoredLocation.t) (d : SensorData.t) : Prop :=
  at_location area d
  ∧ SensorData.type d = "flood"
  ∧ ∃ level rain,
      Readings.waterLevel (SensorData.readings d) = Some level
      ∧ Readings.rainfall (SensorData.readings d) = Some rain
      ∧ ((1 <= level ∧ level < 4 ∧ 5 <= rain ∧ rain < 35)
         ∨ (5 <= level ∧ level < 15 ∧ 80 <= rain ∧ rain < 200))%Q.

(** A synthetic weather reading for a location: either calm, with 15 to
    35 degrees, wind from 5 to 35 km/h and up to 20 mm of rain, or
    extreme, with 30 to 50 degrees, wind from 80 to 180 km/h and 50 to
    200 mm of rain. *)
Definition synthetic_weather (location : MonitoredLocation.t) (d : SensorData.t) : Prop :=
  at_location location d
  ∧ SensorData.type d = "weather"
  ∧ ∃ t ws rain,
      Readings.temperature (SensorData.readings d) = Some t
      ∧ Readings.windSpeed (SensorData.readings d) = Some ws
      ∧ Readings.rainfall (SensorData.readings d) = Some rain
      ∧ ((15 <= t ∧ t < 35 ∧ 5 <= ws ∧ ws < 35 ∧ 0 <= rain ∧ rain < 20)
         ∨ (30 <= t ∧ t < 50 ∧ 80 <= ws ∧ ws < 180 ∧ 50 <= rain ∧ rain < 200))%Q.

(** ** Vocabulary of the listings *)

(** The place of a severity in a listing sorted by [{ severity: -1 }]:
    the severities are stored as strings, and in descending order of the
    strings 'medium' comes first and 'critical' last. *)
Definition listingRank (s : Severity.t) : nat :=
  match s with
  | Severity.medium => 0
  | Severity.low => 1
  | Severity.high => 2
  | Severity.critical => 3
  end.

(** [a] is listed before [b]. *)
Definition listedBefore (a b : Alert.t) : Prop :=
  (listingRank (Alert.severity a) < listingRank (Alert.severity b))%nat
  ∨ (Alert.severity a = Alert.severity b
     ∧ (Alert.createdAt b ≤ Alert.createdAt a)%Z).

(** An alert that GET /active shows at the instant [now]. *)
Definition current (now : Z) (a : Alert.t) : Prop :=
  Alert.status a = Status.active
  ∧ ∀ e, Alert.expiresAt a = Some e → (now ≤ e)%Z.

(** ** Scenarios *)

Module Scenarios.
#[local] Open Scope Q_scope.

(** A station's collections before any alert: a flood reading and a
    windy, hot reading, both stored at the instant 0. *)
Definition station : World.t :=
  World.mk [] [Samples.ganges 8.5; Samples.hot_storm] 0 [] ∅ 0.



(** A flood alert as the ingestion path stores it, with the id 1. *)
Definition ganges_alert : Alert.t :=
  Alerts.stamp 0
    (Alerts.document 1 "Flood Warning - Ganges Basin, India"
       AlertType.flood Severity.high
       "Water level at 8.5m detected at Ganges Basin, India."
       (AlertLocation.mk "Ganges Basin, India" 25.3176 82.9739 75)
       (AlertData.mk None None (Some 8.5) None None (Some 110) None None)
       Source.sensor
       (AlertService._getFloodRecommendations Severity.high)
       172800000).

(** Two stored alerts, with the ids 0 and 1, and two connected clients. *)
Definition archive : World.t :=
  World.mk [Samples.quake_alert; ganges_alert] [] 2
    [Socket.mk "c1" {["c1"]} []; Socket.mk "c2" {["c2"; "flood"]} []]
    {["c1" := Client.mk 0 []; "c2" := Client.mk 0 ["flood"]]} 0.

(** A source of random numbers that always answers 0.9. *)
Definition steady : nat → Q := λ _, 0.9.

(** OpenWeatherMap answering for Delhi only; every other request fails. *)
Definition delhi_only (location : MonitoredLocation.t) : option WeatherResponse.t :=
  if String.eqb (MonitoredLocation.name location) "Delhi, India"
  then Some (WeatherResponse.mk 43 25 1008 12.5 270 None 4000)
  else None.



(** The same body without its title. *)
Definition untitled : AlertCreate.body :=
  AlertCreate.mkBody None (Some "flood") (Some "medium") None
    (Some "Reported by the district office.")
    (Some (AlertCreate.mkLocation (Some "Ganges Basin, India") (Some 25.3) (Some 82.9) None))
    AlertData.empty (Some "usgs") None None None None None.

End Scenarios.

(** * Properties *)

(** ** Built-ins *)

Example toFixed_1 : Js.toFixed (31 # 5) 1 = "6.2". Proof. reflexivity. Qed.
Example toFixed_0 : Js.toFixed (281 # 2) 0 = "141". Proof. reflexivity. Qed.
Example toFixed_small : Js.toFixed (1 # 25) 1 = "0.0". Proof. reflexivity. Qed.
Example toFixed_neg : Js.toFixed (- (5 # 4)) 1 = "-1.3". Proof. reflexivity. Qed.
Example trim_1 : Js.trim "  Flood Warning - X  y " = "Flood Warning - X  y". Proof. reflexivity. Qed.

Lemma ge_true a b : Js.ge a b = true ↔ (b <= a)%Q.
Proof. apply Qle_bool_iff. Qed.

Lemma ge_false a b : Js.ge a b = false ↔ (a < b)%Q.
Proof.
  unfold Js.ge. rewrite <- not_true_iff_false, Qle_bool_iff.
  split; [apply Qnot_le_lt | apply Qlt_not_le].
Qed.

Lemma le_true a b : Js.le a b = true ↔ (a <= b)%Q.
Proof. apply Qle_bool_iff. Qed.

Lemma lt_false a b : Js.lt a b = false ↔ (b <= a)%Q.
Proof. unfold Js.lt. rewrite negb_false_iff. apply Qle_bool_iff. Qed.

Lemma lt_true a b : Js.lt a b = true ↔ (a < b)%Q.
Proof. unfold Js.lt. rewrite negb_true_iff. apply ge_false. Qed.

Lemma nonzero_false a : Qeq_bool a 0 = false ↔ ¬ (a == 0)%Q.
Proof. rewrite <- not_true_iff_false, Qeq_bool_iff. tauto. Qed.

Lemma trim_cons c s :
  Js.is_space c = false → Js.trim (String c s) = String c (Js.trimEnd s).
Proof.
  intros H. unfold Js.trim. cbn [Js.trimStart]. rewrite H. cbn [Js.trimEnd].
  rewrite H. by destruct (Js.trimEnd s).
Qed.

(** A document whose title and description start with a visible
    character passes validation exactly when its location has a name. *)
Lemma valid_named id c t ty sev st c' d loc dat src pop recs sent res exp cr up :
  Js.is_space c = false →
  Alert.valid (Alert.mk id (Js.trim (String c t)) ty sev st (String c' d) loc
                 dat src pop recs sent res exp cr up)
  = negb (String.eqb (AlertLocation.name loc) "").
Proof.
  intros H. unfold Alert.valid.
  cbn [Alert.title Alert.description Alert.location].
  by rewrite trim_cons.
Qed.

Lemma eqb_empty_false s : s ≠ "" → String.eqb s "" = false.
Proof. intros H. by apply String.eqb_neq. Qed.


(** ** Running the monad *)

Lemma bind_run {A B} (c : Async A) (k : A → Async B) w :
  (x ← c; k x) w =
  match c w with
  | (Returned a, w') => k a w'
  | (Thrown msg, w') => (Thrown msg, w')
  end.
Proof. reflexivity. Qed.

Lemma ret_run {A} (a : A) w : (mret a : Async A) w = (Returned a, w).
Proof. reflexivity. Qed.

Lemma findOne_run q w :
  Alerts.findOne q w = (Returned (List.find q (World.alerts w)), w).
Proof. reflexivity. Qed.

Lemma save_run now a w :
  Alerts.save now a w =
  if Alert.valid a
  then (Returned (Alerts.stamp now a),
        World.with_alerts (λ l, l ++ [Alerts.stamp now a]) w)
  else (Thrown "Alert validation failed", w).
Proof. unfold Alerts.save. by destruct (Alert.valid a). Qed.

(** Building a document and saving it either appends the stamped
    document or fails validation, leaving the collection as it was. *)
Lemma new_save now title ty sev desc loc dat src recs exp w :
  (a ← Alerts.new title ty sev desc loc dat src recs exp;
   a ← Alerts.save now a; mret (Some a)) w =
  let doc := Alerts.document (World.nextId w) title ty sev desc loc dat src recs exp in
  if Alert.valid doc
  then (Returned (Some (Alerts.stamp now doc)),
        World.with_alerts (λ l, l ++ [Alerts.stamp now doc]) (World.with_nextId S w))
  else (Thrown "Alert validation failed", World.with_nextId S w).
Proof.
  rewrite bind_run. unfold Alerts.new. rewrite bind_run, save_run.
  by destruct (Alert.valid _).
Qed.

Lemma try_catch_alerts {A} (c : Async A) (a : A) w :
  World.alerts (snd (try_catch c (λ _, mret a) w)) = World.alerts (snd (c w)).
Proof. unfold try_catch. by destruct (c w) as [[?|?] ?]. Qed.

(** The cascade of comparisons in the evaluators computes the tier of the
    table, for a value at or above the lowest boundary. *)
Lemma cascade_tier th x :
  (Tiers.low th <= x)%Q →
  tierOf th x
  = Some (if Js.ge x (Tiers.critical th) then Severity.critical
          else if Js.ge x (Tiers.high th) then Severity.high
          else if Js.ge x (Tiers.medium th) then Severity.medium
          else Severity.low).
Proof.
  intros H. unfold tierOf, Js.ge.
  repeat case_match; try done.
  apply Qle_bool_iff in H. congruence.
Qed.

Lemma valid_document id c t s ty sev c' d s' loc dat src recs exp :
  Js.is_space c = false →
  Alert.valid (Alerts.document id (String c t +:+ s) ty sev (String c' d +:+ s')
                 loc dat src recs exp)
  = negb (String.eqb (AlertLocation.name loc) "").
Proof.
  intros H. unfold Alerts.document.
  change (String c t +:+ s) with (String c (t +:+ s)).
  change (String c' d +:+ s') with (String c' (d +:+ s')).
  by apply valid_named.
Qed.
(** ** The flood path *)

Lemma flood_absent this now data w :
  Readings.waterLevel (SensorData.readings data) = None →
  AlertService._evaluateFlood this now data w = (Returned None, w).
Proof. intros H. unfold AlertService._evaluateFlood. by rewrite H. Qed.

Lemma flood_below this now data w l :
  Readings.waterLevel (SensorData.readings data) = Some l →
  (l < Tiers.low (Thresholds.waterLevel (AlertService.thresholds this)))%Q →
  AlertService._evaluateFlood this now data w = (Returned None, w).
Proof.
  intros H Hl%lt_true. unfold AlertService._evaluateFlood.
  by rewrite H, Hl, orb_true_r.
Qed.



Lemma flood_created this now data w :
  ∃ l, World.alerts (snd (AlertService._evaluateFlood this now data w))
       = World.alerts w ++ l
     ∧ (length l ≤ 1)%nat
     ∧ ∀ a, a ∈ l → flood_ok this now data a.
Proof.
  assert (∃ l : list Alert.t, World.alerts w = World.alerts w ++ l ∧ (length l ≤ 1)%nat
          ∧ ∀ a, a ∈ l → flood_ok this now data a) as Hnil.
  { exists []. rewrite app_nil_r. split_and!; [done|simpl; lia|]. intros a Ha. inversion Ha. }
  destruct (Readings.waterLevel (SensorData.readings data)) as [l|] eqn:H.
  2:{ by rewrite flood_absent. }
  unfold AlertService._evaluateFlood. rewrite H.
  destruct (Qeq_bool l 0 || _) eqn:Hc; [done|].
  apply orb_false_iff in Hc as [H0 Hl%lt_false].
  rewrite bind_run, findOne_run.
  destruct (List.find _ _) eqn:Hf; [done|].
  rewrite new_save. cbv zeta. destruct (Alert.valid _); [|done].
  eexists [_]. split_and!; [reflexivity|simpl; lia|].
  intros a ->%list_elem_of_singleton.
  exists l. split_and!; try done. by rewrite cascade_tier.
Qed.
(** ** The earthquake path *)

Lemma quake_absent this now data w :
  Readings.magnitude (SensorData.readings data) = None →
  AlertService._evaluateEarthquake this now data w = (Returned None, w).
Proof. intros H. unfold AlertService._evaluateEarthquake. by rewrite H. Qed.

Lemma quake_below this now data w m :
  Readings.magnitude (SensorData.readings data) = Some m →
  (m < Tiers.low (Thresholds.earthquake (AlertService.thresholds this)))%Q →
  AlertService._evaluateEarthquake this now data w = (Returned None, w).
Proof.
  intros H Hm%lt_true. unfold AlertService._evaluateEarthquake.
  by rewrite H, Hm, orb_true_r.
Qed.



Lemma quake_created this now data w :
  ∃ l, World.alerts (snd (AlertService._evaluateEarthquake this now data w))
       = World.alerts w ++ l
     ∧ (length l ≤ 1)%nat
     ∧ ∀ a, a ∈ l → quake_ok this now data a.
Proof.
  assert (∃ l : list Alert.t, World.alerts w = World.alerts w ++ l ∧ (length l ≤ 1)%nat
          ∧ ∀ a, a ∈ l → quake_ok this now data a) as Hnil.
  { exists []. rewrite app_nil_r. split_and!; [done|simpl; lia|]. intros a Ha. inversion Ha. }
  destruct (Readings.magnitude (SensorData.readings data)) as [m|] eqn:H.
  2:{ by rewrite quake_absent. }
  unfold AlertService._evaluateEarthquake. rewrite H.
  destruct (Qeq_bool m 0 || _) eqn:Hc; [done|].
  apply orb_false_iff in Hc as [H0 Hm%lt_false].
  rewrite bind_run, findOne_run.
  destruct (List.find _ _) eqn:Hf; [done|].
  rewrite new_save. cbv zeta. destruct (Alert.valid _); [|done].
  eexists [_]. split_and!; [reflexivity|simpl; lia|].
  intros a ->%list_elem_of_singleton.
  exists m. split_and!; try done. by rewrite cascade_tier.
Qed.
(** ** The weather path *)

Lemma find_app_none {A} (q : A → bool) l l' :
  List.find q l = None → (∀ x, x ∈ l' → q x = false) → List.find q (l ++ l') = None.
Proof.
  intros Hl Hl'. induction l as [|y l IH]; simpl in *.
  - induction l' as [|y l' IH]; [done|]. simpl.
    rewrite Hl' by left. apply IH. intros x Hx. apply Hl'. by right.
  - destruct (q y); [done|]. by apply IH.
Qed.

Lemma nameQuery_type ty now window loc a :
  Alert.type a ≠ ty → AlertService.nameQuery ty now window loc a = false.
Proof.
  intros H. unfold AlertService.nameQuery.
  by rewrite bool_decide_eq_false_2.
Qed.

Lemma wind_ok_not_heatwave this now data a :
  wind_ok this now data a → Alert.type a ≠ AlertType.heatwave.
Proof. intros (ws & _ & _ & -> & _). by case_match. Qed.

Lemma weather_created this now data w :
  ∃ wind heat,
    World.alerts (snd (AlertService._evaluateWeather this now data w))
    = World.alerts w ++ wind ++ heat
    ∧ (length wind ≤ 1)%nat ∧ (length heat ≤ 1)%nat
    ∧ (∀ a, a ∈ wind → wind_ok this now data a)
    ∧ (∀ a, a ∈ heat → heat_ok this now data a)
    ∧ (wind_due this now data w ↔ wind ≠ [])
    ∧ (heat_due this now data w ↔ heat ≠ [])
    ∧ (SensorLocation.name (SensorData.location data) ≠ "" →
       fst (AlertService._evaluateWeather this now data w)
       = Returned (last (wind ++ heat))).
Proof.
  unfold AlertService._evaluateWeather. cbv zeta. rewrite bind_run.
  lazymatch goal with
  | |- context [match ?c w with _ => _ end] =>
      destruct (c w) as [r1 w1] eqn:E1
  end.
  assert (∃ wind, World.alerts w1 = World.alerts w ++ wind ∧ (length wind ≤ 1)%nat
                  ∧ (∀ a, a ∈ wind → wind_ok this now data a)
                  ∧ (wind_due this now data w ↔ wind ≠ [])
                  ∧ (r1 = Returned (last wind)
                     ∨ SensorLocation.name (SensorData.location data) = ""
                       ∧ ∃ msg, r1 = Thrown msg))
    as (wind & Hw1 & Hlen1 & Hok1 & Hdue1 & Hr1).
  { destruct (Readings.windSpeed (SensorData.readings data)) as [ws|] eqn:Hws.
    2:{ rewrite ret_run in E1. simplify_eq. exists []. rewrite app_nil_r.
        split_and!; [done|simpl; lia|by intros a Ha; inversion Ha| |by left].
        split; [|done]. intros (? & ? & _); congruence. }
    destruct (negb (Qeq_bool ws 0) && Js.ge ws _) eqn:Hc.
    2:{ rewrite ret_run in E1. simplify_eq. exists []. rewrite app_nil_r.
        split_and!; [done|simpl; lia|by intros a Ha; inversion Ha| |by left].
        split; [|done].
        intros (ws' & ? & H0%nonzero_false & Hl%ge_true & _). simplify_eq.
        by rewrite H0, Hl in Hc. }
    apply andb_true_iff in Hc as [H0%negb_true_iff%nonzero_false Hlow%ge_true].
    rewrite bind_run, findOne_run in E1.
    destruct (List.find _ (World.alerts w)) eqn:Hf.
    { rewrite ret_run in E1. simplify_eq. exists []. rewrite app_nil_r.
      split_and!; [done|simpl; lia|by intros a Ha; inversion Ha| |by left].
      split; [|done].
      intros (ws' & ? & _ & _ & Hf' & _). simplify_eq.
      unfold Js.ge in Hf. congruence. }
    rewrite new_save in E1. cbv zeta in E1.
    destruct (Alert.valid _) eqn:Hv; simplify_eq.
    - eexists [_]. split_and!; [reflexivity|simpl; lia| | |by left].
      + intros a ->%list_elem_of_singleton. exists ws.
        split_and!; try done. by rewrite cascade_tier.
      + split; [done|]. intros _. exists ws. split_and!; try done.
        destruct (bool_decide _);
          rewrite valid_document in Hv by reflexivity;
          cbn [AlertLocation.name] in Hv;
          by apply negb_true_iff, String.eqb_neq in Hv.
    - assert (SensorLocation.name (SensorData.location data) = "") as Hn.
      { destruct (bool_decide _);
          rewrite valid_document in Hv by reflexivity;
          cbn [AlertLocation.name] in Hv;
          by apply negb_false_iff, String.eqb_eq in Hv. }
      exists []. rewrite app_nil_r.
      split_and!; [done|simpl; lia|by intros a Ha; inversion Ha| |right; eauto].
      split; [|done]. by intros (? & _ & _ & _ & _ & ?). }
  clear E1.
  destruct Hr1 as [->|[Hn [msg ->]]].
  2:{ exists wind, []. rewrite app_nil_r. cbn [snd fst].
      split_and!; [done|done|simpl; lia|done|by intros a Ha; inversion Ha|done| |done].
      split; [|done]. by intros (? & _ & _ & _ & _ & ?). }
  rewrite bind_run.
  lazymatch goal with
  | |- context [match ?c w1 with _ => _ end] =>
      destruct (c w1) as [r2 w2] eqn:E2
  end.
  assert (∀ q, (∀ x, Alert.type x ≠ AlertType.heatwave → q x = false) →
               List.find q (World.alerts w1) = None ↔ List.find q (World.alerts w) = None)
    as Hfind.
  { intros q Hq. rewrite Hw1. split.
    - intros Hnone. destruct (List.find q (World.alerts w)) eqn:E; [|done].
      apply find_some in E as [Hin Hqa].
      eapply find_none in Hnone; [|apply in_or_app; left; done]. congruence.
    - intros Hnone. apply find_app_none; [done|].
      intros x Hx. by eapply Hq, wind_ok_not_heatwave, Hok1. }
  assert (∃ heat, World.alerts w2 = World.alerts w1 ++ heat ∧ (length heat ≤ 1)%nat
                  ∧ (∀ a, a ∈ heat → heat_ok this now data a)
                  ∧ (heat_due this now data w ↔ heat ≠ [])
                  ∧ (r2 = Returned (last (wind ++ heat))
                     ∨ SensorLocation.name (SensorData.location data) = ""
                       ∧ ∃ msg, r2 = Thrown msg))
    as (heat & Hw2 & Hlen2 & Hok2 & Hdue2 & Hr2).
  { destruct (Readings.temperature (SensorData.readings data)) as [t|] eqn:Ht.
    2:{ rewrite ret_run in E2. simplify_eq. exists []. rewrite !app_nil_r.
        split_and!; [done|simpl; lia|by intros a Ha; inversion Ha| |by left].
        split; [|done]. intros (? & ? & _); congruence. }
    destruct (negb (Qeq_bool t 0) && Js.ge t _) eqn:Hc.
    2:{ rewrite ret_run in E2. simplify_eq. exists []. rewrite !app_nil_r.
        split_and!; [done|simpl; lia|by intros a Ha; inversion Ha| |by left].
        split; [|done].
        intros (t' & ? & H0%nonzero_false & Hl%ge_true & _). simplify_eq.
        by rewrite H0, Hl in Hc. }
    apply andb_true_iff in Hc as [H0%negb_true_iff%nonzero_false Hlow%ge_true].
    rewrite bind_run, findOne_run in E2.
    destruct (List.find _ (World.alerts w1)) eqn:Hf.
    { rewrite ret_run in E2. simplify_eq. exists []. rewrite !app_nil_r.
      split_and!; [done|simpl; lia|by intros a Ha; inversion Ha| |by left].
      split; [|done].
      intros (t' & ? & _ & _ & Hf' & _). simplify_eq.
      apply Hfind in Hf'; [congruence|]. intros x Hx. by apply nameQuery_type. }
    apply Hfind in Hf; [|intros x Hx; by apply nameQuery_type].
    rewrite new_save in E2. cbv zeta in E2.
    rewrite valid_document in E2 by reflexivity.
    cbn [AlertLocation.name] in E2.
    destruct (String.eqb _ "") eqn:Hv; cbn [negb] in E2; simplify_eq.
    - apply String.eqb_eq in Hv.
      exists []. rewrite !app_nil_r.
      split_and!; [done|simpl; lia|by intros a Ha; inversion Ha| |right; eauto].
      split; [|done]. by intros (? & _ & _ & _ & _ & ?).
    - apply String.eqb_neq in Hv.
      eexists [_]. split_and!; [reflexivity|simpl; lia| | |left].
      + intros a ->%list_elem_of_singleton. exists t. by split_and!.
      + split; [done|]. intros _. exists t. by split_and!.
      + by rewrite last_snoc. }
  clear E2. exists wind, heat.
  destruct Hr2 as [->|[Hn [msg ->]]]; rewrite ?ret_run; cbn [fst snd];
    rewrite Hw2, Hw1, <- app_assoc; split_and!; done.
Qed.

(** ** Deduplication of flood alerts *)

Lemma nameQuery_true ty now window loc a :
  AlertService.nameQuery ty now window loc a = true ↔
  Alert.type a = ty ∧ Alert.status a = Status.active
  ∧ AlertLocation.name (Alert.location a) = SensorLocation.name loc
  ∧ (now - window ≤ Alert.createdAt a)%Z.
Proof.
  unfold AlertService.nameQuery.
  rewrite !andb_true_iff, !bool_decide_eq_true, String.eqb_eq, Z.leb_le.
  tauto.
Qed.



(** ** What one evaluation adds to the collection *)

Lemma created_app w w' l :
  World.alerts w' = World.alerts w ++ l → created w w' = l.
Proof. intros H. unfold created. rewrite H. apply drop_app_length. Qed.

Lemma heat_ok_heatwave this now data a :
  heat_ok this now data a → Alert.type a = AlertType.heatwave.
Proof. by intros (t & _ & _ & ? & _). Qed.

(** The alerts a weather reading adds are at most one wind alert followed
    by at most one heatwave alert. *)
Lemma weather_created_cases this now data w a :
  a ∈ created w (snd (AlertService._evaluateWeather this now data w)) →
  (Alert.type a ≠ AlertType.heatwave ∧ wind_ok this now data a)
  ∨ (Alert.type a = AlertType.heatwave ∧ heat_ok this now data a).
Proof.
  destruct (weather_created this now data w)
    as (wind & heat & Hw & _ & _ & Hwind & Hheat & _).
  rewrite (created_app _ _ _ Hw).
  intros [Ha|Ha]%elem_of_app.
  - left. split; [|by apply Hwind]. by eapply wind_ok_not_heatwave, Hwind.
  - right. split; [|by apply Hheat]. by eapply heat_ok_heatwave, Hheat.
Qed.



(** ** Selection of the hazard type by the wind speed *)



(** The spec's scenario evaluated: 140 km/h is a cyclone of severity
    high under the configured table. *)
Example bay_of_bengal_140 :
  (λ a, (Alert.type a, Alert.severity a))
  <$> created World.empty
        (snd (AlertService._evaluateWeather (AlertService.constructor true)
                0 Samples.bay_of_bengal World.empty))
  = [(AlertType.cyclone, Severity.high)].
Proof. reflexivity. Qed.
(** ** Tier boundaries *)





(** The examples of the claim, evaluated: magnitude 6.0 is high, 7.0 is
    critical, and the spec's 6.2 is high. *)
Example magnitude_at_boundaries :
  (λ m, Alert.severity
        <$> created World.empty
              (snd (AlertService._evaluateEarthquake (AlertService.constructor true) 0
                      (Samples.nepal m) World.empty)))
  <$> [3.0; 4.5; 6.0; 6.2; 7.0]%Q
  = [[Severity.low]; [Severity.medium]; [Severity.high]; [Severity.high];
     [Severity.critical]].
Proof. reflexivity. Qed.
(** ** Severity of a weather alert *)

(** C4, as the spec states it, fails: with 45 km/h of wind (tier low) and
    160 mm of rain (tier critical) the storm alert has severity low, not
    the higher of the two tiers. *)
Lemma severity_not_highest_tier :
  ¬ (∀ this now data w a ws rf,
       Readings.windSpeed (SensorData.readings data) = Some ws →
       Readings.rainfall (SensorData.readings data) = Some rf →
       a ∈ created w (snd (AlertService._evaluateWeather this now data w)) →
       Alert.type a ≠ AlertType.heatwave →
       Some (Alert.severity a)
       = higherTier
           (tierOf (Thresholds.windSpeed (AlertService.thresholds this)) ws)
           (tierOf (Thresholds.rainfall (AlertService.thresholds this)) rf)).
Proof.
  intros H.
  destruct (created World.empty
              (snd (AlertService._evaluateWeather (AlertService.constructor true) 0
                      Samples.cloudburst World.empty))) as [|a l] eqn:E;
    [by vm_compute in E|].
  specialize (H (AlertService.constructor true) 0%Z Samples.cloudburst World.empty
                a 45%Q 160%Q eq_refl eq_refl).
  rewrite E in H. vm_compute in E. injection E as <- <-.
  specialize (H ltac:(by left) ltac:(done)).
  by vm_compute in H.
Qed.

(** C4, amended.  The severity of an alert added by a weather reading
    comes from one measurement: for a storm or cyclone alert it is the
    tier of the wind speed in the wind-speed table, for a heatwave alert
    it is critical at or above the extreme temperature and high below
    it.  The rainfall takes no part. *)
Theorem weather_severity_from_one_measurement this now data w a :
  a ∈ created w (snd (AlertService._evaluateWeather this now data w)) →
  (Alert.type a ≠ AlertType.heatwave →
   ∃ ws, Readings.windSpeed (SensorData.readings data) = Some ws
       ∧ tierOf (Thresholds.windSpeed (AlertService.thresholds this)) ws
         = Some (Alert.severity a))
  ∧ (Alert.type a = AlertType.heatwave →
     ∃ t, Readings.temperature (SensorData.readings data) = Some t
        ∧ Alert.severity a
          = (if Qle_bool (TemperatureTiers.extreme
                            (Thresholds.temperature (AlertService.thresholds this))) t
             then Severity.critical else Severity.high)).
Proof.
  intros Ha.
  destruct (weather_created_cases _ _ _ _ _ Ha) as [[Hty Hok]|[Hty Hok]].
  - split; [|done]. intros _.
    destruct Hok as (ws & ? & _ & _ & ? & _). eauto.
  - split; [done|]. intros _.
    destruct Hok as (t & ? & _ & _ & ? & _). eauto.
Qed.

Lemma weather_severity_from_one_measurement_witness :
  ∃ a, a ∈ created World.empty
             (snd (AlertService._evaluateWeather (AlertService.constructor true) 0
                     Samples.cloudburst World.empty))
     ∧ (Alert.type a ≠ AlertType.heatwave →
        ∃ ws, Readings.windSpeed (SensorData.readings Samples.cloudburst) = Some ws
            ∧ tierOf (Thresholds.windSpeed
                        (AlertService.thresholds (AlertService.constructor true))) ws
              = Some (Alert.severity a))
     ∧ (Alert.type a = AlertType.heatwave →
        ∃ t, Readings.temperature (SensorData.readings Samples.cloudburst) = Some t
           ∧ Alert.severity a
             = (if Qle_bool (TemperatureTiers.extreme
                               (Thresholds.temperature
                                  (AlertService.thresholds (AlertService.constructor true)))) t
                then Severity.critical else Severity.high)).
Proof.
  eexists. split;
    [|apply (weather_severity_from_one_measurement (AlertService.constructor true) 0
               Samples.cloudburst World.empty)];
    vm_compute; left.
Defined.

(** ** Alerts per reading *)

(** C3, as the spec states it, fails: a reading with 80 km/h of wind and
    43 degrees adds two alerts to an empty collection. *)
Lemma two_alerts_from_one_reading :
  ¬ (∀ this now data w,
       (length (created w (snd (AlertService._evaluateDataPoint this now data w))) ≤ 1)%nat).
Proof.
  intros H.
  specialize (H (AlertService.constructor true) 0%Z Samples.hot_storm World.empty).
  vm_compute in H. lia.
Qed.

Lemma filter_none {A} (P : A → Prop) `{∀ x, Decision (P x)} (l : list A) :
  (∀ x, x ∈ l → ¬ P x) → filter P l = [].
Proof.
  induction l as [|y l IH]; intros Hl; [done|].
  rewrite filter_cons, decide_False by (apply Hl; by left).
  apply IH. intros x Hx. apply Hl. by right.
Qed.

Lemma evaluateDataPoint_alerts this now data w :
  World.alerts (snd (AlertService._evaluateDataPoint this now data w))
  = World.alerts
      (snd ((if String.eqb (SensorData.type data) "earthquake"
             then AlertService._evaluateEarthquake this now data
             else if String.eqb (SensorData.type data) "weather"
             then AlertService._evaluateWeather this now data
             else if String.eqb (SensorData.type data) "flood"
             then AlertService._evaluateFlood this now data
             else mret None) w)).
Proof. apply try_catch_alerts. Qed.

(** C3, amended.  A reading adds at most one alert per hazard check: an
    earthquake or flood reading adds at most one alert, and a weather
    reading adds at most one storm or cyclone alert and at most one
    heatwave alert, hence at most two. *)
Theorem one_alert_per_hazard_check this now data w :
  ∃ l, World.alerts (snd (AlertService._evaluateDataPoint this now data w))
       = World.alerts w ++ l
     ∧ (length l ≤ 2)%nat
     ∧ (SensorData.type data ≠ "weather" → (length l ≤ 1)%nat)
     ∧ (length (filter (λ a, Alert.type a = AlertType.heatwave) l) ≤ 1)%nat
     ∧ (length (filter (λ a, Alert.type a ≠ AlertType.heatwave) l) ≤ 1)%nat.
Proof.
  rewrite evaluateDataPoint_alerts.
  assert (∀ l : list Alert.t, (length l ≤ 1)%nat →
            (length (filter (λ a, Alert.type a = AlertType.heatwave) l) ≤ 1)%nat
            ∧ (length (filter (λ a, Alert.type a ≠ AlertType.heatwave) l) ≤ 1)%nat)
    as Hshort.
  { intros l Hl. split; (etrans; [apply length_filter|done]). }
  destruct (String.eqb (SensorData.type data) "earthquake") eqn:Eq.
  { apply String.eqb_eq in Eq.
    destruct (quake_created this now data w) as (l & Hl & Hlen & _).
    exists l. destruct (Hshort l Hlen). split_and!; [done|lia|done|done|done]. }
  destruct (String.eqb (SensorData.type data) "weather") eqn:Ew.
  { apply String.eqb_eq in Ew.
    destruct (weather_created this now data w)
      as (wind & heat & Hl & Hlen1 & Hlen2 & Hwind & Hheat & _).
    exists (wind ++ heat). rewrite length_app, !filter_app, !length_app.
    assert (filter (λ a, Alert.type a = AlertType.heatwave) wind = []) as ->.
    { apply filter_none. intros a Ha. by eapply wind_ok_not_heatwave, Hwind. }
    assert (filter (λ a, Alert.type a ≠ AlertType.heatwave) heat = []) as ->.
    { apply filter_none. intros a Ha Hne. by eapply Hne, heat_ok_heatwave, Hheat. }
    destruct (Hshort wind Hlen1), (Hshort heat Hlen2).
    simpl. split_and!; [done|lia|done|lia|lia]. }
  destruct (String.eqb (SensorData.type data) "flood") eqn:Ef.
  { destruct (flood_created this now data w) as (l & Hl & Hlen & _).
    exists l. destruct (Hshort l Hlen). split_and!; [done|lia|done|done|done]. }
  exists []. rewrite app_nil_r. simpl. split_and!; [done|lia|lia|lia|lia].
Qed.

(** ** The spatial check of deduplication *)

Lemma earthquakeQuery_true now loc a :
  AlertService.earthquakeQuery now loc a = true ↔
  Alert.type a = AlertType.earthquake ∧ Alert.status a = Status.active
  ∧ inBox loc a
  ∧ (now - AlertService.hours 1 ≤ Alert.createdAt a)%Z.
Proof.
  unfold AlertService.earthquakeQuery, inBox.
  rewrite !andb_true_iff, !bool_decide_eq_true, !ge_true, !le_true, Z.leb_le.
  tauto.
Qed.




(** ** Status updates *)

Lemma find_updateOne id a' l a :
  List.find (λ x, Nat.eqb (Alert._id x) id) l = Some a →
  Alert._id a' = id →
  List.find (λ x, Nat.eqb (Alert._id x) id) (AlertRoutes.updateOne id a' l) = Some a'.
Proof.
  intros Hf Hid. induction l as [|x l IH]; [done|].
  simpl in *. destruct (Nat.eqb (Alert._id x) id) eqn:E.
  - simpl. by rewrite Hid, Nat.eqb_refl.
  - simpl. rewrite E. by apply IH.
Qed.

(** C8, as the spec states it, fails: a status update moves a resolved
    alert back to active. *)
Lemma resolved_alert_reactivated :
  ¬ (∀ now id b w a a',
       a ∈ World.alerts w →
       a' ∈ World.alerts (snd (AlertRoutes.patch now id b w)) →
       Alert._id a = Alert._id a' →
       forward (Alert.status a) (Alert.status a') = true).
Proof.
  intros H.
  destruct (World.alerts Samples.resolved) as [|a l] eqn:E; [by vm_compute in E|].
  destruct (World.alerts
              (snd (AlertRoutes.patch 2 0 (AlertRoutes.mkBody (Some "active") None None None)
                      Samples.resolved))) as [|a' l'] eqn:E'; [by vm_compute in E'|].
  specialize (H 2%Z 0%nat (AlertRoutes.mkBody (Some "active") None None None)
                Samples.resolved a a').
  rewrite E, E' in H. vm_compute in E, E'.
  injection E as <- <-. injection E' as <- <-.
  specialize (H ltac:(by left) ltac:(by left) eq_refl).
  by vm_compute in H.
Qed.

(** C8, amended.  A status update sets the status of the alert to the
    value the request names, for each of the four values of the schema
    and whatever the current status of the alert: no order of statuses is
    enforced.  A value outside the four is rejected and changes
    nothing. *)
Theorem patch_sets_requested_status now id b w s :
  AlertRoutes.status b = Some s →
  (∀ a st,
     List.find (λ x, Nat.eqb (Alert._id x) id) (World.alerts w) = Some a →
     Status.of_string s = Some st →
     AlertRoutes.validUpdates b = true →
     ∃ a', fst (AlertRoutes.patch now id b w)
           = Returned (AlertRoutes.Json 200 (Alert.toJSON a'))
         ∧ Alert.status a' = st
         ∧ List.find (λ x, Nat.eqb (Alert._id x) id)
             (World.alerts (snd (AlertRoutes.patch now id b w))) = Some a')
  ∧ (Status.of_string s = None →
     AlertRoutes.patch now id b w
     = (Returned (AlertRoutes.Json 400 (Js.Obj [("error", Js.Str "Validation failed")])), w)).
Proof.
  intros Hs. split.
  - intros a st Hf Hst Hv.
    unfold AlertRoutes.patch, try_catch, AlertRoutes.findByIdAndUpdate.
    rewrite Hv, !bind_run. unfold get_world. rewrite Hf, bind_run.
    unfold modify, Io.emit, modify. rewrite ret_run, bind_run, ret_run.
    cbn [fst snd]. eexists. split_and!; [reflexivity| |].
    + unfold AlertRoutes.applyUpdates. cbn [Alert.status].
      by rewrite Hs; cbn; rewrite Hst.
    + cbn [World.alerts World.with_sockets World.with_alerts].
      eapply find_updateOne; [done|].
      apply find_some in Hf as [_ Hid]. by apply Nat.eqb_eq in Hid.
  - intros Hst.
    unfold AlertRoutes.patch, try_catch, AlertRoutes.findByIdAndUpdate.
    assert (AlertRoutes.validUpdates b = false) as ->; [|done].
    unfold AlertRoutes.validUpdates. rewrite Hs, Hst.
    rewrite bool_decide_eq_false_2; [done|]. by intros [? ?].
Qed.

Lemma patch_sets_requested_status_witness :
  ∃ a', fst (AlertRoutes.patch 2 0 (AlertRoutes.mkBody (Some "active") None None None)
               Samples.resolved)
        = Returned (AlertRoutes.Json 200 (Alert.toJSON a'))
      ∧ Alert.status a' = Status.active
      ∧ List.find (λ x, Nat.eqb (Alert._id x) 0)
          (World.alerts
             (snd (AlertRoutes.patch 2 0
                     (AlertRoutes.mkBody (Some "active") None None None)
                     Samples.resolved))) = Some a'.
Proof.
  eapply (proj1 (patch_sets_requested_status 2 0
                   (AlertRoutes.mkBody (Some "active") None None None)
                   Samples.resolved "active" eq_refl) _ Status.active);
    reflexivity.
Defined.

(** The alert of the sample was resolved before it was made active
    again. *)
Example resolved_then_active :
  Alert.status <$> World.alerts Samples.resolved = [Status.resolved]
  ∧ Alert.status
    <$> World.alerts
          (snd (AlertRoutes.patch 2 0
                  (AlertRoutes.mkBody (Some "active") None None None)
                  Samples.resolved))
    = [Status.active].
Proof. split; reflexivity. Qed.
(** ** Fan-out *)

Lemma inbox_fmap (f : Socket.t → Socket.t) sid w s :
  (∀ x, Socket.id (f x) = Socket.id x) →
  List.find (λ x, String.eqb (Socket.id x) sid) (World.sockets w) = Some s →
  inbox sid (World.with_sockets (fmap f) w) = Socket.received (f s).
Proof.
  intros Hid Hf. unfold inbox. cbn [World.sockets World.with_sockets].
  induction (World.sockets w) as [|x l IH]; [done|].
  simpl in *. rewrite Hid. destruct (String.eqb (Socket.id x) sid).
  - by simplify_eq.
  - by apply IH.
Qed.

(** C2, as the spec states it, fails: a client subscribed to floods only
    receives the new-alert push of an earthquake alert. *)
Lemma unsubscribed_client_receives_alert :
  ¬ (∀ this alert w sid client,
       World.connectedClients w !! sid = Some client →
       AlertType.to_string (Alert.type alert) ∉ Client.subscriptions client →
       inbox sid (snd (AlertService._broadcastAlert this alert w)) = inbox sid w).
Proof.
  intros H.
  specialize (H (AlertService.constructor true) Samples.quake_alert
                Samples.flood_subscriber "c1" (Client.mk 0 ["flood"]) eq_refl).
  assert (AlertType.to_string (Alert.type Samples.quake_alert)
          ∉ Client.subscriptions (Client.mk 0 ["flood"])) as Hnot.
  { cbn. by intros ?%list_elem_of_singleton. }
  specialize (H Hnot). by vm_compute in H.
Qed.

(** C2, amended.  The push of the ingestion path reaches every connected
    client, whatever its subscriptions: each one receives the new-alert
    event once, and so does every client on [broadcastAlert].  Only
    [sendTypeAlert], which the ingestion path does not call, restricts
    the delivery, to the sockets that joined the room of the type. *)
Theorem broadcast_reaches_every_socket alert payload ty w sid s :
  List.find (λ x, String.eqb (Socket.id x) sid) (World.sockets w) = Some s →
  inbox sid (snd (AlertService._broadcastAlert (AlertService.constructor true) alert w))
  = Socket.received s ++ [("new-alert", AlertService.newAlertPayload alert)]
  ∧ inbox sid (snd (WebSocketService.broadcastAlert payload w))
    = Socket.received s ++ [("new-alert", payload)]
  ∧ inbox sid (snd (WebSocketService.sendTypeAlert ty payload w))
    = (if decide (ty ∈ Socket.rooms s)
       then Socket.received s ++ [("new-alert", payload)]
       else Socket.received s).
Proof.
  intros Hf. split_and!.
  - cbn [AlertService._broadcastAlert AlertService.constructor AlertService.io].
    unfold Io.emit, modify. cbn [snd]. by erewrite inbox_fmap.
  - unfold WebSocketService.broadcastAlert, Io.emit, modify. cbn [snd].
    by erewrite inbox_fmap.
  - unfold WebSocketService.sendTypeAlert, Io.to_emit, modify. cbn [snd].
    erewrite inbox_fmap; [|by intros x; case_decide|done].
    by case_decide.
Qed.

Lemma broadcast_reaches_every_socket_witness :
  inbox "c1"
    (snd (AlertService._broadcastAlert (AlertService.constructor true)
            Samples.quake_alert Samples.flood_subscriber))
  = Socket.received (Socket.mk "c1" {["c1"; "flood"]} [])
    ++ [("new-alert", AlertService.newAlertPayload Samples.quake_alert)]
  ∧ inbox "c1"
      (snd (WebSocketService.broadcastAlert (Alert.toJSON Samples.quake_alert)
              Samples.flood_subscriber))
    = Socket.received (Socket.mk "c1" {["c1"; "flood"]} [])
      ++ [("new-alert", Alert.toJSON Samples.quake_alert)]
  ∧ inbox "c1"
      (snd (WebSocketService.sendTypeAlert "earthquake"
              (Alert.toJSON Samples.quake_alert) Samples.flood_subscriber))
    = (if decide ("earthquake" ∈ Socket.rooms (Socket.mk "c1" {["c1"; "flood"]} []))
       then Socket.received (Socket.mk "c1" {["c1"; "flood"]} [])
            ++ [("new-alert", Alert.toJSON Samples.quake_alert)]
       else Socket.received (Socket.mk "c1" {["c1"; "flood"]} [])).
Proof.
  apply (broadcast_reaches_every_socket Samples.quake_alert
           (Alert.toJSON Samples.quake_alert) "earthquake"
           Samples.flood_subscriber "c1").
  vm_compute. reflexivity.
Defined.

(** The sample client, subscribed to floods only: the push of the
    ingestion path reaches it for an earthquake alert, [sendTypeAlert]
    reaches it for 'flood' and not for 'earthquake'. *)
Example flood_subscriber_deliveries :
  fst <$> inbox "c1"
            (snd (AlertService._broadcastAlert (AlertService.constructor true)
                    Samples.quake_alert Samples.flood_subscriber))
  = ["new-alert"]
  ∧ inbox "c1"
      (snd (WebSocketService.sendTypeAlert "earthquake"
              (Alert.toJSON Samples.quake_alert) Samples.flood_subscriber))
    = []
  ∧ fst <$> inbox "c1"
              (snd (WebSocketService.sendTypeAlert "flood"
                      (Alert.toJSON Samples.quake_alert) Samples.flood_subscriber))
    = ["new-alert"].
Proof. split_and!; by vm_compute. Qed.
(** ** The pushed payload *)

Section Frame.
Context {A B : Type}.

Lemma keeps_ret (a : A) : keeps_sockets (mret a).
Proof. by intros w. Qed.

Lemma keeps_throw msg : keeps_sockets (throw msg : Async A).
Proof. by intros w. Qed.

Lemma keeps_bind (c : Async A) (k : A → Async B) :
  keeps_sockets c → (∀ a, keeps_sockets (k a)) → keeps_sockets (x ← c; k x).
Proof.
  intros Hc Hk w. rewrite bind_run. specialize (Hc w).
  destruct (c w) as [[a|msg] w']; cbn [snd] in *; [|done].
  by rewrite Hk.
Qed.

Lemma keeps_try_catch (c : Async A) (h : string → Async A) :
  keeps_sockets c → (∀ msg, keeps_sockets (h msg)) → keeps_sockets (try_catch c h).
Proof.
  intros Hc Hh w. unfold try_catch. specialize (Hc w).
  destruct (c w) as [[a|msg] w']; cbn [snd] in *; [done|].
  by rewrite Hh.
Qed.

Lemma returns_try_catch (c : Async A) (a : A) :
  returns (try_catch c (λ _, mret a)).
Proof.
  intros w. unfold try_catch. destruct (c w) as [[x|msg] w']; eauto.
Qed.
End Frame.

Lemma keeps_findOne q : keeps_sockets (Alerts.findOne q).
Proof. by intros w. Qed.

Lemma keeps_new title ty sev desc loc dat src recs exp :
  keeps_sockets (Alerts.new title ty sev desc loc dat src recs exp).
Proof. by intros w. Qed.

Lemma keeps_save now a : keeps_sockets (Alerts.save now a).
Proof. intros w. rewrite save_run. by destruct (Alert.valid a). Qed.

Ltac keeps :=
  cbv zeta;
  repeat first
    [ apply keeps_ret | apply keeps_throw | apply keeps_findOne
    | apply keeps_new | apply keeps_save
    | apply keeps_bind; [|intros ?]
    | apply keeps_try_catch; [|intros ?]
    | case_match ].

Lemma keeps_evaluateDataPoint this now data :
  keeps_sockets (AlertService._evaluateDataPoint this now data).
Proof.
  unfold AlertService._evaluateDataPoint, AlertService._evaluateEarthquake,
    AlertService._evaluateWeather, AlertService._evaluateFlood.
  keeps.
Qed.

Lemma evaluateEach_run this now recentData newAlerts w :
  ∃ out, fst (AlertService.evaluateEach this now recentData newAlerts w) = Returned out
       ∧ World.sockets (snd (AlertService.evaluateEach this now recentData newAlerts w))
         = World.sockets w.
Proof.
  revert newAlerts w. induction recentData as [|data rest IH]; intros newAlerts w.
  - by exists newAlerts.
  - cbn [AlertService.evaluateEach]. rewrite bind_run.
    pose proof (keeps_evaluateDataPoint this now data w) as Hk.
    destruct (returns_try_catch
                (if String.eqb (SensorData.type data) "earthquake"
                 then AlertService._evaluateEarthquake this now data
                 else if String.eqb (SensorData.type data) "weather"
                 then AlertService._evaluateWeather this now data
                 else if String.eqb (SensorData.type data) "flood"
                 then AlertService._evaluateFlood this now data
                 else mret None) None w) as [alert Hr].
    fold (AlertService._evaluateDataPoint this now data) in Hr.
    destruct (AlertService._evaluateDataPoint this now data w) as [r w1].
    cbn [fst snd] in *. subst r.
    destruct (IH (match alert with Some a => newAlerts ++ [a] | None => newAlerts end) w1)
      as (out & Hout & Hs).
    exists out. by rewrite Hs.
Qed.

Lemma deliver_deliver evs evs' s :
  deliver evs' (deliver evs s) = deliver (evs ++ evs') s.
Proof. unfold deliver. cbn. by rewrite <- app_assoc. Qed.

Lemma deliver_nil s : deliver [] s = s.
Proof. unfold deliver. rewrite app_nil_r. by destruct s. Qed.

Lemma broadcastEach_run this newAlerts w :
  fst (AlertService.broadcastEach this newAlerts w) = Returned tt
  ∧ World.sockets (snd (AlertService.broadcastEach this newAlerts w))
    = deliver (if AlertService.io this
               then (λ a, ("new-alert", AlertService.newAlertPayload a)) <$> newAlerts
               else [])
      <$> World.sockets w.
Proof.
  revert w. induction newAlerts as [|alert rest IH]; intros w.
  - cbn. split; [done|]. rewrite <- (list_fmap_id (World.sockets w)) at 1.
    apply list_fmap_ext. intros _ s _. cbn. by destruct (AlertService.io this); rewrite deliver_nil.
  - cbn [AlertService.broadcastEach]. rewrite bind_run.
    unfold AlertService._broadcastAlert.
    destruct (AlertService.io this) eqn:Hio.
    + unfold Io.emit, modify. destruct (IH (World.with_sockets
          (fmap (Socket.push "new-alert" (AlertService.newAlertPayload alert))) w))
        as [Hr Hs].
      split; [done|]. rewrite Hs.
      cbn [World.sockets World.with_sockets]. rewrite <- list_fmap_compose.
      apply list_fmap_ext. intros _ s _. unfold compose.
      change (Socket.push "new-alert" (AlertService.newAlertPayload alert) s)
        with (deliver [("new-alert", AlertService.newAlertPayload alert)] s).
      by rewrite deliver_deliver.
    + rewrite ret_run. by destruct (IH w) as [Hr Hs].
Qed.
Lemma evaluateAlerts_pushes this now w :
  ∃ newAlerts,
    fst (AlertService.evaluateAlerts this now w) = Returned newAlerts
    ∧ World.sockets (snd (AlertService.evaluateAlerts this now w))
      = deliver (if AlertService.io this
                 then (λ a, ("new-alert", AlertService.newAlertPayload a)) <$> newAlerts
                 else [])
        <$> World.sockets w.
Proof.
  assert (World.sockets w = deliver [] <$> World.sockets w) as Hid.
  { rewrite <- (list_fmap_id (World.sockets w)) at 1.
    apply list_fmap_ext. intros _ s _. by rewrite deliver_nil. }
  unfold AlertService.evaluateAlerts, try_catch. rewrite bind_run.
  unfold SensorDatas.find_since.
  destruct (Nat.eqb _ 0).
  { exists []. rewrite ret_run. cbn [fst snd]. split; [done|].
    by destruct (AlertService.io this). }
  rewrite bind_run.
  lazymatch goal with
  | |- context [AlertService.evaluateEach this now ?l [] w] =>
      destruct (evaluateEach_run this now l [] w) as (out & Hout & Hs);
      destruct (AlertService.evaluateEach this now l [] w) as [r w1]
  end.
  cbn [fst snd] in *. subst r. rewrite bind_run.
  destruct (broadcastEach_run this out w1) as [Hr Hb].
  destruct (AlertService.broadcastEach this out w1) as [r w2].
  cbn [fst snd] in *. subst r. rewrite ret_run. cbn [fst snd].
  exists out. split; [done|]. by rewrite Hb, Hs.
Qed.

(** C10.  Every event the ingestion path pushes is a new-alert event
    whose payload is the projection of an accepted alert on exactly its
    id, title, type, severity, description, location and createdAt; the
    recommendations, the measurements ([data]), the status, the source
    and expiresAt of the stored alert are not in it. *)
Theorem new_alert_payload_projection this now w alert :
  (∃ newAlerts,
     fst (AlertService.evaluateAlerts this now w) = Returned newAlerts
     ∧ World.sockets (snd (AlertService.evaluateAlerts this now w))
       = deliver (if AlertService.io this
                  then (λ a, ("new-alert", AlertService.newAlertPayload a)) <$> newAlerts
                  else [])
         <$> World.sockets w)
  ∧ Js.keys (AlertService.newAlertPayload alert)
    = ["id"; "title"; "type"; "severity"; "description"; "location"; "createdAt"]
  ∧ Js.get "id" (AlertService.newAlertPayload alert) = Js.ObjectId (Alert._id alert)
  ∧ Js.get "title" (AlertService.newAlertPayload alert) = Js.Str (Alert.title alert)
     ∧ Js.get "type" (AlertService.newAlertPayload alert)
       = Js.Str (AlertType.to_string (Alert.type alert))
     ∧ Js.get "severity" (AlertService.newAlertPayload alert)
       = Js.Str (Severity.to_string (Alert.severity alert))
     ∧ Js.get "description" (AlertService.newAlertPayload alert)
       = Js.Str (Alert.description alert)
     ∧ Js.get "location" (AlertService.newAlertPayload alert)
       = AlertLocation.toJSON (Alert.location alert)
     ∧ Js.get "createdAt" (AlertService.newAlertPayload alert)
       = Js.Date (Alert.createdAt alert)
  ∧ (∀ k, k ∈ ["recommendations"; "data"; "status"; "source"; "expiresAt"] →
          (k ∉ Js.keys (AlertService.newAlertPayload alert))
          ∧ Js.get k (AlertService.newAlertPayload alert) = Js.Undefined
          ∧ k ∈ Js.keys (Alert.toJSON alert)).
Proof.
  split_and!; try reflexivity.
  - apply evaluateAlerts_pushes.
  - intros k Hk.
    repeat (apply elem_of_cons in Hk as [->|Hk]);
      [ | | | | | by apply elem_of_nil in Hk ];
      (split_and!;
         [ intros Hin; cbn in Hin;
           repeat (apply elem_of_cons in Hin as [?|Hin]; [discriminate|]);
           by apply elem_of_nil in Hin
         | reflexivity
         | cbn; repeat constructor ]).
Qed.

(** ** Source adapters and their fallback *)

Lemma only_random_refl w : only_random w w.
Proof. by repeat split. Qed.

Lemma only_random_trans w1 w2 w3 :
  only_random w1 w2 → only_random w2 w3 → only_random w1 w3.
Proof.
  intros (?&?&?&?&?) (?&?&?&?&?). repeat split; congruence.
Qed.

Section Collector.
Variable random : nat → Q.
Variable openweather : MonitoredLocation.t → option WeatherResponse.t.
Variable usgs : option (list Feature.t).

Lemma forEach_spec {A B} (f : A → Async B) (P : A → B → Prop) l :
  (∀ x w, ∃ y w', f x w = (Returned y, w') ∧ only_random w w' ∧ P x y) →
  ∀ results w,
    ∃ ys w', DataCollectorService.forEach f l results w = (Returned (results ++ ys), w')
           ∧ only_random w w' ∧ Forall2 P l ys.
Proof.
  intros Hf. induction l as [|x l IH]; intros results w.
  - exists [], w. rewrite app_nil_r. split_and!; [done|apply only_random_refl|constructor].
  - cbn [DataCollectorService.forEach]. rewrite bind_run.
    destruct (Hf x w) as (y & w1 & -> & Hw1 & HP).
    destruct (IH (results ++ [y]) w1) as (ys & w2 & -> & Hw2 & HPs).
    exists (y :: ys), w2. rewrite <- app_assoc.
    split_and!; [done|by eapply only_random_trans|by constructor].
Qed.

Lemma times_spec {B} (c : Async B) (P : B → Prop) n :
  (∀ w, ∃ y w', c w = (Returned y, w') ∧ only_random w w' ∧ P y) →
  ∀ results w,
    ∃ ys w', DataCollectorService.times n c results w = (Returned (results ++ ys), w')
           ∧ only_random w w' ∧ length ys = n ∧ Forall P ys.
Proof.
  intros Hc. induction n as [|n IH]; intros results w.
  - exists [], w. rewrite app_nil_r. split_and!; [done|apply only_random_refl|done|constructor].
  - cbn [DataCollectorService.times]. rewrite bind_run.
    destruct (Hc w) as (y & w1 & -> & Hw1 & HP).
    destruct (IH (results ++ [y]) w1) as (ys & w2 & -> & Hw2 & Hlen & HPs).
    exists (y :: ys), w2. rewrite <- app_assoc.
    split_and!; [done|by eapply only_random_trans|by cbn; rewrite Hlen|by constructor].
Qed.

(** With no API key, or the placeholder, the weather adapter returns one
    synthetic reading per monitored location and stores nothing. *)
Lemma weather_fallback_without_key this now w :
  DataCollectorService.openWeatherKey this = ""
  ∨ DataCollectorService.openWeatherKey this = "your_openweather_api_key_here" →
  ∃ batch w',
    DataCollectorService.collectWeatherData random openweather this now w
    = (Returned batch, w')
    ∧ only_random w w'
    ∧ Forall2 at_location (DataCollectorService.monitoredLocations this) batch.
Proof.
  intros Hkey. unfold DataCollectorService.collectWeatherData.
  assert (String.eqb (DataCollectorService.openWeatherKey this) ""
          || String.eqb (DataCollectorService.openWeatherKey this)
               "your_openweather_api_key_here" = true) as ->.
  { destruct Hkey as [-> | ->]; reflexivity. }
  unfold DataCollectorService._generateSimulatedWeatherData.
  destruct (forEach_spec (DataCollectorService.simulatedWeather random now) at_location
              (DataCollectorService.monitoredLocations this)) with (results := @nil SensorData.t) (w := w)
    as (ys & w' & Hrun & Hw & HP).
  { intros x w0. eexists _, _. split.
    - cbv [DataCollectorService.simulatedWeather DataCollectorService.Math_random
           mbind Async_bind mret Async_ret]. reflexivity.
    - by repeat split. }
  eauto.
Qed.

(** The flood adapter always returns the five synthetic readings. *)
Lemma flood_always_simulated this now w :
  ∃ batch w',
    DataCollectorService.collectFloodData random this now w = (Returned batch, w')
    ∧ only_random w w'
    ∧ Forall2 at_location DataCollectorService.floodProne batch.
Proof.
  unfold DataCollectorService.collectFloodData,
    DataCollectorService._generateSimulatedFloodData.
  destruct (forEach_spec (DataCollectorService.simulatedFlood random now) at_location
              DataCollectorService.floodProne) with (results := @nil SensorData.t) (w := w)
    as (ys & w' & Hrun & Hw & HP).
  { intros x w0. eexists _, _. split.
    - cbv [DataCollectorService.simulatedFlood DataCollectorService.Math_random
           mbind Async_bind mret Async_ret]. reflexivity.
    - by repeat split. }
  eauto.
Qed.

Lemma floor_between (x : Q) (a b : Z) :
  (inject_Z a <= x)%Q → (x < inject_Z b)%Q → (a ≤ Qfloor x < b)%Z.
Proof.
  intros Ha Hb. split.
  - rewrite <- (Qfloor_Z a). by apply Qfloor_resp_le.
  - rewrite Zlt_Qlt. eapply Qle_lt_trans; [apply Qfloor_le|done].
Qed.

(** When the request to USGS fails, the earthquake adapter returns
    between two and six synthetic readings and stores nothing. *)
Lemma earthquake_fallback_on_failure this now w :
  unit_interval random →
  usgs = None →
  ∃ batch w',
    DataCollectorService.collectEarthquakeData random usgs this now w
    = (Returned batch, w')
    ∧ only_random w w'
    ∧ (2 ≤ length batch ≤ 6)%nat
    ∧ Forall (λ d, SensorData.createdAt d = None) batch.
Proof.
  intros Hrandom ->.
  unfold DataCollectorService.collectEarthquakeData, try_catch, throw.
  unfold DataCollectorService._generateSimulatedEarthquakeData.
  rewrite bind_run. unfold DataCollectorService.Math_random at 1.
  set (r := random (World.randomCalls w)).
  assert (2 ≤ Qfloor (2 + r * 5) < 7)%Z as Hn.
  { destruct (Hrandom (World.randomCalls w)) as [? ?]. fold r in H, H0.
    apply floor_between; [change (2 <= 2 + r * 5)%Q | change (2 + r * 5 < 7)%Q]; lra. }
  destruct (times_spec (DataCollectorService.simulatedEarthquake random now)
              (λ d, SensorData.createdAt d = None) (Z.to_nat (Qfloor (2 + r * 5))))
    with (results := @nil SensorData.t) (w := World.with_randomCalls S w)
    as (ys & w' & Hrun & Hw & Hlen & HP).
  { intros w0. unfold DataCollectorService.simulatedEarthquake.
    rewrite bind_run. unfold DataCollectorService.Math_random at 1.
    set (r0 := random (World.randomCalls w0)).
    assert (0 ≤ Qfloor (r0 * inject_Z (Z.of_nat (length DataCollectorService.zones))) < 5)%Z
      as Hi.
    { destruct (Hrandom (World.randomCalls w0)) as [? ?]. fold r0 in H, H0.
      apply floor_between; [change (0 <= r0 * 5)%Q | change (r0 * 5 < 5)%Q]; lra. }
    set (i := Qfloor (r0 * inject_Z (Z.of_nat (length DataCollectorService.zones)))) in *.
    destruct (Z.ltb_spec i 0); [lia|].
    destruct (DataCollectorService.zones !! _) as [zone|] eqn:Hz.
    - eexists _, _. split.
      + cbv [DataCollectorService.Math_random mbind Async_bind mret Async_ret].
        reflexivity.
      + by repeat split.
    - apply lookup_ge_None in Hz. cbn [length DataCollectorService.zones] in Hz. lia. }
  exists ys, w'. split_and!.
  - cbv beta iota zeta. by rewrite Hrun.
  - eapply only_random_trans; [|done]. by repeat split.
  - lia.
  - lia.
  - done.
Qed.

Lemma collectWeatherEach_all_fail now locations results w :
  (∀ location, location ∈ locations → openweather location = None) →
  DataCollectorService.collectWeatherEach openweather now locations results w
  = (Returned results, w).
Proof.
  revert results. induction locations as [|location rest IH]; intros results Hfail.
  - reflexivity.
  - cbn [DataCollectorService.collectWeatherEach]. rewrite bind_run.
    unfold DataCollectorService.collectWeatherAt, try_catch.
    rewrite (Hfail location) by (by left).
    unfold throw. rewrite ret_run.
    apply IH. intros l Hl. apply Hfail. by right.
Qed.

(** C9.  The failing case: with an API key configured and every request
    to OpenWeatherMap failing, the weather adapter returns the empty
    batch and leaves the state as it was; it does not fall back to
    synthetic readings, as it does without a key and as the earthquake
    adapter does on a failed request. *)
Theorem weather_request_failure_yields_empty_batch this now w :
  DataCollectorService.openWeatherKey this ≠ "" →
  DataCollectorService.openWeatherKey this ≠ "your_openweather_api_key_here" →
  (∀ location, location ∈ DataCollectorService.monitoredLocations this →
               openweather location = None) →
  DataCollectorService.collectWeatherData random openweather this now w
  = (Returned [], w).
Proof.
  intros Hkey Hplaceholder Hfail.
  unfold DataCollectorService.collectWeatherData.
  rewrite (eqb_empty_false _ Hkey).
  apply String.eqb_neq in Hplaceholder. rewrite Hplaceholder. cbn [orb].
  by apply collectWeatherEach_all_fail.
Qed.

(** Without a key the weather job stores no reading, so the evaluation
    that follows finds nothing to evaluate and adds no alert. *)
Example weather_job_without_key now :
  let w' := snd (DataCollectorService.weatherJob random openweather
                   (DataCollectorService.constructor None None)
                   (AlertService.constructor true) now World.empty) in
  World.sensorData w' = [] ∧ World.alerts w' = [].
Proof. split; reflexivity. Qed.

End Collector.

Lemma weather_request_failure_yields_empty_batch_witness :
  DataCollectorService.collectWeatherData (λ _, 0%Q) (λ _, None)
    (DataCollectorService.constructor (Some "0123456789abcdef0123456789abcdef") None)
    0 World.empty
  = (Returned [], World.empty).
Proof.
  apply (weather_request_failure_yields_empty_batch (λ _, 0%Q) (λ _, None)
           (DataCollectorService.constructor
              (Some "0123456789abcdef0123456789abcdef") None) 0 World.empty);
    [discriminate | discriminate | reflexivity].
Defined.
(** ** The ingestion path, run symbolically *)

Section Rules.
Context {A B : Type}.
Implicit Types (base : list Alert.t).

Lemma runs_ret base (a : A) Φ :
  Φ (Returned a) [] → runs_from base (mret a) Φ.
Proof. intros H w Hw. exists []. by rewrite app_nil_r. Qed.

Lemma runs_throw base msg Φ :
  Φ (Thrown msg) [] → runs_from base (throw msg : Async A) Φ.
Proof. intros H w Hw. exists []. by rewrite app_nil_r. Qed.

Lemma runs_bind base (c : Async A) (k : A → Async B) Φ :
  runs_from base c
    (λ r l1, match r with
             | Returned a => runs_from (base ++ l1) (k a) (λ r' l2, Φ r' (l1 ++ l2))
             | Thrown msg => Φ (Thrown msg) l1
             end) →
  runs_from base (x ← c; k x) Φ.
Proof.
  intros Hc w Hw. rewrite bind_run.
  destruct (Hc w Hw) as (l1 & Hl1 & H1).
  destruct (c w) as [[a|msg] w1]; cbn [fst snd] in *.
  - destruct (H1 w1 Hl1) as (l2 & Hl2 & H2).
    exists (l1 ++ l2). by rewrite app_assoc.
  - by exists l1.
Qed.

Lemma runs_try_catch base (c : Async A) (h : string → Async A) Φ :
  runs_from base c
    (λ r l1, match r with
             | Returned a => Φ (Returned a) l1
             | Thrown msg => runs_from (base ++ l1) (h msg) (λ r' l2, Φ r' (l1 ++ l2))
             end) →
  runs_from base (try_catch c h) Φ.
Proof.
  intros Hc w Hw. unfold try_catch.
  destruct (Hc w Hw) as (l1 & Hl1 & H1).
  destruct (c w) as [[a|msg] w1]; cbn [fst snd] in *.
  - by exists l1.
  - destruct (H1 w1 Hl1) as (l2 & Hl2 & H2).
    exists (l1 ++ l2). by rewrite app_assoc.
Qed.

Lemma runs_weaken base (c : Async A) (Φ Ψ : outcome A → list Alert.t → Prop) :
  runs_from base c Φ → (∀ r l, Φ r l → Ψ r l) → runs_from base c Ψ.
Proof. intros Hc HΦ w Hw. destruct (Hc w Hw) as (l & ? & ?). eauto. Qed.
End Rules.

Lemma runs_findOne base q Φ :
  Φ (Returned (List.find q base)) [] → runs_from base (Alerts.findOne q) Φ.
Proof. intros H w Hw. exists []. rewrite app_nil_r, findOne_run, Hw. done. Qed.

Lemma runs_new_save base now title ty sev desc loc dat src recs exp Φ :
  (∀ id, let doc := Alerts.document id title ty sev desc loc dat src recs exp in
         if Alert.valid doc
         then Φ (Returned (Some (Alerts.stamp now doc))) [Alerts.stamp now doc]
         else Φ (Thrown "Alert validation failed") []) →
  runs_from base
    (a ← Alerts.new title ty sev desc loc dat src recs exp;
     a ← Alerts.save now a; mret (Some a)) Φ.
Proof.
  intros H w Hw. rewrite new_save. cbv zeta.
  specialize (H (World.nextId w)). cbv zeta in H.
  destruct (Alert.valid _).
  - eexists [_]. cbn. by rewrite Hw.
  - exists []. cbn. by rewrite Hw, app_nil_r.
Qed.

(** Symbolic execution of an evaluator. *)
Ltac run_step :=
  lazymatch goal with
  | |- runs_from _ (Alerts.new _ _ _ _ _ _ _ _ _ ≫= _) _ =>
      apply runs_new_save; intros ?; cbv zeta
  | |- runs_from _ (Alerts.findOne _ ≫= _) _ =>
      apply runs_bind, runs_findOne; cbv beta iota
  | |- runs_from _ (_ ≫= _) _ => apply runs_bind
  | |- runs_from _ (mret _) _ => apply runs_ret
  | |- runs_from _ (try_catch _ _) _ => apply runs_try_catch
  | |- runs_from _ (match ?x with _ => _ end) _ => destruct x eqn:?
  end.


Lemma valid_stamp now a : Alert.valid (Alerts.stamp now a) = Alert.valid a.
Proof. reflexivity. Qed.

Lemma not_suppressed_name ty now window loc base x :
  List.find (AlertService.nameQuery ty now window loc) base = None →
  x ∈ base →
  ¬ (Alert.status x = Status.active ∧ Alert.type x = ty
     ∧ AlertLocation.name (Alert.location x) = SensorLocation.name loc
     ∧ (now - window ≤ Alert.createdAt x)%Z).
Proof.
  intros Hf Hx Hs. apply list_elem_of_In in Hx.
  eapply find_none in Hf; [|done].
  apply not_true_iff_false in Hf. apply Hf, nameQuery_true. tauto.
Qed.

Lemma not_suppressed_box now loc base x :
  List.find (AlertService.earthquakeQuery now loc) base = None →
  x ∈ base →
  ¬ (Alert.status x = Status.active ∧ Alert.type x = AlertType.earthquake
     ∧ inBox loc x
     ∧ (now - AlertService.hours 1 ≤ Alert.createdAt x)%Z).
Proof.
  intros Hf Hx Hs. apply list_elem_of_In in Hx.
  eapply find_none in Hf; [|done].
  apply not_true_iff_false in Hf. apply Hf, earthquakeQuery_true. tauto.
Qed.

Ltac leaf_nil := split_and!; [done | constructor | done].

Lemma evaluateFlood_evaluated this now data base :
  runs_from base (AlertService._evaluateFlood this now data)
    (λ r l, match r with Thrown _ => l = [] | _ => evaluated now data base r l end).
Proof.
  unfold AlertService._evaluateFlood. cbv zeta.
  repeat run_step; try leaf_nil.
  destruct (Alert.valid _) eqn:Hv; [|done].
  split_and!; [done| |].
  - constructor; [|constructor].
    split_and!; try done. eexists. by split_and!.
  - split; [|done]. intros x Hx (Hst & Hty & Hn & Ht).
    eapply not_suppressed_name; [done..|]. by split_and!.
Qed.

Lemma evaluateEarthquake_evaluated this now data base :
  runs_from base (AlertService._evaluateEarthquake this now data)
    (λ r l, match r with Thrown _ => l = [] | _ => evaluated now data base r l end).
Proof.
  unfold AlertService._evaluateEarthquake. cbv zeta.
  repeat run_step; try leaf_nil.
  destruct (Alert.valid _) eqn:Hv; [|done].
  split_and!; [done| |].
  - constructor; [|constructor].
    split_and!; try done. eexists. by split_and!.
  - split; [|done]. intros x Hx (Hst & Hty & Hn & Ht).
    eapply not_suppressed_box; [done..|]. by split_and!.
Qed.

Ltac ingested_doc :=
  split_and!; try done;
  [ rewrite valid_stamp; cbv iota;
    rewrite valid_document by reflexivity; cbn [AlertLocation.name]; assumption
  | cbn; eexists; by split_and! ].

Ltac not_suppressed :=
  let x := fresh "x" in let Hx := fresh "Hx" in
  intros x Hx (? & ? & ? & ?);
  match goal with
  | Hf : List.find (AlertService.nameQuery _ _ _ _) ?b = None |- _ =>
      eapply (not_suppressed_name _ _ _ _ _ _ Hf Hx); by split_and!
  end.

Lemma evaluateWeather_evaluated this now data base :
  runs_from base (AlertService._evaluateWeather this now data)
    (λ r l, match r with Thrown _ => l = [] | _ => evaluated now data base r l end).
Proof.
  unfold AlertService._evaluateWeather. cbv zeta.
  repeat run_step.
  all: repeat match goal with
       | |- context [Alert.valid (Alerts.document ?a ?b ?c ?d ?e ?f ?g ?h ?i ?j)] =>
           let Hv := fresh "Hv" in
           destruct (Alert.valid (Alerts.document a b c d e f g h i j)) eqn:Hv
       | |- runs_from _ _ _ => run_step
       end.
  all: rewrite ?app_nil_r in *; cbn [app] in *.
  all: try leaf_nil.
  all: try done.
  all: repeat match goal with
       | H : context [if Js.ge ?a ?b then AlertType.cyclone else _] |- _ =>
           destruct (Js.ge a b) eqn:?
       | |- context [if Js.ge ?a ?b then AlertType.cyclone else _] =>
           destruct (Js.ge a b) eqn:?
       end.
  all: repeat (case_bool_decide; try done).
  all: repeat match goal with
       | H : Alert.valid (Alerts.document _ _ _ _ _ _ _ _ _ _) = _ |- _ =>
           cbv iota in H; rewrite valid_document in H by reflexivity;
           cbn [AlertLocation.name] in H
       end.
  all: try congruence.
  all: try (split_and!; [done | repeat (apply Forall_cons; split); [..|apply Forall_nil] | cbn [admitted_after]; split_and!; try done ]).
  all: try ingested_doc.
  all: try not_suppressed.
  all: try exact I.
Qed.

Lemma evaluateDataPoint_evaluated this now data base :
  runs_from base (AlertService._evaluateDataPoint this now data)
    (evaluated now data base).
Proof.
  unfold AlertService._evaluateDataPoint.
  apply runs_try_catch.
  repeat match goal with |- context [if ?b then _ else _] => destruct b end.
  - eapply runs_weaken; [apply evaluateEarthquake_evaluated|].
    intros [a|msg] l; [done|]. intros ->. apply runs_ret. leaf_nil.
  - eapply runs_weaken; [apply evaluateWeather_evaluated|].
    intros [a|msg] l; [done|]. intros ->. apply runs_ret. leaf_nil.
  - eapply runs_weaken; [apply evaluateFlood_evaluated|].
    intros [a|msg] l; [done|]. intros ->. apply runs_ret. leaf_nil.
  - apply runs_ret. leaf_nil.
Qed.

Lemma admitted_after_app base l l' :
  admitted_after base (l ++ l') ↔ admitted_after base l ∧ admitted_after (base ++ l) l'.
Proof.
  revert base. induction l as [|a l IH]; intros base; cbn.
  - rewrite app_nil_r. tauto.
  - rewrite IH, <- app_assoc. cbn. tauto.
Qed.

Lemma last_sublist (l : list Alert.t) :
  match last l with Some a => [a] | None => [] end `sublist_of` l.
Proof.
  induction l as [|a l IH] using rev_ind; [done|].
  rewrite last_snoc. apply sublist_inserts_l. done.
Qed.

Lemma evaluateEach_evaluated this now recentData newAlerts base :
  runs_from base (AlertService.evaluateEach this now recentData newAlerts)
    (λ r l, ∃ out, r = Returned (newAlerts ++ out)
                 ∧ out `sublist_of` l
                 ∧ Forall (λ a, ∃ data, data ∈ recentData ∧ ingested now data a) l
                 ∧ admitted_after base l).
Proof.
  revert newAlerts base. induction recentData as [|data rest IH]; intros newAlerts base.
  - apply runs_ret. exists []. rewrite app_nil_r. by split_and!.
  - cbn [AlertService.evaluateEach]. apply runs_bind.
    eapply runs_weaken; [apply evaluateDataPoint_evaluated|].
    intros r l1 (-> & Hing & Hadm).
    eapply runs_weaken; [apply IH|].
    intros r l2 (out & -> & Hsub & Hing2 & Hadm2).
    exists (match last l1 with Some a => [a] | None => [] end ++ out). split_and!.
    + f_equal. destruct (last l1); [by rewrite <- app_assoc|done].
    + apply sublist_app; [apply last_sublist|done].
    + apply Forall_app. split.
      * eapply Forall_impl; [done|]. intros a Ha. exists data. split; [by left|done].
      * eapply Forall_impl; [done|]. intros a (d & Hd & Ha). exists d. split; [by right|done].
    + by apply admitted_after_app.
Qed.

Lemma runs_broadcastEach this newAlerts base :
  runs_from base (AlertService.broadcastEach this newAlerts)
    (λ r l, r = Returned tt ∧ l = []).
Proof.
  revert base. induction newAlerts as [|a rest IH]; intros base.
  - by apply runs_ret.
  - cbn [AlertService.broadcastEach]. apply runs_bind.
    unfold AlertService._broadcastAlert.
    assert (runs_from base
              (if AlertService.io this
               then Io.emit "new-alert" (AlertService.newAlertPayload a) else mret tt)
              (λ r l, r = Returned tt ∧ l = [])) as H.
    { destruct (AlertService.io this); [|by apply runs_ret].
      intros w <-. exists []. by rewrite app_nil_r. }
    eapply runs_weaken; [exact H|]. intros r l [-> ->].
    rewrite app_nil_r. eapply runs_weaken; [apply IH|]. by intros r l [-> ->].
Qed.

Lemma elem_of_insert_desc x d l :
  x ∈ SensorDatas.insert_desc d l → x = d ∨ x ∈ l.
Proof.
  induction l as [|e l IH]; cbn.
  - intros ?%list_elem_of_singleton. by left.
  - destruct (_ <=? _)%Z.
    + intros [->|H]%elem_of_cons; [by left|by right].
    + intros [->|H]%elem_of_cons; [right; by left|].
      destruct (IH H) as [->|?]; [by left|right; by right].
Qed.

Lemma elem_of_sort_desc x l : x ∈ SensorDatas.sort_desc l → x ∈ l.
Proof.
  induction l as [|d l IH]; cbn; [done|].
  intros [->|H]%elem_of_insert_desc; [by left|right; by apply IH].
Qed.

Lemma evaluateAlerts_evaluated this now w :
  ∃ out l,
    fst (AlertService.evaluateAlerts this now w) = Returned out
    ∧ World.alerts (snd (AlertService.evaluateAlerts this now w)) = World.alerts w ++ l
    ∧ out `sublist_of` l
    ∧ Forall (λ a, ∃ data, recent now w data ∧ ingested now data a) l
    ∧ admitted_after (World.alerts w) l.
Proof.
  unfold AlertService.evaluateAlerts, try_catch. rewrite bind_run.
  unfold SensorDatas.find_since. cbn [fst snd].
  set (recentData := SensorDatas.sort_desc _).
  destruct (Nat.eqb _ 0).
  { exists [], []. rewrite ret_run, app_nil_r. by split_and!. }
  assert (runs_from (World.alerts w)
    (newAlerts ← AlertService.evaluateEach this now recentData [];
     _ ← AlertService.broadcastEach this newAlerts;
     mret newAlerts)
    (λ r l, ∃ out, r = Returned out ∧ out `sublist_of` l
          ∧ Forall (λ a, ∃ data, data ∈ recentData ∧ ingested now data a) l
          ∧ admitted_after (World.alerts w) l)) as H.
  { apply runs_bind. eapply runs_weaken; [apply evaluateEach_evaluated|].
    intros r l (out & -> & Hsub & Hing & Hadm). cbn [app].
    apply runs_bind. eapply runs_weaken; [apply runs_broadcastEach|].
    intros r l' [-> ->]. apply runs_ret. rewrite !app_nil_r.
    exists out. by split_and!. }
  destruct (H w eq_refl) as (l & Hal & out & Hr & Hsub & Hing & Hadm).
  match type of Hr with fst ?t = _ => destruct t as [r w1] end.
  cbn [fst snd] in *. subst r.
  exists out, l. split_and!; try done.
  eapply Forall_impl; [done|]. intros a (d & Hd & Ha). exists d. split; [|done].
  apply elem_of_sort_desc, list_elem_of_In, filter_In in Hd as [Hd Hc].
  split; [by apply list_elem_of_In|].
  destruct (SensorData.createdAt d) as [c|]; [|done]. exists c. split; [done|lia].
Qed.

(** ** What ingestion stores *)

(** X1. A run of [evaluateAlerts] only appends to the alert collection,
    and every alert it appends was written from a reading stored within
    the last thirty minutes: it is active, stamped with the instant of
    the run, carries the source and the location of the reading and the
    schema defaults, and has the time to live, the radius, the
    recommendations and the measurements of its hazard (24 h and twenty
    times the magnitude for an earthquake, 12 h and 100 km for a storm or
    cyclone, 24 h and 50 km for a heatwave, 48 h and 75 km for a
    flood). *)
Theorem ingestion_writes_alerts_from_recent_readings this now w :
  ∃ l, World.alerts (snd (AlertService.evaluateAlerts this now w))
       = World.alerts w ++ l
     ∧ Forall (λ a, ∃ data, recent now w data ∧ ingested now data a) l.
Proof.
  destruct (evaluateAlerts_evaluated this now w) as (out & l & _ & Hal & _ & Hing & _).
  by exists l.
Qed.




(** X4. [evaluateAlerts] never throws, and the alerts it returns are
    among those it has just stored, in the order of storage. *)
Theorem evaluateAlerts_returns_stored_alerts this now w :
  ∃ out l,
    fst (AlertService.evaluateAlerts this now w) = Returned out
    ∧ World.alerts (snd (AlertService.evaluateAlerts this now w)) = World.alerts w ++ l
    ∧ out `sublist_of` l.
Proof.
  destruct (evaluateAlerts_evaluated this now w) as (out & l & Hr & Hal & Hsub & _).
  by exists out, l.
Qed.

Lemma find_since_stale since (l : list SensorData.t) :
  (∀ d c, d ∈ l → SensorData.createdAt d = Some c → (c < since)%Z) →
  List.filter
    (λ d, match SensorData.createdAt d with
          | Some c => (since <=? c)%Z
          | None => false
          end) l = [].
Proof.
  intros Hold. induction l as [|d l IH]; [done|]. cbn.
  destruct (SensorData.createdAt d) as [c|] eqn:Hc.
  - assert (c < since)%Z by (eapply Hold; [by left|done]).
    destruct (Z.leb_spec since c); [lia|].
    apply IH. intros d' c' Hd'. apply Hold. by right.
  - apply IH. intros d' c' Hd'. apply Hold. by right.
Qed.

(** X5. When no stored reading is younger than thirty minutes,
    [evaluateAlerts] returns the empty list and changes nothing: no alert
    is stored and no event is pushed. *)
Theorem evaluateAlerts_ignores_stale_readings this now w :
  (∀ d c, d ∈ World.sensorData w → SensorData.createdAt d = Some c →
          (c < now - AlertService.minutes 30)%Z) →
  AlertService.evaluateAlerts this now w = (Returned [], w).
Proof.
  intros Hold. unfold AlertService.evaluateAlerts, try_catch. rewrite bind_run.
  unfold SensorDatas.find_since. cbn [fst snd].
  rewrite find_since_stale by done.
  reflexivity.
Qed.

Lemma evaluateAlerts_ignores_stale_readings_witness :
  AlertService.evaluateAlerts (AlertService.constructor true) 1800001 Scenarios.station
  = (Returned [], Scenarios.station).
Proof.
  apply (evaluateAlerts_ignores_stale_readings (AlertService.constructor true) 1800001
           Scenarios.station).
  intros d c Hd Hc. cbn in Hd.
  apply elem_of_cons in Hd as [->|Hd]; [|apply elem_of_cons in Hd as [->|Hd]].
  - injection Hc as <-. reflexivity.
  - injection Hc as <-. reflexivity.
  - by apply not_elem_of_nil in Hd.
Defined.



(** ** Status updates *)

Lemma patch_found now id b w a :
  AlertRoutes.validUpdates b = true →
  List.find (λ x, Nat.eqb (Alert._id x) id) (World.alerts w) = Some a →
  AlertRoutes.patch now id b w
  = (Returned (AlertRoutes.Json 200 (Alert.toJSON (AlertRoutes.applyUpdates now b a))),
     World.with_sockets
       (fmap (Socket.push "alert-updated"
                (Alert.toJSON (AlertRoutes.applyUpdates now b a))))
       (World.with_alerts (AlertRoutes.updateOne id (AlertRoutes.applyUpdates now b a)) w)).
Proof.
  intros Hv Hf.
  unfold AlertRoutes.patch, try_catch, AlertRoutes.findByIdAndUpdate.
  rewrite Hv. cbv [mbind Async_bind mret Async_ret get_world modify Io.emit].
  by rewrite Hf.
Qed.

Lemma patch_missing now id b w :
  AlertRoutes.validUpdates b = true →
  List.find (λ x, Nat.eqb (Alert._id x) id) (World.alerts w) = None →
  AlertRoutes.patch now id b w
  = (Returned (AlertRoutes.Json 404 (Js.Obj [("error", Js.Str "Alert not found")])), w).
Proof.
  intros Hv Hf.
  unfold AlertRoutes.patch, try_catch, AlertRoutes.findByIdAndUpdate.
  rewrite Hv. cbv [mbind Async_bind mret Async_ret get_world modify Io.emit].
  by rewrite Hf.
Qed.

Lemma patch_invalid now id b w :
  AlertRoutes.validUpdates b = false →
  AlertRoutes.patch now id b w
  = (Returned (AlertRoutes.Json 400 (Js.Obj [("error", Js.Str "Validation failed")])), w).
Proof.
  intros Hv.
  unfold AlertRoutes.patch, try_catch, AlertRoutes.findByIdAndUpdate.
  by rewrite Hv.
Qed.

Lemma updateOne_app id a' l1 a l2 :
  Forall (λ x, Alert._id x ≠ id) l1 → Alert._id a = id →
  AlertRoutes.updateOne id a' (l1 ++ a :: l2) = l1 ++ a' :: l2.
Proof.
  intros Hl1 Ha. induction Hl1 as [|x l1 Hx _ IH]; cbn.
  - by rewrite Ha, Nat.eqb_refl.
  - apply Nat.eqb_neq in Hx. by rewrite Hx, IH.
Qed.

Lemma find_id_app id l1 a l2 :
  Forall (λ x, Alert._id x ≠ id) l1 → Alert._id a = id →
  List.find (λ x, Nat.eqb (Alert._id x) id) (l1 ++ a :: l2) = Some a.
Proof.
  intros Hl1 Ha. induction Hl1 as [|x l1 Hx _ IH]; cbn.
  - by rewrite Ha, Nat.eqb_refl.
  - apply Nat.eqb_neq in Hx. by rewrite Hx, IH.
Qed.

Lemma find_id_split id l a :
  List.find (λ x, Nat.eqb (Alert._id x) id) l = Some a →
  ∃ l1 l2, l = l1 ++ a :: l2 ∧ Forall (λ x, Alert._id x ≠ id) l1 ∧ Alert._id a = id.
Proof.
  induction l as [|x l IH]; [done|]. cbn.
  destruct (Nat.eqb (Alert._id x) id) eqn:E.
  - intros [= ->]. exists [], l. apply Nat.eqb_eq in E. by split_and!.
  - intros (l1 & l2 & -> & Hl1 & Ha)%IH. exists (x :: l1), l2.
    apply Nat.eqb_neq in E. split_and!; [done|by constructor|done].
Qed.



(** X8. A PATCH that succeeds rewrites one document and nothing else:
    the first alert with the id is replaced in place, every other alert
    and the sensor readings stay as they are, and the alert keeps its
    id, title, type, location, measurements, source, creation and expiry
    times; only status, severity, description, recommendations,
    resolvedAt and updatedAt can differ. *)
Theorem patch_rewrites_one_alert now id b w l1 a l2 :
  World.alerts w = l1 ++ a :: l2 →
  Forall (λ x, Alert._id x ≠ id) l1 →
  Alert._id a = id →
  AlertRoutes.validUpdates b = true →
  ∃ a',
    World.alerts (snd (AlertRoutes.patch now id b w)) = l1 ++ a' :: l2
    ∧ World.sensorData (snd (AlertRoutes.patch now id b w)) = World.sensorData w
    ∧ same_record a a'
    ∧ Alert.updatedAt a' = now.
Proof.
  intros Hw Hl1 Ha Hv.
  rewrite (patch_found now id b w a Hv) by (rewrite Hw; by apply find_id_app).
  exists (AlertRoutes.applyUpdates now b a). cbn [snd].
  split_and!; try done.
  cbn. rewrite Hw. by apply updateOne_app.
Qed.

Lemma patch_rewrites_one_alert_witness :
  ∃ a',
    World.alerts
      (snd (AlertRoutes.patch 5 1 (AlertRoutes.mkBody (Some "monitoring") None None None)
              Scenarios.archive))
    = [Samples.quake_alert] ++ a' :: []
    ∧ World.sensorData
        (snd (AlertRoutes.patch 5 1 (AlertRoutes.mkBody (Some "monitoring") None None None)
                Scenarios.archive))
      = World.sensorData Scenarios.archive
    ∧ same_record Scenarios.ganges_alert a'
    ∧ Alert.updatedAt a' = 5%Z.
Proof.
  apply (patch_rewrites_one_alert 5 1
           (AlertRoutes.mkBody (Some "monitoring") None None None)
           Scenarios.archive [Samples.quake_alert] Scenarios.ganges_alert []).
  - reflexivity.
  - repeat constructor. discriminate.
  - reflexivity.
  - reflexivity.
Defined.

(** X9. A PATCH that succeeds pushes 'alert-updated' once to every
    connected socket, whatever rooms it has joined, and the payload is
    the updated document in full, the same the response carries with the
    code 200. *)
Theorem patch_pushes_update_to_every_socket now id b w a :
  AlertRoutes.validUpdates b = true →
  stored id w = Some a →
  ∃ a',
    stored id (snd (AlertRoutes.patch now id b w)) = Some a'
    ∧ fst (AlertRoutes.patch now id b w) = Returned (AlertRoutes.Json 200 (Alert.toJSON a'))
    ∧ World.sockets (snd (AlertRoutes.patch now id b w))
      = deliver [("alert-updated", Alert.toJSON a')] <$> World.sockets w.
Proof.
  intros Hv Hf. rewrite (patch_found now id b w a Hv Hf).
  exists (AlertRoutes.applyUpdates now b a). cbn [fst snd]. split_and!; try done.
  unfold stored. cbn.
  apply find_updateOne with (a := a); [done|].
  destruct (find_id_split id _ a Hf) as (_ & _ & _ & _ & Ha). done.
Qed.

Lemma patch_pushes_update_to_every_socket_witness :
  ∃ a',
    stored 1 (snd (AlertRoutes.patch 5 1 (AlertRoutes.mkBody (Some "monitoring") None None None)
                     Scenarios.archive)) = Some a'
    ∧ fst (AlertRoutes.patch 5 1 (AlertRoutes.mkBody (Some "monitoring") None None None)
             Scenarios.archive)
      = Returned (AlertRoutes.Json 200 (Alert.toJSON a'))
    ∧ World.sockets
        (snd (AlertRoutes.patch 5 1 (AlertRoutes.mkBody (Some "monitoring") None None None)
                Scenarios.archive))
      = deliver [("alert-updated", Alert.toJSON a')] <$> World.sockets Scenarios.archive.
Proof.
  apply (patch_pushes_update_to_every_socket 5 1
           (AlertRoutes.mkBody (Some "monitoring") None None None)
           Scenarios.archive Scenarios.ganges_alert);
    reflexivity.
Defined.

(** X10. No status update clears [resolvedAt]: an alert resolved at one
    instant and later set to any other status carries the new status
    together with the old time of resolution. *)
Theorem reactivation_keeps_resolvedAt t1 t2 id s st w a :
  stored id w = Some a →
  Status.of_string s = Some st →
  st ≠ Status.resolved →
  ∃ a',
    stored id
      (snd (AlertRoutes.patch t2 id (AlertRoutes.mkBody (Some s) None None None)
              (snd (AlertRoutes.patch t1 id
                      (AlertRoutes.mkBody (Some "resolved") None None None) w))))
    = Some a'
    ∧ Alert.status a' = st
    ∧ Alert.resolvedAt a' = Some t1.
Proof.
  intros Hf Hs Hst.
  destruct (find_id_split id _ a Hf) as (_ & _ & _ & _ & Ha).
  rewrite (patch_found t1 id (AlertRoutes.mkBody (Some "resolved") None None None)
             w a eq_refl Hf). cbn [snd].
  set (a1 := AlertRoutes.applyUpdates t1 _ a).
  assert (AlertRoutes.validUpdates (AlertRoutes.mkBody (Some s) None None None) = true) as Hv.
  { unfold AlertRoutes.validUpdates. cbn. rewrite Hs.
    rewrite bool_decide_eq_true_2 by eauto. done. }
  erewrite (patch_found t2 id _ _ a1 Hv); last first.
  { cbn. by apply find_updateOne with (a := a). }
  cbn [snd]. eexists. split.
  { unfold stored. cbn. apply find_updateOne with (a := a1); [|done].
    by apply find_updateOne with (a := a). }
  split.
  - cbn. by rewrite Hs.
  - cbn. rewrite bool_decide_eq_false_2; [done|].
    intros [= ->]. apply Hst. cbn in Hs. by injection Hs.
Qed.

Lemma reactivation_keeps_resolvedAt_witness :
  ∃ a',
    stored 1
      (snd (AlertRoutes.patch 9 1 (AlertRoutes.mkBody (Some "active") None None None)
              (snd (AlertRoutes.patch 5 1
                      (AlertRoutes.mkBody (Some "resolved") None None None)
                      Scenarios.archive))))
    = Some a'
    ∧ Alert.status a' = Status.active
    ∧ Alert.resolvedAt a' = Some 5%Z.
Proof.
  apply (reactivation_keeps_resolvedAt 5 9 1 "active" Status.active Scenarios.archive
           Scenarios.ganges_alert).
  - reflexivity.
  - reflexivity.
  - discriminate.
Defined.

(** X11. Reading back what was written: after a PATCH has answered 200,
    GET /:id with the same id answers 200 with the same document, and
    changes nothing. *)
Theorem get_after_patch_returns_updated_alert now id b w payload :
  fst (AlertRoutes.patch now id b w) = Returned (AlertRoutes.Json 200 payload) →
  AlertReads.getById id (snd (AlertRoutes.patch now id b w))
  = (Returned (AlertRoutes.Json 200 payload), snd (AlertRoutes.patch now id b w)).
Proof.
  intros Hr.
  destruct (AlertRoutes.validUpdates b) eqn:Hv.
  2:{ by rewrite patch_invalid in Hr. }
  destruct (List.find (λ x, Nat.eqb (Alert._id x) id) (World.alerts w)) as [a|] eqn:Hf.
  2:{ by rewrite patch_missing in Hr. }
  destruct (find_id_split id _ a Hf) as (_ & _ & _ & _ & Ha).
  rewrite (patch_found now id b w a Hv Hf) in *. cbn [fst snd] in *.
  injection Hr as <-.
  unfold AlertReads.getById, try_catch, AlertReads.findById.
  cbv [mbind Async_bind mret Async_ret]. cbn [World.alerts World.with_sockets World.with_alerts].
  by rewrite (find_updateOne id (AlertRoutes.applyUpdates now b a) _ a Hf Ha).
Qed.

Lemma get_after_patch_returns_updated_alert_witness :
  AlertReads.getById 1
    (snd (AlertRoutes.patch 5 1 (AlertRoutes.mkBody (Some "monitoring") None None None)
            Scenarios.archive))
  = (Returned (AlertRoutes.Json 200
                 (Alert.toJSON
                    (AlertRoutes.applyUpdates 5
                       (AlertRoutes.mkBody (Some "monitoring") None None None)
                       Scenarios.ganges_alert))),
     snd (AlertRoutes.patch 5 1 (AlertRoutes.mkBody (Some "monitoring") None None None)
            Scenarios.archive)).
Proof.
  apply (get_after_patch_returns_updated_alert 5 1
           (AlertRoutes.mkBody (Some "monitoring") None None None) Scenarios.archive).
  reflexivity.
Defined.

(** ** The end of a suppression *)






(** ** Manual alerts *)

Lemma post_run now b w :
  AlertCreate.post now b w
  = match AlertCreate.document (World.nextId w) b with
    | Some a =>
        (Returned (AlertRoutes.Json 201 (Alert.toJSON (Alerts.stamp now a))),
         World.with_sockets
           (fmap (Socket.push "new-alert" (Alert.toJSON (Alerts.stamp now a))))
           (World.with_alerts (λ l, l ++ [Alerts.stamp now a]) (World.with_nextId S w)))
    | None =>
        (Returned (AlertRoutes.Json 400 (Js.Obj [("error", Js.Str "Alert validation failed")])),
         World.with_nextId S w)
    end.
Proof.
  unfold AlertCreate.post, try_catch.
  cbv [mbind Async_bind mret Async_ret get_world modify Io.emit throw].
  cbn [World.nextId World.with_nextId].
  by destruct (AlertCreate.document (World.nextId w) b).
Qed.




(** X15. A body that fails validation is answered with 400 and leaves
    no trace: when a required key (title, type, severity, description,
    the name, latitude or longitude of the location) is absent, or the
    type, severity or status is outside its enum, no alert is stored and
    nothing is pushed. *)
Theorem post_invalid_body_stores_nothing now b w :
  AlertCreate.title b = None
  ∨ AlertCreate.description b = None
  ∨ AlertCreate.type b ≫= AlertCreate.typeOf = None
  ∨ AlertCreate.severity b ≫= Severity.of_string = None
  ∨ (∃ s, AlertCreate.status b = Some s ∧ Status.of_string s = None)
  ∨ AlertCreate.bodyLocation b ≫= AlertCreate.name = None
  ∨ AlertCreate.bodyLocation b ≫= AlertCreate.latitude = None
  ∨ AlertCreate.bodyLocation b ≫= AlertCreate.longitude = None →
  ∃ payload,
    fst (AlertCreate.post now b w) = Returned (AlertRoutes.Json 400 payload)
    ∧ World.alerts (snd (AlertCreate.post now b w)) = World.alerts w
    ∧ World.sensorData (snd (AlertCreate.post now b w)) = World.sensorData w
    ∧ World.sockets (snd (AlertCreate.post now b w)) = World.sockets w.
Proof.
  intros H. rewrite post_run.
  assert (AlertCreate.document (World.nextId w) b = None) as ->.
  { unfold AlertCreate.document.
    destruct (AlertCreate.title b) as [t|]; [|done]. cbn.
    destruct (AlertCreate.type b ≫= AlertCreate.typeOf) as [ty|]; [|done]. cbn.
    destruct (AlertCreate.severity b ≫= Severity.of_string) as [sev|]; [|done]. cbn.
    destruct (match AlertCreate.status b with
              | Some s => Status.of_string s
              | None => Some Status.active
              end) as [st|] eqn:Hst; [|done]. cbn.
    destruct (AlertCreate.description b) as [desc|]; [|done]. cbn.
    destruct (AlertCreate.bodyLocation b) as [loc|]; [|done]. cbn in *.
    destruct (AlertCreate.name loc) as [n|]; [|done]. cbn.
    destruct (AlertCreate.latitude loc) as [lat|]; [|done]. cbn.
    destruct (AlertCreate.longitude loc) as [lon|]; [|done]. cbn.
    exfalso. destruct H as [?|[?|[?|[?|[(s & Hs & Hn)|[?|[?|?]]]]]]]; try done.
    rewrite Hs in Hst. congruence. }
  eexists. by split_and!.
Qed.

Lemma post_invalid_body_stores_nothing_witness :
  ∃ payload,
    fst (AlertCreate.post 5 Scenarios.untitled Scenarios.archive)
    = Returned (AlertRoutes.Json 400 payload)
    ∧ World.alerts (snd (AlertCreate.post 5 Scenarios.untitled Scenarios.archive))
      = World.alerts Scenarios.archive
    ∧ World.sensorData (snd (AlertCreate.post 5 Scenarios.untitled Scenarios.archive))
      = World.sensorData Scenarios.archive
    ∧ World.sockets (snd (AlertCreate.post 5 Scenarios.untitled Scenarios.archive))
      = World.sockets Scenarios.archive.
Proof.
  apply (post_invalid_body_stores_nothing 5 Scenarios.untitled Scenarios.archive).
  left. reflexivity.
Defined.



(** ** Subscriptions and connections *)

Lemma find_socket_fmap (f : Socket.t → Socket.t) sid l :
  (∀ x, Socket.id (f x) = Socket.id x) →
  List.find (λ s, String.eqb (Socket.id s) sid) (f <$> l)
  = f <$> List.find (λ s, String.eqb (Socket.id s) sid) l.
Proof.
  intros Hid. induction l as [|x l IH]; [done|].
  cbn. rewrite Hid. by destruct (String.eqb (Socket.id x) sid).
Qed.

Lemma join_id sid rs x :
  Socket.id (if String.eqb (Socket.id x) sid then Socket.join rs x else x) = Socket.id x.
Proof. by destruct (String.eqb _ _). Qed.

Lemma to_emit_id room ev payload x :
  Socket.id (if decide (room ∈ Socket.rooms x) then Socket.push ev payload x else x)
  = Socket.id x.
Proof. by case_decide. Qed.

Lemma on_subscribe_run sid types w s c :
  socketOf sid w = Some s →
  World.connectedClients w !! sid = Some c →
  ∃ w', WebSocketService.on_subscribe sid types w = (Returned tt, w')
      ∧ socketOf sid w' = Some (Socket.join types s)
      ∧ World.connectedClients w' !! sid = Some (Client.mk (Client.connectedAt c) types).
Proof.
  intros Hs Hc. unfold WebSocketService.on_subscribe.
  cbv [mbind Async_bind mret Async_ret get_world modify Io.join].
  rewrite Hc. eexists. split; [reflexivity|]. split.
  - unfold socketOf in *. cbn [World.sockets World.with_sockets World.with_clients].
    rewrite find_socket_fmap by apply join_id. rewrite Hs. cbn.
    apply find_some in Hs as [_ ->]. done.
  - cbn. by rewrite lookup_insert_eq.
Qed.

Lemma sendTypeAlert_inbox sid ty payload w s :
  socketOf sid w = Some s →
  inbox sid (snd (WebSocketService.sendTypeAlert ty payload w))
  = if decide (ty ∈ Socket.rooms s)
    then Socket.received s ++ [("new-alert", payload)]
    else Socket.received s.
Proof.
  intros Hs. unfold WebSocketService.sendTypeAlert, Io.to_emit, modify. cbn [snd].
  erewrite inbox_fmap; [|by intros x; case_decide|done].
  by case_decide.
Qed.

(** X17. A connected client that subscribes to a list of types is
    reached by [sendTypeAlert] for each type of the list: the event
    'new-alert' with the payload is appended to what the socket has
    received. *)
Theorem subscribed_client_receives_type_alert sid types ty payload w s c :
  socketOf sid w = Some s →
  World.connectedClients w !! sid = Some c →
  ty ∈ types →
  inbox sid
    (snd ((_ ← WebSocketService.on_subscribe sid types;
           WebSocketService.sendTypeAlert ty payload) w))
  = Socket.received s ++ [("new-alert", payload)].
Proof.
  intros Hs Hc Hty. rewrite bind_run.
  destruct (on_subscribe_run sid types w s c Hs Hc) as (w' & -> & Hs' & _).
  rewrite (sendTypeAlert_inbox sid ty payload w' _ Hs').
  rewrite decide_True; [done|].
  cbn. apply elem_of_union_r, elem_of_list_to_set, Hty.
Qed.

Lemma subscribed_client_receives_type_alert_witness :
  inbox "c1"
    (snd ((_ ← WebSocketService.on_subscribe "c1" ["flood"; "storm"];
           WebSocketService.sendTypeAlert "storm" (Js.Str "x"))
            Samples.flood_subscriber))
  = Socket.received (Socket.mk "c1" ({["c1"]} ∪ list_to_set ["flood"]) [])
    ++ [("new-alert", Js.Str "x")].
Proof.
  apply (subscribed_client_receives_type_alert "c1" ["flood"; "storm"] "storm"
           (Js.Str "x") Samples.flood_subscriber
           (Socket.mk "c1" ({["c1"]} ∪ list_to_set ["flood"]) [])
           (Client.mk 0 ["flood"])).
  - reflexivity.
  - reflexivity.
  - apply elem_of_cons. right. apply elem_of_cons. by left.
Defined.

(** X18. Subscribing again replaces the recorded subscriptions but
    leaves no room: after a second 'subscribe' the client's entry lists
    the second types only, and [sendTypeAlert] for a type of the first
    list still reaches the socket. *)
Theorem resubscription_keeps_old_rooms sid types1 types2 ty payload w s c :
  socketOf sid w = Some s →
  World.connectedClients w !! sid = Some c →
  ty ∈ types1 →
  Client.subscriptions
    <$> World.connectedClients
          (snd ((_ ← WebSocketService.on_subscribe sid types1;
                 WebSocketService.on_subscribe sid types2) w)) !! sid
  = Some types2
  ∧ inbox sid
      (snd ((_ ← WebSocketService.on_subscribe sid types1;
             _ ← WebSocketService.on_subscribe sid types2;
             WebSocketService.sendTypeAlert ty payload) w))
    = Socket.received s ++ [("new-alert", payload)].
Proof.
  intros Hs Hc Hty. rewrite !bind_run.
  destruct (on_subscribe_run sid types1 w s c Hs Hc) as (w1 & -> & Hs1 & Hc1).
  rewrite bind_run.
  destruct (on_subscribe_run sid types2 w1 _ _ Hs1 Hc1) as (w2 & -> & Hs2 & Hc2).
  split.
  - cbn [snd]. by rewrite Hc2.
  - rewrite (sendTypeAlert_inbox sid ty payload w2 _ Hs2).
    rewrite decide_True; [done|].
    cbn. apply elem_of_union_l, elem_of_union_r, elem_of_list_to_set, Hty.
Qed.

Lemma resubscription_keeps_old_rooms_witness :
  Client.subscriptions
    <$> World.connectedClients
          (snd ((_ ← WebSocketService.on_subscribe "c1" ["storm"];
                 WebSocketService.on_subscribe "c1" ["heatwave"])
                  Samples.flood_subscriber)) !! "c1"
  = Some ["heatwave"]
  ∧ inbox "c1"
      (snd ((_ ← WebSocketService.on_subscribe "c1" ["storm"];
             _ ← WebSocketService.on_subscribe "c1" ["heatwave"];
             WebSocketService.sendTypeAlert "storm" (Js.Str "x"))
              Samples.flood_subscriber))
    = Socket.received (Socket.mk "c1" ({["c1"]} ∪ list_to_set ["flood"]) [])
      ++ [("new-alert", Js.Str "x")].
Proof.
  apply (resubscription_keeps_old_rooms "c1" ["storm"] ["heatwave"] "storm" (Js.Str "x")
           Samples.flood_subscriber
           (Socket.mk "c1" ({["c1"]} ∪ list_to_set ["flood"]) [])
           (Client.mk 0 ["flood"])).
  - reflexivity.
  - reflexivity.
  - apply elem_of_cons. by left.
Defined.

Lemma filter_other_sockets sid (l : list Socket.t) :
  List.find (λ s, String.eqb (Socket.id s) sid) l = None →
  List.filter (λ s, negb (String.eqb (Socket.id s) sid)) l = l.
Proof.
  induction l as [|x l IH]; [done|]. cbn.
  destruct (String.eqb (Socket.id x) sid); [done|]. intros H. cbn. by rewrite IH.
Qed.

(** X19. Disconnecting undoes a connection: for an id that was not
    connected, the 'connection' handler followed by the 'disconnect'
    handler leaves the sockets, the table of clients and everything else
    as they were. *)
Theorem disconnect_undoes_connection now sid w :
  socketOf sid w = None →
  World.connectedClients w !! sid = None →
  snd ((_ ← WebSocketService.on_connection now sid;
        WebSocketService.on_disconnect sid) w) = w.
Proof.
  intros Hs Hc.
  cbv [WebSocketService.on_connection WebSocketService.on_disconnect
       mbind Async_bind mret Async_ret modify Io.connect Io.disconnect snd].
  destruct w as [al sd n ss cl rc]. unfold socketOf in Hs. cbn in *.
  cbv [World.with_clients World.with_sockets World.alerts World.sensorData World.nextId
       World.sockets World.connectedClients World.randomCalls].
  f_equal.
  - rewrite List.filter_app, filter_other_sockets by done. cbn.
    rewrite String.eqb_refl. cbn. by rewrite app_nil_r.
  - by rewrite delete_insert_id.
Qed.

Lemma disconnect_undoes_connection_witness :
  snd ((_ ← WebSocketService.on_connection 7 "c9";
        WebSocketService.on_disconnect "c9") Samples.flood_subscriber)
  = Samples.flood_subscriber.
Proof.
  apply (disconnect_undoes_connection 7 "c9" Samples.flood_subscriber); reflexivity.
Defined.

Lemma find_socket_filter sid sid' (l : list Socket.t) :
  sid' ≠ sid →
  List.find (λ s, String.eqb (Socket.id s) sid')
    (List.filter (λ s, negb (String.eqb (Socket.id s) sid)) l)
  = List.find (λ s, String.eqb (Socket.id s) sid') l.
Proof.
  intros Hne. induction l as [|x l IH]; [done|]. cbn.
  destruct (String.eqb (Socket.id x) sid) eqn:E; cbn.
  - apply String.eqb_eq in E. rewrite E.
    assert (String.eqb sid sid' = false) as -> by (apply String.eqb_neq; congruence).
    done.
  - destruct (String.eqb (Socket.id x) sid'); [done|]. apply IH.
Qed.

Lemma find_socket_removed sid (l : list Socket.t) :
  List.find (λ s, String.eqb (Socket.id s) sid)
    (List.filter (λ s, negb (String.eqb (Socket.id s) sid)) l) = None.
Proof.
  induction l as [|x l IH]; [done|]. cbn.
  destruct (String.eqb (Socket.id x) sid) eqn:E; cbn; [done|]. by rewrite E.
Qed.

(** X20. A disconnection removes one client and no other: after the
    'disconnect' handler for an id, a broadcast no longer reaches that
    id and the table of clients has no entry for it, while every other
    connected socket still receives the event. *)
Theorem disconnect_removes_only_its_client sid sid' s' payload w :
  sid' ≠ sid →
  socketOf sid' w = Some s' →
  socketOf sid
    (snd ((_ ← WebSocketService.on_disconnect sid;
           WebSocketService.broadcastAlert payload) w)) = None
  ∧ World.connectedClients
      (snd ((_ ← WebSocketService.on_disconnect sid;
             WebSocketService.broadcastAlert payload) w)) !! sid = None
  ∧ inbox sid'
      (snd ((_ ← WebSocketService.on_disconnect sid;
             WebSocketService.broadcastAlert payload) w))
    = Socket.received s' ++ [("new-alert", payload)].
Proof.
  intros Hne Hs'.
  cbv [WebSocketService.on_disconnect WebSocketService.broadcastAlert
       mbind Async_bind mret Async_ret modify Io.emit Io.disconnect snd].
  unfold socketOf in *. split_and!.
  - cbn. rewrite find_socket_fmap by done. by rewrite find_socket_removed.
  - cbn. by rewrite lookup_delete_eq.
  - erewrite inbox_fmap; [done|done|].
    cbn. by rewrite find_socket_filter.
Qed.

Lemma disconnect_removes_only_its_client_witness :
  socketOf "c1"
    (snd ((_ ← WebSocketService.on_disconnect "c1";
           WebSocketService.broadcastAlert (Js.Str "x")) Scenarios.archive)) = None
  ∧ World.connectedClients
      (snd ((_ ← WebSocketService.on_disconnect "c1";
             WebSocketService.broadcastAlert (Js.Str "x")) Scenarios.archive)) !! "c1"
    = None
  ∧ inbox "c2"
      (snd ((_ ← WebSocketService.on_disconnect "c1";
             WebSocketService.broadcastAlert (Js.Str "x")) Scenarios.archive))
    = Socket.received (Socket.mk "c2" {["c2"; "flood"]} []) ++ [("new-alert", Js.Str "x")].
Proof.
  apply (disconnect_removes_only_its_client "c1" "c2"
           (Socket.mk "c2" {["c2"; "flood"]} []) (Js.Str "x") Scenarios.archive).
  - discriminate.
  - reflexivity.
Defined.

(** ** The adapters on their regular path *)

Section Adapters.
Variable random : nat → Q.
Variable openweather : MonitoredLocation.t → option WeatherResponse.t.
Variable usgs : option (list Feature.t).

Lemma collectWeatherEach_run now locations results w :
  ∃ batch w',
    DataCollectorService.collectWeatherEach openweather now locations results w
    = (Returned (results ++ batch), w')
    ∧ World.sensorData w' = World.sensorData w ++ batch
    ∧ World.alerts w' = World.alerts w
    ∧ World.sockets w' = World.sockets w
    ∧ World.randomCalls w' = World.randomCalls w
    ∧ Forall2 (λ location d, ∃ data, openweather location = Some data
                                   ∧ weather_of now location data d)
        (filter (λ location, is_Some (openweather location)) locations) batch.
Proof.
  revert results w. induction locations as [|location rest IH]; intros results w.
  - exists [], w. rewrite !app_nil_r. by split_and!; [..|constructor].
  - cbn [DataCollectorService.collectWeatherEach]. rewrite bind_run.
    unfold DataCollectorService.collectWeatherAt, try_catch.
    destruct (openweather location) as [data|] eqn:Hresp.
    + rewrite filter_cons_True by (by rewrite Hresp).
      cbv [SensorDatas.save mbind Async_bind mret Async_ret modify].
      match goal with
      | |- context [DataCollectorService.collectWeatherEach openweather now rest
                      (results ++ [?d]) ?w1] =>
          destruct (IH (results ++ [d]) w1) as (batch & w' & -> & Hsd & Hal & Hso & Hrc & HP);
          exists (d :: batch), w'
      end.
      rewrite <- app_assoc. split_and!; try done.
      * rewrite Hsd. cbn. by rewrite <- app_assoc.
      * constructor; [|done]. exists data. split; [done|].
        split_and!; try done. eexists. split; [reflexivity|].
        intros Hrain. cbn in Hrain. by rewrite Hrain.
    + rewrite filter_cons_False by (rewrite Hresp; by intros [? ?]).
      unfold throw. rewrite ret_run. apply IH.
Qed.

(** X21. With an API key configured, the weather adapter returns, in
    the order of the monitored locations, one document for each location
    whose request succeeded, and has stored exactly these documents; a
    failed request costs its location only.  Each document carries the
    location, the wind speed in km/h (the answer's m/s times 3.6), the
    visibility in km and the time of storage; no synthetic reading is
    generated. *)
Theorem weather_adapter_stores_successful_requests this now w :
  DataCollectorService.openWeatherKey this ≠ "" →
  DataCollectorService.openWeatherKey this ≠ "your_openweather_api_key_here" →
  ∃ batch w',
    DataCollectorService.collectWeatherData random openweather this now w
    = (Returned batch, w')
    ∧ World.sensorData w' = World.sensorData w ++ batch
    ∧ World.alerts w' = World.alerts w
    ∧ World.randomCalls w' = World.randomCalls w
    ∧ Forall2 (λ location d, ∃ data, openweather location = Some data
                                   ∧ weather_of now location data d)
        (filter (λ location, is_Some (openweather location))
           (DataCollectorService.monitoredLocations this))
        batch.
Proof.
  intros Hkey Hplaceholder.
  unfold DataCollectorService.collectWeatherData.
  rewrite (eqb_empty_false _ Hkey).
  apply String.eqb_neq in Hplaceholder. rewrite Hplaceholder. cbn [orb].
  destruct (collectWeatherEach_run now (DataCollectorService.monitoredLocations this) [] w)
    as (batch & w' & Hrun & Hsd & Hal & _ & Hrc & HP).
  exists batch, w'. by split_and!.
Qed.



(** ** The synthetic readings *)

Lemma simulatedFlood_run now area w :
  unit_interval random →
  ∃ y w', DataCollectorService.simulatedFlood random now area w = (Returned y, w')
        ∧ only_random w w' ∧ synthetic_flood area y.
Proof.
  intros Hrandom.
  cbv [DataCollectorService.simulatedFlood DataCollectorService.Math_random
       mbind Async_bind mret Async_ret].
  eexists _, _. split; [reflexivity|]. split; [by repeat split|].
  split; [by repeat split|]. split; [done|].
  cbn [World.randomCalls World.with_randomCalls].
  set (n := World.randomCalls w).
  destruct (Hrandom (S n)) as [H1 H1']. destruct (Hrandom (S (S n))) as [H2 H2'].
  set (r1 := random (S n)) in *. set (r2 := random (S (S n))) in *.
  eexists _, _. split; [reflexivity|]. split; [reflexivity|].
  destruct (Js.gt (random n) 0.7).
  - right. split_and!; lra.
  - left. split_and!; lra.
Qed.

(** X23. The flood adapter has no source: it returns five synthetic
    readings, one per flood-prone area, each either quiet (a level from
    1 to 4 m with 5 to 35 mm of rain) or flooding (5 to 15 m with 80 to
    200 mm), and stores none of them. *)
Theorem flood_adapter_returns_unsaved_synthetic_readings this now w :
  unit_interval random →
  ∃ batch w',
    DataCollectorService.collectFloodData random this now w = (Returned batch, w')
    ∧ only_random w w'
    ∧ Forall2 synthetic_flood DataCollectorService.floodProne batch.
Proof.
  intros Hrandom.
  unfold DataCollectorService.collectFloodData,
    DataCollectorService._generateSimulatedFloodData.
  destruct (forEach_spec (DataCollectorService.simulatedFlood random now) synthetic_flood
              DataCollectorService.floodProne) with (results := @nil SensorData.t) (w := w)
    as (ys & w' & Hrun & Hw & HP).
  { intros x w0. by apply simulatedFlood_run. }
  eauto.
Qed.

Lemma simulatedEarthquake_run now w :
  unit_interval random →
  ∃ y w', DataCollectorService.simulatedEarthquake random now w = (Returned y, w')
        ∧ only_random w w' ∧ synthetic_quake y.
Proof.
  intros Hrandom. unfold DataCollectorService.simulatedEarthquake.
  rewrite bind_run. unfold DataCollectorService.Math_random at 1.
  set (n := World.randomCalls w).
  assert (0 ≤ Qfloor (random n * inject_Z (Z.of_nat (length DataCollectorService.zones))) < 5)%Z
    as Hi.
  { destruct (Hrandom n) as [H0 H1]. set (r0 := random n) in *.
    apply floor_between; [change (0 <= r0 * 5)%Q | change (r0 * 5 < 5)%Q]; lra. }
  set (i := Qfloor (random n * inject_Z (Z.of_nat (length DataCollectorService.zones)))) in *.
  destruct (Z.ltb_spec i 0); [lia|].
  destruct (DataCollectorService.zones !! _) as [zone|] eqn:Hz.
  2:{ apply lookup_ge_None in Hz. cbn [length DataCollectorService.zones] in Hz. lia. }
  cbv [DataCollectorService.Math_random mbind Async_bind mret Async_ret].
  eexists _, _. split; [reflexivity|]. split; [by repeat split|].
  cbn [World.randomCalls World.with_randomCalls]. fold n.
  destruct (Hrandom (S n)) as [H1 H1']. destruct (Hrandom (S (S n))) as [H2 H2'].
  destruct (Hrandom (S (S (S n)))) as [H3 H3'].
  destruct (Hrandom (S (S (S (S n))))) as [H4 H4'].
  set (r1 := random (S n)) in *. set (r2 := random (S (S n))) in *.
  set (r3 := random (S (S (S n)))) in *. set (r4 := random (S (S (S (S n))))) in *.
  split_and!; try done.
  - exists zone. split_and!; try done.
    + by eapply list_elem_of_lookup_2.
    + cbn. set (z := MonitoredLocation.lat zone). lra.
    + cbn. set (z := MonitoredLocation.lat zone). lra.
    + cbn. set (z := MonitoredLocation.lon zone). lra.
    + cbn. set (z := MonitoredLocation.lon zone). lra.
  - eexists. split; [reflexivity|]. split; lra.
  - eexists. split; [reflexivity|]. split; lra.
Qed.

(** X24. When the request to USGS fails, the earthquake adapter answers
    with two to six synthetic earthquakes and stores none: each lies
    within 2.5 degrees of one of the five zones and is named after it,
    with a magnitude from 2.5 to 7.5 and a depth from 5 to 305 km. *)
Theorem earthquake_adapter_falls_back_to_synthetic_readings this now w :
  unit_interval random →
  usgs = None →
  ∃ batch w',
    DataCollectorService.collectEarthquakeData random usgs this now w
    = (Returned batch, w')
    ∧ only_random w w'
    ∧ (2 ≤ length batch ≤ 6)%nat
    ∧ Forall synthetic_quake batch.
Proof.
  intros Hrandom ->.
  unfold DataCollectorService.collectEarthquakeData, try_catch, throw.
  unfold DataCollectorService._generateSimulatedEarthquakeData.
  rewrite bind_run. unfold DataCollectorService.Math_random at 1.
  set (r := random (World.randomCalls w)).
  assert (2 ≤ Qfloor (2 + r * 5) < 7)%Z as Hn.
  { destruct (Hrandom (World.randomCalls w)) as [H0 H1]. fold r in H0, H1.
    apply floor_between; [change (2 <= 2 + r * 5)%Q | change (2 + r * 5 < 7)%Q]; lra. }
  destruct (times_spec (DataCollectorService.simulatedEarthquake random now)
              synthetic_quake (Z.to_nat (Qfloor (2 + r * 5))))
    with (results := @nil SensorData.t) (w := World.with_randomCalls S w)
    as (ys & w' & Hrun & Hw & Hlen & HP).
  { intros w0. by apply simulatedEarthquake_run. }
  exists ys, w'. split_and!.
  - cbv beta iota zeta. by rewrite Hrun.
  - eapply only_random_trans; [|done]. by repeat split.
  - lia.
  - lia.
  - done.
Qed.

(** X25. The flood job evaluates what is stored, not what it has just
    collected: the synthetic readings of the flood adapter are dropped,
    so that with no stored reading younger than thirty minutes the job
    raises no alert and pushes no event, whatever the readings showed. *)
Theorem flood_job_drops_synthetic_readings dataCollector alertService now w :
  (∀ d c, d ∈ World.sensorData w → SensorData.createdAt d = Some c →
          (c < now - AlertService.minutes 30)%Z) →
  fst (DataCollectorService.floodJob random dataCollector alertService now w)
  = Returned tt
  ∧ only_random w
      (snd (DataCollectorService.floodJob random dataCollector alertService now w)).
Proof.
  intros Hstale. unfold DataCollectorService.floodJob, try_catch. rewrite bind_run.
  destruct (flood_always_simulated random dataCollector now w)
    as (batch & w' & -> & Hw & _).
  rewrite bind_run.
  unfold AlertService.evaluateAlerts, try_catch. rewrite bind_run.
  unfold SensorDatas.find_since. cbn [fst snd].
  rewrite find_since_stale; [done|].
  destruct Hw as (_ & -> & _). apply Hstale.
Qed.

Lemma simulatedWeather_run now location w :
  unit_interval random →
  ∃ y w', DataCollectorService.simulatedWeather random now location w = (Returned y, w')
        ∧ only_random w w' ∧ synthetic_weather location y.
Proof.
  intros Hrandom.
  cbv [DataCollectorService.simulatedWeather DataCollectorService.Math_random
       mbind Async_bind mret Async_ret].
  eexists _, _. split; [reflexivity|]. split; [by repeat split|].
  split; [by repeat split|]. split; [done|].
  cbn [World.randomCalls World.with_randomCalls].
  set (n := World.randomCalls w).
  destruct (Hrandom n) as [H0 H0'].
  destruct (Hrandom (S (S (S (S n))))) as [H4 H4'].
  destruct (Hrandom (S (S (S (S (S (S n))))))) as [H6 H6'].
  set (r0 := random n) in *. set (r4 := random (S (S (S (S n))))) in *.
  set (r6 := random (S (S (S (S (S (S n))))))) in *.
  eexists _, _, _. split; [reflexivity|]. split; [reflexivity|]. split; [reflexivity|].
  destruct (Js.gt (random (S n)) 0.85).
  - right. split_and!; lra.
  - left. split_and!; lra.
Qed.

(** X26. Without an API key, or with the placeholder key, the weather
    adapter returns one synthetic reading per monitored location and
    stores none; each is either calm (15 to 35 degrees, wind from 5 to
    35 km/h, up to 20 mm of rain) or extreme (30 to 50 degrees, wind
    from 80 to 180 km/h, 50 to 200 mm of rain). *)
Theorem weather_adapter_without_key_returns_synthetic_readings this now w :
  unit_interval random →
  DataCollectorService.openWeatherKey this = ""
  ∨ DataCollectorService.openWeatherKey this = "your_openweather_api_key_here" →
  ∃ batch w',
    DataCollectorService.collectWeatherData random openweather this now w
    = (Returned batch, w')
    ∧ only_random w w'
    ∧ Forall2 synthetic_weather (DataCollectorService.monitoredLocations this) batch.
Proof.
  intros Hrandom Hkey. unfold DataCollectorService.collectWeatherData.
  assert (String.eqb (DataCollectorService.openWeatherKey this) ""
          || String.eqb (DataCollectorService.openWeatherKey this)
               "your_openweather_api_key_here" = true) as ->.
  { destruct Hkey as [-> | ->]; reflexivity. }
  unfold DataCollectorService._generateSimulatedWeatherData.
  destruct (forEach_spec (DataCollectorService.simulatedWeather random now)
              synthetic_weather (DataCollectorService.monitoredLocations this))
    with (results := @nil SensorData.t) (w := w)
    as (ys & w' & Hrun & Hw & HP).
  { intros x w0. by apply simulatedWeather_run. }
  eauto.
Qed.

End Adapters.

Lemma weather_adapter_stores_successful_requests_witness :
  ∃ batch w',
    DataCollectorService.collectWeatherData Scenarios.steady Scenarios.delhi_only
      (DataCollectorService.constructor (Some "0123456789abcdef0123456789abcdef") None)
      0 World.empty
    = (Returned batch, w')
    ∧ World.sensorData w' = World.sensorData World.empty ++ batch
    ∧ World.alerts w' = World.alerts World.empty
    ∧ World.randomCalls w' = World.randomCalls World.empty
    ∧ Forall2 (λ location d, ∃ data, Scenarios.delhi_only location = Some data
                                   ∧ weather_of 0 location data d)
        (filter (λ location, is_Some (Scenarios.delhi_only location))
           (DataCollectorService.monitoredLocations
              (DataCollectorService.constructor
                 (Some "0123456789abcdef0123456789abcdef") None)))
        batch.
Proof.
  apply (weather_adapter_stores_successful_requests Scenarios.steady Scenarios.delhi_only
           (DataCollectorService.constructor
              (Some "0123456789abcdef0123456789abcdef") None) 0 World.empty);
    discriminate.
Defined.


Lemma flood_adapter_returns_unsaved_synthetic_readings_witness :
  ∃ batch w',
    DataCollectorService.collectFloodData Scenarios.steady
      (DataCollectorService.constructor None None) 0 World.empty
    = (Returned batch, w')
    ∧ only_random World.empty w'
    ∧ Forall2 synthetic_flood DataCollectorService.floodProne batch.
Proof.
  apply (flood_adapter_returns_unsaved_synthetic_readings Scenarios.steady
           (DataCollectorService.constructor None None) 0 World.empty).
  intros n. split; [discriminate|reflexivity].
Defined.

Lemma earthquake_adapter_falls_back_to_synthetic_readings_witness :
  ∃ batch w',
    DataCollectorService.collectEarthquakeData Scenarios.steady None
      (DataCollectorService.constructor None None) 0 World.empty
    = (Returned batch, w')
    ∧ only_random World.empty w'
    ∧ (2 ≤ length batch ≤ 6)%nat
    ∧ Forall synthetic_quake batch.
Proof.
  apply (earthquake_adapter_falls_back_to_synthetic_readings Scenarios.steady None
           (DataCollectorService.constructor None None) 0 World.empty).
  - intros n. split; [discriminate|reflexivity].
  - reflexivity.
Defined.

Lemma flood_job_drops_synthetic_readings_witness :
  fst (DataCollectorService.floodJob Scenarios.steady
         (DataCollectorService.constructor None None) (AlertService.constructor true)
         1800001 Scenarios.station)
  = Returned tt
  ∧ only_random Scenarios.station
      (snd (DataCollectorService.floodJob Scenarios.steady
              (DataCollectorService.constructor None None) (AlertService.constructor true)
              1800001 Scenarios.station)).
Proof.
  apply (flood_job_drops_synthetic_readings Scenarios.steady
           (DataCollectorService.constructor None None) (AlertService.constructor true)
           1800001 Scenarios.station).
  intros d c Hd Hc. cbn in Hd.
  apply elem_of_cons in Hd as [->|Hd]; [|apply elem_of_cons in Hd as [->|Hd]].
  - injection Hc as <-. reflexivity.
  - injection Hc as <-. reflexivity.
  - by apply not_elem_of_nil in Hd.
Defined.

Lemma weather_adapter_without_key_returns_synthetic_readings_witness :
  ∃ batch w',
    DataCollectorService.collectWeatherData Scenarios.steady Scenarios.delhi_only
      (DataCollectorService.constructor None None) 0 World.empty
    = (Returned batch, w')
    ∧ only_random World.empty w'
    ∧ Forall2 synthetic_weather
        (DataCollectorService.monitoredLocations
           (DataCollectorService.constructor None None)) batch.
Proof.
  apply (weather_adapter_without_key_returns_synthetic_readings Scenarios.steady
           Scenarios.delhi_only (DataCollectorService.constructor None None) 0
           World.empty).
  - intros n. split; [discriminate|reflexivity].
  - left. reflexivity.
Defined.

(** ** The listing of active alerts *)

Lemma before_listedBefore a b : AlertReads.before a b ↔ listedBefore a b.
Proof.
  unfold AlertReads.before, listedBefore.
  destruct (Alert.severity a), (Alert.severity b); cbn; split;
    try tauto; try lia; try (intros [?|[? ?]]; (lia || done));
    try (intros ?; by right); try (intros ?; left; lia).
Qed.

#[local] Instance before_total : Total AlertReads.before.
Proof.
  intros a b. rewrite !before_listedBefore. unfold listedBefore.
  destruct (Alert.severity a), (Alert.severity b); cbn;
    try (left; left; lia); try (right; left; lia);
    destruct (Z.le_ge_cases (Alert.createdAt a) (Alert.createdAt b));
    (by left; right) || (by right; right) || idtac.
  all: try (right; right; split; [done|lia]); try (left; right; split; [done|lia]).
Qed.

#[local] Instance before_trans : Transitive AlertReads.before.
Proof.
  intros a b c. rewrite !before_listedBefore. unfold listedBefore.
  intros [H1|[E1 H1]] [H2|[E2 H2]].
  - left. lia.
  - left. by rewrite <- E2.
  - left. by rewrite E1.
  - right. split; [congruence|lia].
Qed.

Lemma activeQuery_current now a : AlertReads.activeQuery now a = true ↔ current now a.
Proof.
  unfold AlertReads.activeQuery, current.
  rewrite andb_true_iff, bool_decide_eq_true.
  destruct (Alert.expiresAt a) as [e|].
  - rewrite Z.leb_le. split.
    + intros [? ?]. split; [done|]. by intros ? [= <-].
    + intros [? H]. split; [done|]. by apply H.
  - split; [|tauto]. intros [? _]. by split.
Qed.

Lemma StronglySorted_take {A} (R : A → A → Prop) n (l : list A) :
  StronglySorted R l → StronglySorted R (take n l).
Proof.
  intros H. revert n. induction H as [|x l Hl IH Hx]; intros [|n]; cbn; try constructor.
  - apply IH.
  - eapply Forall_forall. intros y Hy. eapply Forall_forall in Hx; [done|].
    by eapply subseteq_take.
Qed.

Lemma StronglySorted_weaken {A} (R R' : A → A → Prop) (l : list A) :
  (∀ a b, R a b → R' a b) → StronglySorted R l → StronglySorted R' l.
Proof.
  intros HR H. induction H as [|x l Hl IH Hx]; constructor; [done|].
  eapply Forall_impl; [done|]. intros y. apply HR.
Qed.

(** X27. GET /active answers with at most fifty alerts of the
    collection, each active and not expired at the instant of the
    request, and changes nothing.  The listing is sorted by the severity
    as a string, in descending order, so that medium alerts come first,
    then low, then high, and critical alerts come last; within one
    severity the newest alert comes first. *)
Theorem active_listing_sorted_by_severity_string now w :
  ∃ l,
    AlertReads.getActive now w
    = (Returned (AlertRoutes.Json 200
                   (Js.Obj [("alerts", Js.Arr (Alert.toJSON <$> l));
                            ("count", Js.Num (inject_Z (Z.of_nat (length l))))])),
       w)
    ∧ (length l ≤ 50)%nat
    ∧ Forall (λ a, a ∈ World.alerts w ∧ current now a) l
    ∧ StronglySorted listedBefore l.
Proof.
  eexists. split; [reflexivity|]. split_and!.
  - rewrite length_take. lia.
  - apply Forall_forall. intros a Ha%subseteq_take.
    rewrite merge_sort_Permutation in Ha.
    apply list_elem_of_In, filter_In in Ha as [Ha Hq].
    split; [by apply list_elem_of_In|by apply activeQuery_current].
  - apply StronglySorted_take.
    eapply (StronglySorted_weaken AlertReads.before).
    + intros a b. apply before_listedBefore.
    + apply (StronglySorted_merge_sort _).
Qed.

(** X28. While at most fifty alerts are active and unexpired, GET
    /active lists every one of them, each once. *)
Theorem active_listing_complete_up_to_fifty now w :
  (length (List.filter (AlertReads.activeQuery now) (World.alerts w)) ≤ 50)%nat →
  ∃ l,
    AlertReads.findActive now w = (Returned l, w)
    ∧ l ≡ₚ List.filter (AlertReads.activeQuery now) (World.alerts w).
Proof.
  intros Hlen. eexists. split; [reflexivity|].
  rewrite take_ge.
  - apply merge_sort_Permutation.
  - by rewrite merge_sort_Permutation.
Qed.

Lemma active_listing_complete_up_to_fifty_witness :
  ∃ l,
    AlertReads.findActive 5 Scenarios.archive = (Returned l, Scenarios.archive)
    ∧ l ≡ₚ List.filter (AlertReads.activeQuery 5) (World.alerts Scenarios.archive).
Proof.
  apply (active_listing_complete_up_to_fifty 5 Scenarios.archive).
  vm_compute. lia.
Defined.

(** ** The rule-based fallback prediction *)

Section Fallback.
Variable random : nat → Q.



End Fallback.

